(** * Router agent: intent classification and orchestration

    A shallow embedding of [src/agents/router_agent.py]: the keyword
    classifier [classify_intent], the collaborator calls [data_call] and
    [support_call], the envelope builder [build_response] and the
    endpoint handlers [router_call] and [router_message].

    Conventions of the embedding.
    - Text is a [string] of 8-bit code points (Latin-1); [lower], [strip]
      and the character classes of the regular expressions follow what
      Python does on code points below 256.
    - JSON values are the type [json]; JSON numbers are integers ([Z]),
      objects are association lists in insertion order.
    - A Python exception is an [exn]; code that may raise returns an
      [outcome].  The handler runs in a state and error monad whose state
      holds the collaborators' world, the exchanges made so far and the
      local list [logs].
    - The interpreter's limit on the length of decimal strings accepted
      by [int] is not modelled. *)

From Stdlib Require Import String Ascii List ZArith NArith Lia Bool.
From Stdlib Require Import Decimal DecimalString DecimalZ.
Import ListNotations.
Local Open Scope list_scope.
Local Open Scope string_scope.
#[local] Set Warnings "-register-all".

(* ================================================================== *)
(** ** Text primitives *)
(* ================================================================== *)

Module Text.

(** [str.lower()] on one code point below 256: A-Z and the capital
    letters U+00C0-U+00DE (U+00D7, the multiplication sign, apart) move
    up by 32. *)
Definition lower_char (c : ascii) : ascii :=
  let n := N_of_ascii c in
  if ((65 <=? n) && (n <=? 90) || (192 <=? n) && (n <=? 222) && negb (n =? 215))%N
  then ascii_of_N (n + 32) else c.

Fixpoint lower (s : string) : string :=
  match s with
  | EmptyString => EmptyString
  | String c r => String (lower_char c) (lower r)
  end.

(** Whitespace as [str.isspace], [str.strip] and the class [\s] of a
    [str] pattern see it: TAB..CR, FS..US, space, NEL and NBSP. *)
Definition is_space (c : ascii) : bool :=
  let n := N_of_ascii c in
  ((9 <=? n) && (n <=? 13) || (28 <=? n) && (n <=? 32) || (n =? 133) || (n =? 160))%N.

(** The class [\d]: below 256 the only decimal digits are 0-9. *)
Definition is_digit (c : ascii) : bool :=
  let n := N_of_ascii c in ((48 <=? n) && (n <=? 57))%N.

(** [needle in hay] for two strings. *)
Fixpoint str_in (needle hay : string) : bool :=
  if prefix needle hay then true
  else match hay with
       | EmptyString => false
       | String _ r => str_in needle r
       end.

(** The longest prefix whose characters satisfy [p], and what follows. *)
Fixpoint span (p : ascii -> bool) (s : string) : string * string :=
  match s with
  | EmptyString => (EmptyString, EmptyString)
  | String c r =>
      if p c then let (a, b) := span p r in (String c a, b)
      else (EmptyString, s)
  end.

(** [s] without its literal prefix [lit], when it has it. *)
Fixpoint drop_prefix (lit s : string) : option string :=
  match lit with
  | EmptyString => Some s
  | String a lit' =>
      match s with
      | EmptyString => None
      | String b s' => if Ascii.eqb a b then drop_prefix lit' s' else None
      end
  end.

Definition is_empty (s : string) : bool :=
  match s with EmptyString => true | _ => false end.

(** [re.search]: the match attempt [m] is tried at every position from
    the left; the first success wins.  [m] returns group 1. *)
Fixpoint re_search (m : string -> option string) (s : string) : option string :=
  match m s with
  | Some g => Some g
  | None => match s with
            | EmptyString => None
            | String _ r => re_search m r
            end
  end.

(** One attempt of [<word>\s+(\d+)] at the head of [s].  Both loops are
    greedy; as no character is both a space and a digit, giving back
    spaces can never help, so the greedy attempt decides. *)
Definition match_number_after (word s : string) : option string :=
  match drop_prefix word s with
  | None => None
  | Some r =>
      let (ws, r1) := span is_space r in
      if is_empty ws then None
      else let (ds, _) := span is_digit r1 in
           if is_empty ds then None else Some ds
  end.

(** One attempt of [update my email to ([^\s]+)] at the head of [s]. *)
Definition match_email (s : string) : option string :=
  match drop_prefix "update my email to " s with
  | None => None
  | Some r =>
      let (tok, _) := span (fun c => negb (is_space c)) r in
      if is_empty tok then None else Some tok
  end.

(** [re.search(r"id\s+(\d+)", s)], [re.search(r"customer\s+(\d+)", s)]
    and [re.search(r"update my email to ([^\s]+)", s)], each giving
    [m.group(1)]. *)
Definition search_id : string -> option string :=
  re_search (match_number_after "id").
Definition search_customer : string -> option string :=
  re_search (match_number_after "customer").
Definition search_email : string -> option string :=
  re_search match_email.

Definition digit_value (c : ascii) : Z := Z.of_N (N_of_ascii c) - 48.

Fixpoint int_of_digits_from (acc : Z) (s : string) : Z :=
  match s with
  | EmptyString => acc
  | String c r => int_of_digits_from (10 * acc + digit_value c) r
  end.

(** [int(ds)] for a string of decimal digits. *)
Definition int_of_digits (ds : string) : Z := int_of_digits_from 0 ds.

(** [str(n)] for an integer. *)
Definition str_of_int (z : Z) : string := NilZero.string_of_int (Z.to_int z).

Fixpoint rev_string_onto (s acc : string) : string :=
  match s with
  | EmptyString => acc
  | String c r => rev_string_onto r (String c acc)
  end.

Definition rev_string (s : string) : string := rev_string_onto s EmptyString.

Fixpoint lstrip (s : string) : string :=
  match s with
  | EmptyString => EmptyString
  | String c r => if is_space c then lstrip r else s
  end.

(** [s.strip()] *)
Definition strip (s : string) : string :=
  rev_string (lstrip (rev_string (lstrip s))).

(** [sep.join(parts)] *)
Definition join (sep : string) (parts : list string) : string :=
  String.concat sep parts.

End Text.
Import Text.

(* ================================================================== *)
(** ** The classifier *)
(* ================================================================== *)

(** [classify_intent], with the conditions in the shape the source
    writes them. *)
Definition classify_intent (text : string) : string :=
  let t := lower text in
  if (str_in "active customers" t && str_in "open ticket" t)
     || (str_in "active customers" t && str_in "open tickets" t)
  then "MULTI_OPEN"
  else if str_in "update my email" t && str_in "ticket history" t
  then "MULTI_UPDATE"
  else if str_in "upgrade" t || str_in "upgrading my account" t
  then "MULTI_COORD"
  else if str_in "charged twice" t || str_in "refund" t
          || str_in "cancel" t || str_in "billing" t
  then "SUPPORT"
  else if str_in "get customer information" t
          || str_in "get customer info" t || str_in "customer id" t
  then "DATA"
  else "DATA".

(** *** The classifier as the specification words it: an ordered rule
    list, first match wins. *)

Inductive Intent := DATA | SUPPORT | MULTI_OPEN | MULTI_COORD | MULTI_UPDATE.

Definition label (i : Intent) : string :=
  match i with
  | DATA => "DATA"
  | SUPPORT => "SUPPORT"
  | MULTI_OPEN => "MULTI_OPEN"
  | MULTI_COORD => "MULTI_COORD"
  | MULTI_UPDATE => "MULTI_UPDATE"
  end.

(** Case-insensitive substring test: [phrase] is in lower case. *)
Definition mentions (phrase text : string) : bool := str_in phrase (lower text).

Definition rule_multi_open (t : string) : bool :=
  mentions "active customers" t
  && (mentions "open ticket" t || mentions "open tickets" t).
Definition rule_multi_update (t : string) : bool :=
  mentions "update my email" t && mentions "ticket history" t.
Definition rule_multi_coord (t : string) : bool :=
  mentions "upgrade" t || mentions "upgrading my account" t.
Definition rule_support (t : string) : bool :=
  existsb (fun p => mentions p t) ["charged twice"; "refund"; "cancel"; "billing"].
Definition rule_data (t : string) : bool :=
  existsb (fun p => mentions p t)
          ["get customer information"; "get customer info"; "customer id"].

Definition spec_rules : list ((string -> bool) * Intent) :=
  [ (rule_multi_open, MULTI_OPEN);
    (rule_multi_update, MULTI_UPDATE);
    (rule_multi_coord, MULTI_COORD);
    (rule_support, SUPPORT);
    (rule_data, DATA) ].

Definition spec_classify (t : string) : Intent :=
  match find (fun r => fst r t) spec_rules with
  | Some r => snd r
  | None => DATA
  end.

(* ================================================================== *)
(** ** JSON values and the Python operations the handler applies to them *)
(* ================================================================== *)

Inductive json :=
| JNull
| JBool (b : bool)
| JInt (z : Z)
| JStr (s : string)
| JList (items : list json)
| JObj (fields : list (string * json)).

Definition dict := list (string * json).

Inductive exn :=
| ConnectionError               (* requests.post raised: unreachable, timeout *)
| HTTPError (status : Z)        (* raise_for_status *)
| JSONDecodeError               (* r.json() on a body that is not JSON *)
| RuntimeError (payload : json)
| KeyError (key : string)
| TypeError
| AttributeError
| ValueError.

Inductive outcome (A : Type) :=
| Ok (a : A)
| Raise (e : exn).
Arguments Ok {A} a.
Arguments Raise {A} e.

Module Py.

Definition nl : string := String (ascii_of_N 10) EmptyString.
Definition dquote : ascii := ascii_of_N 34.
Definition squote : ascii := ascii_of_N 39.
Definition backslash : ascii := ascii_of_N 92.

(** [d.get(k, dflt)] and [k in d] on a dictionary. *)
Fixpoint dict_get (d : dict) (k : string) (dflt : json) : json :=
  match d with
  | [] => dflt
  | (k', v) :: r => if String.eqb k' k then v else dict_get r k dflt
  end.

Fixpoint dict_has (d : dict) (k : string) : bool :=
  match d with
  | [] => false
  | (k', _) :: r => String.eqb k' k || dict_has r k
  end.

(** [d[k] = v]: the value of an existing key is replaced in place, a
    new key goes last. *)
Fixpoint dict_set (d : dict) (k : string) (v : json) : dict :=
  match d with
  | [] => [(k, v)]
  | (k', v') :: r =>
      if String.eqb k' k then (k', v) :: r else (k', v') :: dict_set r k v
  end.

(** [repr] of a string. *)
Definition hex_digit (n : N) : ascii :=
  if (n <? 10)%N then ascii_of_N (48 + n) else ascii_of_N (87 + n).

Definition hex_escape (c : ascii) : string :=
  let n := N_of_ascii c in
  String backslash (String "x" (String (hex_digit (n / 16))
                                       (String (hex_digit (n mod 16)) EmptyString))).

Definition is_printable (c : ascii) : bool :=
  let n := N_of_ascii c in
  if (n <? 32)%N then false
  else if (n <? 127)%N then true
  else if (n <? 161)%N then false
  else negb (n =? 173)%N.

Definition has_char (c : ascii) (s : string) : bool :=
  str_in (String c EmptyString) s.

Definition repr_char (quote c : ascii) : string :=
  if Ascii.eqb c quote || Ascii.eqb c backslash
  then String backslash (String c EmptyString)
  else if (N_of_ascii c =? 9)%N then String backslash "t"
  else if (N_of_ascii c =? 10)%N then String backslash "n"
  else if (N_of_ascii c =? 13)%N then String backslash "r"
  else if is_printable c then String c EmptyString
  else hex_escape c.

Fixpoint repr_chars (quote : ascii) (s : string) : string :=
  match s with
  | EmptyString => EmptyString
  | String c r => repr_char quote c ++ repr_chars quote r
  end.

Definition repr_str (s : string) : string :=
  let quote := if has_char squote s && negb (has_char dquote s)
               then dquote else squote in
  String quote (repr_chars quote s ++ String quote EmptyString).

(** [repr(v)] *)
Fixpoint repr (v : json) : string :=
  match v with
  | JNull => "None"
  | JBool true => "True"
  | JBool false => "False"
  | JInt z => str_of_int z
  | JStr s => repr_str s
  | JList items => "[" ++ join ", " (map repr items) ++ "]"
  | JObj fields =>
      "{" ++ join ", " (map (fun kv => match kv with
                                       | (k, x) => repr_str k ++ ": " ++ repr x
                                       end) fields) ++ "}"
  end.

(** [str(v)], which is also how an f-string formats [v]. *)
Definition str (v : json) : string :=
  match v with
  | JStr s => s
  | _ => repr v
  end.

(** Truth value of [v] in a condition. *)
Definition truthy (v : json) : bool :=
  match v with
  | JNull => false
  | JBool b => b
  | JInt z => negb (z =? 0)%Z
  | JStr s => negb (is_empty s)
  | JList items => match items with [] => false | _ => true end
  | JObj fields => match fields with [] => false | _ => true end
  end.

(** The blanks [int] skips around a numeral. *)
Definition int_space (c : ascii) : bool :=
  let n := N_of_ascii c in
  ((9 <=? n) && (n <=? 13) || (n =? 32) || (n =? 133) || (n =? 160))%N.

Fixpoint lstrip_int (s : string) : string :=
  match s with
  | EmptyString => EmptyString
  | String c r => if int_space c then lstrip_int r else s
  end.

(** Digits with single underscores between them. *)
Fixpoint digits_underscores (after_digit : bool) (acc : Z) (s : string) : option Z :=
  match s with
  | EmptyString => if after_digit then Some acc else None
  | String c r =>
      if is_digit c then digits_underscores true (10 * acc + digit_value c) r
      else if Ascii.eqb c "_" then
             if after_digit then digits_underscores false acc r else None
      else None
  end.

Definition int_of_str (s : string) : option Z :=
  let t := rev_string (lstrip_int (rev_string (lstrip_int s))) in
  match t with
  | String "-" r => option_map Z.opp (digits_underscores false 0 r)
  | String "+" r => digits_underscores false 0 r
  | _ => digits_underscores false 0 t
  end.

(** [int(v)] *)
Definition int (v : json) : outcome Z :=
  match v with
  | JInt z => Ok z
  | JBool b => Ok (if b then 1 else 0)%Z
  | JStr s => match int_of_str s with Some z => Ok z | None => Raise ValueError end
  | _ => Raise TypeError
  end.

(** [v.get(k, dflt)]: only a dictionary has the method. *)
Definition get (v : json) (k : string) (dflt : json) : outcome json :=
  match v with
  | JObj d => Ok (dict_get d k dflt)
  | _ => Raise AttributeError
  end.

(** [v[k]] with a string key. *)
Definition getitem (v : json) (k : string) : outcome json :=
  match v with
  | JObj d => if dict_has d k then Ok (dict_get d k JNull) else Raise (KeyError k)
  | _ => Raise TypeError
  end.

Definition is_str (k : string) (v : json) : bool :=
  match v with JStr s => String.eqb s k | _ => false end.

(** [k in v] with a string [k]: a key of a dictionary, an element of a
    list, a substring of a string. *)
Definition contains (k : string) (v : json) : outcome bool :=
  match v with
  | JObj d => Ok (dict_has d k)
  | JList items => Ok (existsb (is_str k) items)
  | JStr s => Ok (str_in k s)
  | _ => Raise TypeError
  end.

Fixpoint chars (s : string) : list json :=
  match s with
  | EmptyString => []
  | String c r => JStr (String c EmptyString) :: chars r
  end.

(** What [for x in v] runs over. *)
Definition iter (v : json) : outcome (list json) :=
  match v with
  | JList items => Ok items
  | JObj d => Ok (map (fun kv => JStr (fst kv)) d)
  | JStr s => Ok (chars s)
  | _ => Raise TypeError
  end.

End Py.

(* ================================================================== *)
(** ** Exceptions and the handler's monad *)
(* ================================================================== *)

Definition obind {A B : Type} (o : outcome A) (k : A -> outcome B) : outcome B :=
  match o with
  | Ok a => k a
  | Raise e => Raise e
  end.

Notation "x <-? o ;; k" := (obind o (fun x => k))
  (at level 61, o at next level, right associativity).

(** What [requests.post] comes back with: nothing (it raised), or a
    status code and a body, [None] when the body is not JSON. *)
Inductive response :=
| NoResponse
| Response (status : Z) (body : option json).

(** One request made to a collaborator and what came back. *)
Record exchange := Exchange {
  ex_url : string;
  ex_json : json;
  ex_response : response
}.

(** The state a request runs in: the collaborators' world, the
    exchanges made so far, and the handler's local list [logs]. *)
Record rstate (W : Type) := RState {
  world : W;
  sent : list exchange;
  logs : list string
}.
Arguments RState {W} world sent logs.
Arguments world {W} r.
Arguments sent {W} r.
Arguments logs {W} r.

Definition M (W A : Type) : Type := rstate W -> outcome A * rstate W.

Definition ret {W A} (a : A) : M W A := fun st => (Ok a, st).

Definition bind {W A B} (m : M W A) (k : A -> M W B) : M W B :=
  fun st => match m st with
            | (Ok a, st') => k a st'
            | (Raise e, st') => (Raise e, st')
            end.

Definition raise {W A} (e : exn) : M W A := fun st => (Raise e, st).

Definition lift {W A} (o : outcome A) : M W A := fun st => (o, st).

(** [logs.append(line)] *)
Definition log {W} (line : string) : M W unit :=
  fun st => (Ok tt, RState (world st) (sent st) (logs st ++ [line])%list).

(** [logs = []] *)
Definition new_logs {W} : M W unit :=
  fun st => (Ok tt, RState (world st) (sent st) []).

Definition read_logs {W} : M W (list string) := fun st => (Ok (logs st), st).

Notation "x <- m ;; k" := (bind m (fun x => k))
  (at level 61, m at next level, right associativity).
Notation "m ;;; k" := (bind m (fun _ => k))
  (at level 61, right associativity).

(* ================================================================== *)
(** ** The router *)
(* ================================================================== *)

Definition DATA_BASE : string := "http://127.0.0.1:9102".
Definition SUPPORT_BASE : string := "http://127.0.0.1:9103".

Record A2ACallRequest := {
  tool : string;
  arguments : option dict
}.

Record RouterMessageRequest := {
  role : string;
  content : string
}.

(** [build_response]: the payload and, under [result], a copy of it. *)
Definition build_response (payload : dict) : dict :=
  let cloned := payload in
  Py.dict_set cloned "result" (JObj payload).

(** The statuses that are no success for [requests]: [raise_for_status]
    raises on the 4xx and 5xx codes. *)
Definition error_status (status : Z) : bool :=
  ((400 <=? status) && (status <? 600))%Z.

(** What [data_call] and [support_call] do with the response:
    [raise_for_status], [r.json()], the test for an error shape, and
    [js.get("result", js)]. *)
Definition decode (r : response) : outcome json :=
  match r with
  | NoResponse => Raise ConnectionError
  | Response status body =>
      if error_status status then Raise (HTTPError status)
      else match body with
           | None => Raise JSONDecodeError
           | Some js =>
               has_error <-? Py.contains "error" js ;;
               if has_error : bool
               then e <-? Py.getitem js "error" ;; Raise (RuntimeError e)
               else Py.get js "result" js
           end
  end.

Section Router.

Context {W : Type}.

(** The collaborators: a POST of a JSON body to a URL, in a world that
    the request may change. *)
Variable http_post : W -> string -> json -> response * W.

Definition post (url : string) (body : json) : M W response :=
  fun st =>
    let (r, w') := http_post (world st) url body in
    (Ok r, RState w' (sent st ++ [Exchange url body r])%list (logs st)).

(** The common body of [data_call] and [support_call]: the POST, then
    [decode] on what came back. *)
Definition agent_call (url tool : string) (arguments : json) : M W json :=
  r <- post url (JObj [("tool", JStr tool); ("arguments", arguments)]) ;;
  lift (decode r).

Definition data_call : string -> json -> M W json :=
  agent_call (DATA_BASE ++ "/a2a/data/call").

Definition support_call : string -> json -> M W json :=
  agent_call (SUPPORT_BASE ++ "/a2a/support/call").

Definition envelope (scenario route : string) (final : json) : M W json :=
  lg <- read_logs ;;
  let payload := [("scenario", JStr scenario); ("route", JStr route);
                  ("logs", JList (map JStr lg)); ("final", final)] in
  ret (JObj (build_response payload)).

(** [int(m.group(1)) if m else int(args.get("customer_id", dflt))] *)
Definition customer_id_of (m : option string) (args : dict) (dflt : Z) : outcome Z :=
  match m with
  | Some g => Ok (int_of_digits g)
  | None => Py.int (Py.dict_get args "customer_id" (JInt dflt))
  end.

(** *** DATA *)
Definition route_data (args : dict) (query : string) : M W json :=
  log "Router classified as DATA" ;;;
  let m := search_id (lower query) in
  cid <- lift (customer_id_of m args 1) ;;
  result <- data_call "get_customer" (JObj [("customer_id", JInt cid)]) ;;
  log "Data Agent used MCP tools" ;;;
  let final_answer := JObj [("type", JStr "get_customer");
                            ("customer_id", JInt cid);
                            ("customer", result)] in
  envelope "data" "router -> data" final_answer.

(** *** SUPPORT *)
Definition route_support (query : string) : M W json :=
  log "Router classified as SUPPORT" ;;;
  reply <- support_call "simple_support_reply" (JObj [("text", JStr query)]) ;;
  text <- lift (Py.get reply "text" (JStr "")) ;;
  envelope "support" "router -> support" text.

(** *** MULTI_OPEN *)

(** [[t for t in tickets if str(t.get("status", "")).lower() == "open"]] *)
Fixpoint open_tickets (tickets : list json) : outcome (list json) :=
  match tickets with
  | [] => Ok []
  | t :: rest =>
      status <-? Py.get t "status" (JStr "") ;;
      more <-? open_tickets rest ;;
      Ok (if String.eqb (lower (Py.str status)) "open" then t :: more else more)
  end.

(** [[t.get("issue") for t in open_tix if t.get("issue")]] *)
Fixpoint issues_of (open_tix : list json) : outcome (list json) :=
  match open_tix with
  | [] => Ok []
  | t :: rest =>
      issue <-? Py.get t "issue" JNull ;;
      more <-? issues_of rest ;;
      Ok (if Py.truthy issue then issue :: more else more)
  end.

(** The entry appended for a customer with open tickets. *)
Definition open_entry (cust : json) (open_tix : list json) : outcome json :=
  name <-? Py.get cust "name" JNull ;;
  email <-? Py.get cust "email" JNull ;;
  phone <-? Py.get cust "phone" JNull ;;
  issues <-? issues_of open_tix ;;
  Ok (JObj [("name", name); ("email", email); ("phone", phone);
            ("open_tickets", JInt (Z.of_nat (length open_tix)));
            ("issues", JList issues)]).

(** The loop [for cust in customers], [result] being the list built so
    far. *)
Fixpoint multi_open_loop (customers : list json) (result : list json)
  : M W (list json) :=
  match customers with
  | [] => ret result
  | cust :: rest =>
      cid <- lift (Py.getitem cust "id") ;;
      hist <- data_call "get_customer_history" (JObj [("customer_id", cid)]) ;;
      tickets <- lift (Py.get hist "tickets" (JList [])) ;;
      ts <- lift (Py.iter tickets) ;;
      open_tix <- lift (open_tickets ts) ;;
      match open_tix with
      | [] => multi_open_loop rest result
      | _ :: _ =>
          entry <- lift (open_entry cust open_tix) ;;
          multi_open_loop rest (result ++ [entry])%list
      end
  end.

Definition route_multi_open : M W json :=
  log "Router classified as MULTI" ;;;
  listed <- data_call "list_customers"
                      (JObj [("status", JStr "active"); ("limit", JInt 200)]) ;;
  customers <- lift (Py.get listed "customers" (JList [])) ;;
  custs <- lift (Py.iter customers) ;;
  result <- multi_open_loop custs [] ;;
  log "Data Agent invoked via MCP" ;;;
  log "Support Agent generated coordinated response" ;;;
  envelope "multi-intent" "router -> data -> support" (JList result).

(** *** MULTI_COORD *)

(** An element of [lines] as [str.join] wants it: a string. *)
Definition as_str (v : json) : outcome string :=
  match v with
  | JStr s => Ok s
  | _ => Raise TypeError
  end.

Definition upgrade_steps : string :=
  "To upgrade, open the account dashboard, choose **Plan & Billing**, "
  ++ "and select the tier you want. Confirm the payment method and submit the upgrade.".

(** The paragraphs that open the answer. *)
Definition coord_opening (customer_profile : json) (cid : Z) : outcome (list string) :=
  if Py.truthy customer_profile then
    name <-? Py.get customer_profile "name" JNull ;;
    status <-? Py.get customer_profile "status" (JStr "unknown") ;;
    Ok [ "Hello " ++ Py.str name ++ " (Customer ID " ++ str_of_int cid ++ "). "
         ++ "Your account is currently marked as " ++ Py.str status ++ ".";
         upgrade_steps ]
  else if negb (cid =? 0)%Z then
    Ok [ "I couldn't find customer " ++ str_of_int cid
         ++ " in the records, but here is how you can upgrade:" ]
  else Ok [ "Here's how to upgrade your account:" ].

(** [lines], then ["\n\n".join(lines).strip()]. *)
Definition coord_final (customer_profile : json) (cid : Z) (text : json)
  : outcome string :=
  opening <-? coord_opening customer_profile cid ;;
  reply <-? (if Py.truthy text then s <-? as_str text ;; Ok [s] else Ok []) ;;
  Ok (strip (join (Py.nl ++ Py.nl) (opening ++ reply)%list)).

Definition route_multi_coord (args : dict) (query : string) : M W json :=
  log "Router classified as MULTI" ;;;
  let m := search_customer (lower query) in
  cid <- lift (customer_id_of m args 0) ;;
  customer_profile <-
    (if negb (cid =? 0)%Z then
       fetched <- data_call "get_customer" (JObj [("customer_id", JInt cid)]) ;;
       profile <- lift (Py.get fetched "customer" JNull) ;;
       log "Data Agent invoked via MCP" ;;;
       ret profile
     else ret JNull) ;;
  reply <- support_call "simple_support_reply" (JObj [("text", JStr query)]) ;;
  text <- lift (Py.get reply "text" (JStr "")) ;;
  log "Support Agent generated coordinated response" ;;;
  final <- lift (coord_final customer_profile cid text) ;;
  envelope "multi-intent" "router -> data -> support" (JStr final).

(** *** MULTI_UPDATE *)

(** The numbered block of one ticket. *)
Definition ticket_block (idx : Z) (t : json) : outcome string :=
  id <-? Py.get t "id" JNull ;;
  issue <-? Py.get t "issue" JNull ;;
  status <-? Py.get t "status" JNull ;;
  priority <-? Py.get t "priority" JNull ;;
  created_at <-? Py.get t "created_at" JNull ;;
  Ok (str_of_int idx ++ ". **Ticket ID:** " ++ Py.str id ++ " " ++ Py.nl
      ++ "   - **Issue:** " ++ Py.str issue ++ " " ++ Py.nl
      ++ "   - **Status:** " ++ Py.str status ++ " " ++ Py.nl
      ++ "   - **Priority:** " ++ Py.str priority ++ " " ++ Py.nl
      ++ "   - **Created At:** " ++ Py.str created_at ++ Py.nl).

(** [for idx, t in enumerate(hist, idx)]: the blocks appended. *)
Fixpoint ticket_blocks (idx : Z) (hist : list json) : outcome (list string) :=
  match hist with
  | [] => Ok []
  | t :: rest =>
      block <-? ticket_block idx t ;;
      more <-? ticket_blocks (idx + 1) rest ;;
      Ok (block :: more)
  end.

Definition update_header (new_email : json) : string :=
  "Your email has been successfully updated to " ++ Py.str new_email ++ "." ++ Py.nl.

Definition update_final (new_email hist : json) : outcome string :=
  let lines := [update_header new_email; "Here is your ticket history:" ++ Py.nl] in
  ts <-? Py.iter hist ;;
  blocks <-? ticket_blocks 1 ts ;;
  Ok (join Py.nl (lines ++ blocks)%list).

(** [m_email.group(1) if m_email else args.get("new_email", "new@email.com")] *)
Definition new_email_of (args : dict) (query : string) : json :=
  match search_email (lower query) with
  | Some g => JStr g
  | None => Py.dict_get args "new_email" (JStr "new@email.com")
  end.

Definition route_multi_update (args : dict) (query : string) : M W json :=
  log "Router classified as MULTI" ;;;
  let m_id := search_customer (lower query) in
  customer_id <- lift (customer_id_of m_id args 1) ;;
  let new_email := new_email_of args query in
  _ <- data_call "update_customer"
                 (JObj [("customer_id", JInt customer_id);
                        ("data", JObj [("email", new_email)])]) ;;
  log "Data Agent invoked via MCP" ;;;
  fetched <- data_call "get_customer_history" (JObj [("customer_id", JInt customer_id)]) ;;
  hist <- lift (Py.get fetched "tickets" (JList [])) ;;
  formatted <- lift (update_final new_email hist) ;;
  log "Support Agent generated coordinated response" ;;;
  envelope "multi-intent" "router -> data -> support" (JStr formatted).

(** *** FALLBACK *)
Definition route_fallback (query : string) : M W json :=
  reply <- support_call "simple_support_reply" (JObj [("text", JStr query)]) ;;
  text <- lift (Py.get reply "text" (JStr "")) ;;
  envelope "support" "router -> support" text.

(** The chain of [if route == ...] of [router_call]. *)
Definition dispatch (route : string) (args : dict) (query : string) : M W json :=
  if String.eqb route "DATA" then route_data args query
  else if String.eqb route "SUPPORT" then route_support query
  else if String.eqb route "MULTI_OPEN" then route_multi_open
  else if String.eqb route "MULTI_COORD" then route_multi_coord args query
  else if String.eqb route "MULTI_UPDATE" then route_multi_update args query
  else route_fallback query.

Definition known_tool (tool : string) : bool :=
  String.eqb tool "route_task" || String.eqb tool "route".

Definition query_of (args : dict) : string :=
  Py.str (Py.dict_get args "text" (JStr "")).

(** [req.arguments or {}] *)
Definition args_of (req : A2ACallRequest) : dict :=
  match arguments req with
  | Some d => d
  | None => []
  end.

Definition router_call (req : A2ACallRequest) : M W json :=
  let tool := tool req in
  let args := args_of req in
  if negb (known_tool tool)
  then ret (JObj [("error", JStr ("Unknown tool: " ++ tool))])
  else
    let query := query_of args in
    new_logs ;;;
    let route := classify_intent query in
    dispatch route args query.

Definition router_message (req : RouterMessageRequest) : M W json :=
  router_call {| tool := "route_task";
                 arguments := Some [("text", JStr (content req))] |}.

(** A request arrives in a state with nothing sent and nothing logged. *)
Definition arrive (w : W) : rstate W := RState w [] [].

End Router.

(* ================================================================== *)
(** ** Scripted collaborators, for concrete runs *)
(* ================================================================== *)

Module Script.

(** A world that answers the requests it receives, whatever they are,
    with the responses of a script, in order; once the script is over
    the collaborators are unreachable. *)
Definition scripted (script : list response) (url : string) (body : json)
  : response * list response :=
  match script with
  | [] => (NoResponse, [])
  | r :: rest => (r, rest)
  end.

Definition ok (js : json) : response := Response 200 (Some js).

Definition call (tool : string) (arguments : option dict) : A2ACallRequest :=
  {| tool := tool; arguments := arguments |}.

Definition ask (text : string) : A2ACallRequest :=
  call "route_task" (Some [("text", JStr text)]).

Definition run (script : list response) (req : A2ACallRequest)
  : outcome json * rstate (list response) :=
  router_call scripted req (arrive script).

Definition ana : json := JObj [("id", JInt 5); ("name", JStr "Ana")].

End Script.

(* ================================================================== *)
(** ** Vocabulary of the properties *)
(* ================================================================== *)

(** A response that makes the call fail: the transport raised, the
    status is an error status, or the body has the error shape. *)
Definition failed (r : response) : bool :=
  match r with
  | NoResponse => true
  | Response status body =>
      error_status status
      || match body with
         | Some (JObj d) => Py.dict_has d "error"
         | _ => false
         end
  end.

Definition healthy (x : exchange) : Prop := failed (ex_response x) = false.

(** The intent of a request, and the customer id its MULTI_COORD plan
    would use. *)
Definition intent_of (req : A2ACallRequest) : Intent :=
  spec_classify (query_of (args_of req)).

Definition coord_customer (req : A2ACallRequest) : outcome Z :=
  customer_id_of (search_customer (lower (query_of (args_of req))))
                 (args_of req) 0.

(** The lines a completed plan leaves in [logs]. *)
Definition plan_lines (req : A2ACallRequest) : list string :=
  match intent_of req with
  | DATA => ["Router classified as DATA"; "Data Agent used MCP tools"]
  | SUPPORT => ["Router classified as SUPPORT"]
  | MULTI_OPEN => ["Router classified as MULTI"; "Data Agent invoked via MCP";
                   "Support Agent generated coordinated response"]
  | MULTI_COORD =>
      match coord_customer req with
      | Ok 0%Z => ["Router classified as MULTI";
                   "Support Agent generated coordinated response"]
      | _ => ["Router classified as MULTI"; "Data Agent invoked via MCP";
              "Support Agent generated coordinated response"]
      end
  | MULTI_UPDATE => ["Router classified as MULTI"; "Data Agent invoked via MCP";
                     "Support Agent generated coordinated response"]
  end.

(** How many lines are in [logs] when a step starts, [completed] steps
    having completed before it. *)
Definition lines_before_step (i : Intent) (completed : nat) : nat :=
  match i with
  | MULTI_OPEN => 1
  | _ => 1 + completed
  end.

(** The envelope with the given four fields. *)
Definition envelope_of (scenario route logs final : json) : json :=
  let four := [("scenario", scenario); ("route", route);
               ("logs", logs); ("final", final)] in
  JObj (four ++ [("result", JObj four)])%list.

Definition data_url : string := DATA_BASE ++ "/a2a/data/call".
Definition support_url : string := SUPPORT_BASE ++ "/a2a/support/call".

(** The body of the request for [tool] with [arguments]. *)
Definition request (tool : string) (arguments : dict) : json :=
  JObj [("tool", JStr tool); ("arguments", JObj arguments)].

(** The body of the first request a run made, if it made one. *)
Definition first_request {W : Type} (run : outcome json * rstate W) : option json :=
  option_map ex_json (hd_error (sent (snd run))).

(** The field [final] of an envelope. *)
Definition final_of (v : json) : json :=
  match v with
  | JObj d => Py.dict_get d "final" JNull
  | _ => JNull
  end.

(** *** Customer id: the chain the specification claims *)

(** [id <digits>], else [customer <digits>], else
    [arguments.customer_id], else the default of the route. *)
Definition claimed_customer_id (dflt : Z) (args : dict) (text : string) : outcome Z :=
  match search_id (lower text) with
  | Some g => Ok (int_of_digits g)
  | None => customer_id_of (search_customer (lower text)) args dflt
  end.

(** *** MULTI_OPEN: the report as the specification words it *)

(** The field [k] of a record, null when it is absent. *)
Definition field (v : json) (k : string) : json :=
  match v with
  | JObj d => Py.dict_get d k JNull
  | _ => JNull
  end.

(** A ticket is open when its status is a string equal to ["open"],
    letter case ignored. *)
Definition is_open (t : json) : bool :=
  match field t "status" with
  | JStr s => String.eqb (lower s) "open"
  | _ => false
  end.

Definition non_null (v : json) : bool :=
  match v with JNull => false | _ => true end.

(** The entry of a customer, given which issues are kept; none for a
    customer without open tickets. *)
Definition report_entry (keep : json -> bool) (cust : json) (tickets : list json)
  : list json :=
  let open_tix := filter is_open tickets in
  match open_tix with
  | [] => []
  | _ :: _ =>
      [JObj [("name", field cust "name"); ("email", field cust "email");
             ("phone", field cust "phone");
             ("open_tickets", JInt (Z.of_nat (length open_tix)));
             ("issues", JList (filter keep (map (fun t => field t "issue") open_tix)))]]
  end.

(** The report over the customers, each with its tickets, in order. *)
Definition report (keep : json -> bool) (histories : list (json * list json))
  : list json :=
  flat_map (fun ct => report_entry keep (fst ct) (snd ct)) histories.

(** As claimed: the issues kept are the non-null ones. *)
Definition claimed_report := report non_null.

(** As the code has it: the issues kept are the ones Python holds true
    (not null, and not an empty string, zero, false or an empty
    container). *)
Definition spec_report := report Py.truthy.

(** The customers a response to [list_customers] lists, and the tickets
    a response to [get_customer_history] holds. *)
Definition items_under (key : string) (r : response) : list json :=
  match (res <-? decode r ;;
         l <-? Py.get res key (JList []) ;;
         Py.iter l) with
  | Ok items => items
  | Raise _ => []
  end.

Definition listed_customers : response -> list json := items_under "customers".
Definition history_tickets : response -> list json := items_under "tickets".

Definition list_exchange (r : response) : exchange :=
  Exchange data_url
           (request "list_customers" [("status", JStr "active"); ("limit", JInt 200)])
           r.

Definition history_exchange (cr : json * response) : exchange :=
  Exchange data_url
           (request "get_customer_history" [("customer_id", field (fst cr) "id")])
           (snd cr).

(** Collaborators that answer well: the list of customers is a list
    of records that have an id, a history is a list of records. *)
Definition is_record (v : json) : bool :=
  match v with JObj _ => true | _ => false end.

Definition has_id (v : json) : bool :=
  match v with JObj d => Py.dict_has d "id" | _ => false end.

Definition good_items (key : string) (good : json -> bool) (r : response) : Prop :=
  exists d items,
    decode r = Ok (JObj d)
    /\ Py.dict_get d key (JList []) = JList items
    /\ forallb good items = true.

Definition good_listing : response -> Prop := good_items "customers" has_id.
Definition good_history : response -> Prop := good_items "tickets" is_record.

(** *** What the patterns mean *)

(** Every character of [s] satisfies [p]; the first character of [s]
    does. *)
Fixpoint all_chars (p : ascii -> bool) (s : string) : bool :=
  match s with
  | EmptyString => true
  | String c r => p c && all_chars p r
  end.

Definition starts_with (p : ascii -> bool) (s : string) : bool :=
  match s with
  | EmptyString => false
  | String c _ => p c
  end.

(** *** MULTI_UPDATE: the token of the request, as it was typed *)

(** [s] without a prefix that reads [lit] when letter case is ignored;
    [lit] is in lower case. *)
Fixpoint drop_prefix_nocase (lit s : string) : option string :=
  match lit with
  | EmptyString => Some s
  | String a lit' =>
      match s with
      | EmptyString => None
      | String b s' =>
          if Ascii.eqb a (lower_char b) then drop_prefix_nocase lit' s' else None
      end
  end.

Definition email_token_at (s : string) : option string :=
  match drop_prefix_nocase "update my email to " s with
  | None => None
  | Some r =>
      let (tok, _) := span (fun c => negb (is_space c)) r in
      if is_empty tok then None else Some tok
  end.

(** The token after the first [update my email to], in any letter case,
    that a token follows. *)
Definition email_token (text : string) : option string :=
  re_search email_token_at text.

(* ================================================================== *)
(** ** What a run leaves behind *)
(* ================================================================== *)

Definition multi_lines : list string :=
  ["Router classified as MULTI"; "Data Agent invoked via MCP";
   "Support Agent generated coordinated response"].

Section RunPredicates.

Context {W : Type}.

(** [k] healthy exchanges were added to those of [st0]. *)
Definition sent_ok (st0 st : rstate W) (k : nat) : Prop :=
  exists pre, sent st = (sent st0 ++ pre)%list /\ Forall healthy pre /\ length pre = k.

(** What a run leaves behind, seen from the state [st0] it started in:
    the exchanges it added are all healthy, or the last one failed, the
    run raised what that call raised, and [logs] holds the lines that
    were there when the failing step started. *)
Definition summary (i : Intent) (lines : list string) (st0 : rstate W)
           (run : outcome json * rstate W) : Prop :=
  (exists new,
      sent (snd run) = (sent st0 ++ new)%list /\
      (Forall healthy new \/
       exists pre x e,
         new = (pre ++ [x])%list /\ Forall healthy pre /\
         failed (ex_response x) = true /\
         decode (ex_response x) = Raise e /\ fst run = Raise e /\
         logs (snd run) = firstn (lines_before_step i (length pre)) lines))
  /\ (exists n, 1 <= n /\ logs (snd run) = firstn n lines)
  /\ (forall v, fst run = Ok v ->
        logs (snd run) = lines /\
        exists sc rt fn, v = envelope_of sc rt (JList (map JStr lines)) fn).

(** The exchanges of a run extend those it started with. *)
Definition grows {A} (m : M W A) : Prop :=
  forall st, exists more, sent (snd (m st)) = (sent st ++ more)%list.

End RunPredicates.

(* ================================================================== *)
(** ** Scenarios *)
(* ================================================================== *)

Definition update_then_outage : list response :=
  [Script.ok (JObj [("updated", JBool true)]); Response 503 None].

Definition update_request : A2ACallRequest :=
  Script.ask "I'm customer 3, update my email to new@email.com and show my ticket history".

Definition ana_script : list response :=
  [Script.ok (JObj [("customer", Script.ana)])].

Definition ana_request : A2ACallRequest :=
  Script.ask "Get customer information for ID 5".

Definition open_request : A2ACallRequest :=
  Script.ask "Show me all active customers who have open tickets".

Definition one_customer : response :=
  Script.ok (JObj [("customers",
                    JList [JObj [("id", JInt 1); ("name", JStr "Ana");
                                 ("email", JStr "ana@example.com");
                                 ("phone", JStr "555-0101")]])]).

Definition blank_issue : response :=
  Script.ok (JObj [("tickets",
                    JList [JObj [("id", JInt 10); ("issue", JStr "");
                                 ("status", JStr "open")]])]).

(** The envelope of a MULTI_OPEN run with the given report. *)
Definition open_envelope (entries : list json) : json :=
  envelope_of (JStr "multi-intent") (JStr "router -> data -> support")
              (JList (map JStr multi_lines)) (JList entries).

Definition blank_issue_entry : json :=
  JObj [("name", JStr "Ana"); ("email", JStr "ana@example.com");
        ("phone", JStr "555-0101"); ("open_tickets", JInt 1);
        ("issues", JList [])].

(** Collaborators that always answer: one customer listed, one open
    ticket with a blank issue in every history. *)
Definition steady (w : unit) (url : string) (body : json) : response * unit :=
  (if String.eqb (Py.str (field body "tool")) "list_customers"
   then one_customer else blank_issue, tt).

Definition no_tickets : response := Script.ok (JObj [("tickets", JList [])]).

Definition three_customers : response :=
  Script.ok (JObj [("customers",
                    JList [JObj [("id", JInt 1)]; JObj [("id", JInt 2)];
                           JObj [("id", JInt 3)]])]).

Definition three_script : list response :=
  [three_customers; no_tickets; no_tickets; no_tickets].

Definition customer7_request : A2ACallRequest := Script.ask "customer 7".

(** The answer of the DATA route for customer 5, as claimed and as the
    code builds it. *)
Definition claimed_ana_answer : json :=
  JObj [("type", JStr "get_customer"); ("customer_id", JInt 5);
        ("customer", Script.ana)].

Definition ana_answer : json :=
  JObj [("type", JStr "get_customer"); ("customer_id", JInt 5);
        ("customer", JObj [("customer", Script.ana)])].

Definition data_envelope (final : json) : json :=
  envelope_of (JStr "data") (JStr "router -> data")
              (JList [JStr "Router classified as DATA";
                      JStr "Data Agent used MCP tools"])
              final.

Definition mixed_case_request : A2ACallRequest :=
  Script.ask "I'm customer 3, Update My Email to Ana.Lima@Example.COM and show my ticket history".

(* ================================================================== *)
(** ** The plan of a route *)
(* ================================================================== *)

(** The tool a request body names, and the collaborator and tool of an
    exchange. *)
Definition tool_name (body : json) : string := Py.str (field body "tool").

Definition call_of (x : exchange) : string * string :=
  (ex_url x, tool_name (ex_json x)).

Definition get_customer_call : string * string := (data_url, "get_customer").
Definition list_call : string * string := (data_url, "list_customers").
Definition history_call : string * string := (data_url, "get_customer_history").
Definition update_call : string * string := (data_url, "update_customer").
Definition reply_call : string * string := (support_url, "simple_support_reply").

(** The calls of the routes whose plan does not depend on what the
    collaborators answer. *)
Definition route_plan (req : A2ACallRequest) : list (string * string) :=
  match intent_of req with
  | DATA => [get_customer_call]
  | SUPPORT => [reply_call]
  | MULTI_OPEN => [list_call]
  | MULTI_COORD =>
      match coord_customer req with
      | Ok 0%Z => [reply_call]
      | _ => [get_customer_call; reply_call]
      end
  | MULTI_UPDATE => [update_call; history_call]
  end.

(** The calls [calls] of a run follow the plan of the request: a
    MULTI_OPEN run lists the customers and then only asks for
    histories; any other run made the first calls of its plan, all of
    them when [completed]. *)
Definition follows_plan (req : A2ACallRequest) (completed : bool)
           (calls : list (string * string)) : Prop :=
  match intent_of req with
  | MULTI_OPEN => exists n, calls = list_call :: repeat history_call n
  | _ => exists k, calls = firstn k (route_plan req)
                   /\ k <= length (route_plan req)
                   /\ (completed = true -> k = length (route_plan req))
  end.

Definition completed {A W : Type} (run : outcome A * rstate W) : bool :=
  match fst run with Ok _ => true | Raise _ => false end.

Section PlanPredicates.

Context {W : Type}.

(** The run made the first [k] calls of [plan] after those of [st0],
    all of them if it returned. *)
Definition on_plan (plan : list (string * string)) (st0 st : rstate W) (k : nat)
  : Prop :=
  exists pre, sent st = (sent st0 ++ pre)%list
              /\ map call_of pre = firstn k plan /\ k <= length plan.

Definition run_on_plan {A} (plan : list (string * string)) (st0 : rstate W)
           (run : outcome A * rstate W) : Prop :=
  exists k, on_plan plan st0 (snd run) k
            /\ (completed run = true -> k = length plan).

End PlanPredicates.

(** [k in v] for a value that came back from the handler. *)
Definition has_key (v : json) (k : string) : bool :=
  match v with
  | JObj d => Py.dict_has d k
  | _ => false
  end.

Definition is_update (c : string * string) : bool :=
  String.eqb (snd c) "update_customer".

(** A response whose body has both a result and an error. *)
Definition shaped : list response :=
  [Script.ok (JObj [("result", JInt 1); ("error", JStr "no")])].

Definition refund_request : A2ACallRequest :=
  Script.ask "I've been charged twice, please REFUND immediately!".

(* ================================================================== *)
(** ** The opening of a coordinated answer *)
(* ================================================================== *)

Definition coord_generic : string := "Here's how to upgrade your account:".

Definition coord_not_found (cid : Z) : string :=
  "I couldn't find customer " ++ str_of_int cid
  ++ " in the records, but here is how you can upgrade:".

Definition coord_greeting (profile : dict) (cid : Z) : string :=
  "Hello " ++ Py.str (Py.dict_get profile "name" JNull)
  ++ " (Customer ID " ++ str_of_int cid ++ "). "
  ++ "Your account is currently marked as "
  ++ Py.str (Py.dict_get profile "status" (JStr "unknown")) ++ "."
  ++ Py.nl ++ Py.nl ++ upgrade_steps.

Definition reply_request (q : string) : json :=
  request "simple_support_reply" [("text", JStr q)].

(** The opening of the answer for the customer record [profile] that
    came back (null when none was asked for) and the id [cid]. *)
Definition opening_of (profile : json) (cid : Z) : string :=
  match profile with
  | JObj ((_ :: _) as d) => coord_greeting d cid
  | _ => if (cid =? 0)%Z then coord_generic else coord_not_found cid
  end.

Definition upgrade_request : A2ACallRequest :=
  Script.ask "I need help upgrading my account".

(** What a run returned, null if it raised. *)
Definition returned {W : Type} (run : outcome json * rstate W) : json :=
  match fst run with
  | Ok v => v
  | Raise _ => JNull
  end.

Definition update_done : list response :=
  [Script.ok (JObj [("updated", JBool true)]);
   Script.ok (JObj [("tickets",
                     JList [JObj [("id", JInt 7); ("issue", JStr "late")];
                            JObj [("id", JInt 4)]])])].

(* ================================================================== *)
(** ** The agents behind the router *)
(* ================================================================== *)

(** [try: m except Exception: handler] *)
Definition catch {W A : Type} (m : M W A) (handler : exn -> M W A) : M W A :=
  fun st => match m st with
            | (Ok a, st1) => (Ok a, st1)
            | (Raise e, st1) => handler e st1
            end.

(** [v.lower()]: only a string has the method. *)
Definition lower_method (v : json) : outcome string :=
  match v with
  | JStr s => Ok (lower s)
  | _ => Raise AttributeError
  end.

(** [x or dflt] *)
Definition or_else (x dflt : json) : json := if Py.truthy x then x else dflt.

Definition MCP_URL : string := "http://127.0.0.1:9010/mcp".

(** The JSON-RPC request both agents send to the MCP server. *)
Definition mcp_body (tool : string) (arguments : json) : json :=
  JObj [("jsonrpc", JStr "2.0"); ("id", JStr "x");
        ("method", JStr "tools/call");
        ("params", JObj [("tool", JStr tool); ("arguments", arguments)])].

(** *** [support_agent.py] *)

Module SupportAgent.

Record A2ACall := {
  tool : string;
  arguments : dict
}.

(** What [mcp_call] does with the response: [raise_for_status],
    [r.json()], the test for an error, and [data["result"]]. *)
Definition mcp_decode (r : response) : outcome json :=
  match r with
  | NoResponse => Raise ConnectionError
  | Response status body =>
      if error_status status then Raise (HTTPError status)
      else match body with
           | None => Raise JSONDecodeError
           | Some data =>
               has_error <-? Py.contains "error" data ;;
               if has_error : bool
               then e <-? Py.getitem data "error" ;; Raise (RuntimeError e)
               else Py.getitem data "result"
           end
  end.

(** [_guess_intent] *)
Definition _guess_intent (text : json) : outcome string :=
  t <-? lower_method (or_else text (JStr "")) ;;
  if str_in "refund" t || str_in "charge" t || str_in "billing" t
  then Ok "billing"
  else if str_in "delay" t || str_in "delivery" t || str_in "shipping" t
  then Ok "shipping"
  else Ok "general".

Definition suggestion : string :=
  "I understand your issue. "
  ++ "For billing/refund, we can initiate a refund and confirm the payment record. "
  ++ "If shipping, we open a tracking case; for general issues, we provide step-by-step guidance.".

Definition thanks : string :=
  "Thanks for contacting support. We'll investigate and follow up shortly.".

(** [[t for t in tickets if str(t.get("priority")).lower() == priority.lower()]] *)
Fixpoint with_priority (priority : json) (tickets : list json)
  : outcome (list json) :=
  match tickets with
  | [] => Ok []
  | t :: rest =>
      p <-? Py.get t "priority" JNull ;;
      wanted <-? lower_method priority ;;
      more <-? with_priority priority rest ;;
      Ok (if String.eqb (lower (Py.str p)) wanted then t :: more else more)
  end.

(** [tickets] after the optional filter on [priority]. *)
Definition filter_tickets (priority tickets : json) : outcome json :=
  if Py.truthy priority
  then ts <-? Py.iter tickets ;;
       kept <-? with_priority priority ts ;;
       Ok (JList kept)
  else Ok tickets.

Section Agent.

Context {W : Type}.
Variable http_post : W -> string -> json -> response * W.

Definition mcp_call (tool : string) (arguments : json) : M W json :=
  r <- post http_post MCP_URL (mcp_body tool arguments) ;;
  lift (mcp_decode r).

Definition tool_suggest_resolution (text customer_id : json) : M W json :=
  context <-
    (match customer_id with
     | JNull => ret []
     | _ =>
         catch (hist <- mcp_call "get_customer_history"
                                 (JObj [("customer_id", customer_id)]) ;;
                ret [("history", hist)])
               (fun _ =>
                  ret [("history", JObj [("error", JStr "history unavailable")])])
     end) ;;
  intent <- lift (_guess_intent text) ;;
  ret (JObj [("suggestion", JStr suggestion); ("context", JObj context);
             ("intent", JStr intent)]).

Definition tool_create_ticket (customer_id : Z) (issue priority : string)
  : M W json :=
  mcp_call "create_ticket"
           (JObj [("customer_id", JInt customer_id); ("issue", JStr issue);
                  ("priority", JStr priority)]).

(** The loop [for cid in customer_ids], [report] being the list built
    so far. *)
Fixpoint report_loop (priority : json) (customer_ids : list json)
         (report : list json) : M W (list json) :=
  match customer_ids with
  | [] => ret report
  | cid :: rest =>
      hist <- mcp_call "get_customer_history" (JObj [("customer_id", cid)]) ;;
      tickets <- lift (Py.get hist "tickets" (JList [])) ;;
      tickets <- lift (filter_tickets priority tickets) ;;
      report_loop priority rest
                  (report ++ [JObj [("customer_id", cid); ("tickets", tickets)]])%list
  end.

Definition tool_tickets_report_for_customers (customer_ids : list json)
           (priority : json) : M W json :=
  report <- report_loop priority customer_ids [] ;;
  ret (JObj [("report", JList report); ("filter_priority", priority)]).

Definition tool_simple_support_reply (text customer_id : json) : M W json :=
  res <- tool_suggest_resolution text customer_id ;;
  got <- lift (Py.get res "suggestion" JNull) ;;
  let reply := or_else got (JStr thanks) in
  intent <- lift (Py.get res "intent" (JStr "general")) ;;
  context <- lift (Py.get res "context" (JObj [])) ;;
  ret (JObj [("text", reply); ("intent", intent); ("context", context)]).

(** [a2a_call] on the path of the support agent, where its assertion
    on the path holds. *)
Definition a2a_call (payload : A2ACall) : M W json :=
  let tool := tool payload in
  let args := arguments payload in
  if String.eqb tool "suggest_resolution" then
    tool_suggest_resolution (Py.dict_get args "text" (JStr ""))
                            (Py.dict_get args "customer_id" JNull)
  else if String.eqb tool "simple_support_reply" then
    tool_simple_support_reply (Py.dict_get args "text" (JStr ""))
                              (Py.dict_get args "customer_id" JNull)
  else if String.eqb tool "create_ticket" then
    raw_id <- lift (Py.getitem (JObj args) "customer_id") ;;
    customer_id <- lift (Py.int raw_id) ;;
    issue <- lift (Py.getitem (JObj args) "issue") ;;
    tool_create_ticket customer_id (Py.str issue)
                       (Py.str (Py.dict_get args "priority" (JStr "medium")))
  else if String.eqb tool "tickets_report_for_customers" then
    customer_ids <- lift (Py.iter (Py.dict_get args "customer_ids" (JList []))) ;;
    tool_tickets_report_for_customers customer_ids
                                      (Py.dict_get args "priority" JNull)
  else ret (JObj [("ok", JBool false);
                  ("error", JStr ("Unknown tool: " ++ tool))]).

(** [sa_message], on the same path; [content] is the text of the
    message. *)
Definition sa_message (content : string) : M W json :=
  let t := lower content in
  if str_in "refund" t || str_in "charged twice" t
  then a2a_call {| tool := "suggest_resolution";
                   arguments := [("text", JStr content)] |}
  else ret (JObj [("ok", JBool true);
                  ("note", JStr "Message received (no auto rule matched).")]).

End Agent.

End SupportAgent.

(** *** [data_agent.py] *)

Module DataAgent.

Record A2ACall := {
  tool : string;
  arguments : dict
}.

(** What [a2a_call] makes of the response of the MCP server. *)
Definition forward (r : response) : outcome json :=
  match r with
  | NoResponse => Raise ConnectionError
  | Response status body =>
      if error_status status
      then Ok (JObj [("ok", JBool false);
                     ("error", JStr ("mcp error: " ++ str_of_int status))])
      else match body with
           | None => Raise JSONDecodeError
           | Some data =>
               has_error <-? Py.contains "error" data ;;
               if has_error : bool
               then e <-? Py.getitem data "error" ;;
                    Ok (JObj [("ok", JBool false); ("error", e)])
               else Py.get data "result" (JObj [("ok", JBool true)])
           end
  end.

(** The class [\w] of a [str] pattern below 256: the digits, the
    letters and the underscore of ASCII, and the letters and numerals
    of Latin-1. *)
Definition is_word (c : ascii) : bool :=
  let n := N_of_ascii c in
  ((48 <=? n) && (n <=? 57) || (65 <=? n) && (n <=? 90) || (n =? 95)
   || (97 <=? n) && (n <=? 122)
   || (n =? 170) || (n =? 178) || (n =? 179) || (n =? 181) || (n =? 185)
   || (n =? 186) || (188 <=? n) && (n <=? 190)
   || (192 <=? n) && (n <=? 214) || (216 <=? n) && (n <=? 246)
   || (248 <=? n))%N.

(** One attempt of [\b(\d{1,10})\b] at the head of [s], at a position
    that does not follow a character of a word.  A digit is a character
    of a word, so the second [\b] holds only after the whole run of
    digits, and giving back digits can never help. *)
Definition match_number (s : string) : option string :=
  let (ds, rest) := span is_digit s in
  if negb (is_empty ds) && (String.length ds <=? 10)%nat
     && negb (starts_with is_word rest)
  then Some ds else None.

(** The search from a position, [after_word] telling whether the
    previous character is one of a word: the first [\b] then fails
    before a digit. *)
Fixpoint search_number_from (after_word : bool) (s : string) : option string :=
  match (if after_word then None else match_number s) with
  | Some g => Some g
  | None => match s with
            | EmptyString => None
            | String c r => search_number_from (is_word c) r
            end
  end.

(** [re.search(r"\b(\d{1,10})\b", s)], giving [m.group(1)]. *)
Definition search_number (s : string) : option string :=
  search_number_from false s.

Section Agent.

Context {W : Type}.
Variable http_post : W -> string -> json -> response * W.

(** [a2a_call] on the path of the data agent, where its assertion on
    the path holds. *)
Definition a2a_call (payload : A2ACall) : M W json :=
  let tool := tool payload in
  let args := arguments payload in
  r <- post http_post MCP_URL (mcp_body tool (JObj args)) ;;
  lift (forward r).

(** [da_message], on the same path; [content] is the text of the
    message. *)
Definition da_message (content : string) : M W json :=
  match search_number content with
  | Some g =>
      let cid := int_of_digits g in
      a2a_call {| tool := "get_customer";
                  arguments := [("customer_id", JInt cid)] |}
  | None => ret (JObj [("ok", JBool true);
                       ("note", JStr "Message received (no auto rule matched).")])
  end.

End Agent.

End DataAgent.

(** *** [mcp_server.py] *)

Module McpServer.

Record JsonRpcRequest := {
  jsonrpc : string;
  method : string;
  params : option dict;
  id : json
}.

Definition rpc_result (id res : json) : json :=
  JObj [("jsonrpc", JStr "2.0"); ("id", id); ("result", res)].

Definition rpc_error (id : json) (code : Z) (message : string) : json :=
  JObj [("jsonrpc", JStr "2.0"); ("id", id);
        ("error", JObj [("code", JInt code); ("message", JStr message)])].

Definition input_schema (properties : dict) (required : list string) : json :=
  JObj [("type", JStr "object"); ("properties", JObj properties);
        ("required", JList (map JStr required))].

Definition described (name description : string) (schema : json) : json :=
  JObj [("name", JStr name); ("description", JStr description);
        ("inputSchema", schema)].

Definition of_type (t : string) : json := JObj [("type", JStr t)].

Definition tools_list : json :=
  JObj [("tools", JList [
    described "get_customer" "Get a single customer by ID"
      (input_schema [("customer_id", of_type "integer")] ["customer_id"]);
    described "list_customers" "List customers (optional status, limit)"
      (input_schema [("status", JObj [("type", JList [JStr "string"; JStr "null"])]);
                     ("limit", of_type "integer")]
                    ["limit"]);
    described "update_customer" "Update fields on a customer"
      (input_schema [("customer_id", of_type "integer");
                     ("data", of_type "object")]
                    ["customer_id"; "data"]);
    described "get_customer_history" "List tickets for a customer"
      (input_schema [("customer_id", of_type "integer")] ["customer_id"]);
    described "create_ticket" "Create a support ticket"
      (input_schema [("customer_id", of_type "integer");
                     ("issue", of_type "string");
                     ("priority", of_type "string")]
                    ["customer_id"; "issue"; "priority"])])].

Definition initialized : json :=
  JObj [("protocolVersion", JStr "2024-11-05");
        ("capabilities", JObj [("tools", JObj [("listChanged", JBool false)])]);
        ("serverInfo", JObj [("name", JStr "CustomerMCP");
                             ("version", JStr "1.0.0")])].

(** [(params.get("tool") or params.get("name") or "").strip()] *)
Definition called_tool (params : dict) : outcome string :=
  match or_else (or_else (Py.dict_get params "tool" JNull)
                         (Py.dict_get params "name" JNull))
                (JStr "") with
  | JStr s => Ok (strip s)
  | _ => Raise AttributeError
  end.

(** [params.get("arguments") or params.get("params") or {}] *)
Definition called_args (params : dict) : json :=
  or_else (or_else (Py.dict_get params "arguments" JNull)
                   (Py.dict_get params "params" JNull))
          (JObj []).

(** [int(args["customer_id"])] *)
Definition customer_arg (args : json) : outcome Z :=
  raw <-? Py.getitem args "customer_id" ;; Py.int raw.

Section Server.

(** The database and the tools that query it; [mcp_update_customer]
    stands for the tool applied to [dict(data)], and [describe] for
    the text [str(e)] of an exception. *)
Context {DB : Type}.
Variable mcp_get_customer : Z -> DB -> outcome json * DB.
Variable mcp_list_customers : json -> Z -> DB -> outcome json * DB.
Variable mcp_update_customer : Z -> json -> DB -> outcome json * DB.
Variable mcp_create_ticket : Z -> string -> string -> DB -> outcome json * DB.
Variable mcp_get_customer_history : Z -> DB -> outcome json * DB.
Variable describe : exn -> string.

(** A tool called on arguments that were read without touching the
    database. *)
Definition with_arguments {A : Type} (read : outcome A)
           (run : A -> DB -> outcome json * DB) (db : DB) : outcome json * DB :=
  match read with
  | Ok a => run a db
  | Raise e => (Raise e, db)
  end.

(** The branches of the [try] block; [None] is its [else]. *)
Definition run_tool (tool : string) (args : json)
  : option (DB -> outcome json * DB) :=
  if String.eqb tool "get_customer" then
    Some (with_arguments (customer_arg args) mcp_get_customer)
  else if String.eqb tool "list_customers" then
    Some (with_arguments
            (status <-? Py.get args "status" JNull ;;
             raw <-? Py.get args "limit" (JInt 100) ;;
             limit <-? Py.int raw ;;
             Ok (status, limit))
            (fun a => mcp_list_customers (fst a) (snd a)))
  else if String.eqb tool "update_customer" then
    Some (with_arguments
            (customer_id <-? customer_arg args ;;
             data <-? Py.get args "data" (JObj []) ;;
             Ok (customer_id, data))
            (fun a => mcp_update_customer (fst a) (snd a)))
  else if String.eqb tool "create_ticket" then
    Some (with_arguments
            (customer_id <-? customer_arg args ;;
             issue <-? Py.getitem args "issue" ;;
             priority <-? Py.get args "priority" (JStr "medium") ;;
             Ok (customer_id, Py.str issue, Py.str priority))
            (fun a => mcp_create_ticket (fst (fst a)) (snd (fst a)) (snd a)))
  else if String.eqb tool "get_customer_history" then
    Some (with_arguments (customer_arg args) mcp_get_customer_history)
  else None.

Definition mcp_handler (req : JsonRpcRequest) (db : DB) : outcome json * DB :=
  let method := method req in
  let params := match params req with Some d => d | None => [] end in
  if String.eqb method "tools/list" then
    (Ok (rpc_result (id req) tools_list), db)
  else if String.eqb method "tools/call" then
    match called_tool params with
    | Raise e => (Raise e, db)
    | Ok tool =>
        let args := called_args params in
        if is_empty tool
        then (Ok (rpc_error (id req) (-32602) "Tool name not provided"), db)
        else match run_tool tool args with
             | None =>
                 (Ok (rpc_error (id req) (-32601) ("Unknown tool: " ++ tool)), db)
             | Some tool_run =>
                 match tool_run db with
                 | (Ok res, db') => (Ok (rpc_result (id req) res), db')
                 | (Raise e, db') =>
                     (Ok (rpc_error (id req) (-32001)
                                    ("Tool execution error: " ++ describe e)),
                      db')
                 end
             end
    end
  else if String.eqb method "initialize" then
    (Ok (rpc_result (id req) initialized), db)
  else if String.eqb method "notifications/initialized" then
    (Ok (rpc_result (id req) (JObj [("ok", JBool true)])), db)
  else
    (Ok (rpc_error (id req) (-32601) ("Unknown method: " ++ method)), db).

End Server.

(** The request the server reads from the body [mcp_body tool args]
    that the agents send. *)
Definition from_agent (tool : string) (arguments : json) : JsonRpcRequest :=
  {| jsonrpc := "2.0"; method := "tools/call";
     params := Some [("tool", JStr tool); ("arguments", arguments)];
     id := JStr "x" |}.

End McpServer.

(** What a client receives when a handler returned [v]: status 200 and
    [v] as the body. *)
Definition served (v : json) : response := Response 200 (Some v).

(** *** Vocabulary of the properties of the agents *)

(** The request for the tickets of [cid] that the support agent sends
    to the MCP server. *)
Definition history_request (cid : json) : json :=
  mcp_body "get_customer_history" (JObj [("customer_id", cid)]).

Definition history_unavailable : json :=
  JObj [("error", JStr "history unavailable")].

Definition support_tools : list string :=
  ["suggest_resolution"; "simple_support_reply"; "create_ticket";
   "tickets_report_for_customers"].

(** The entry of the report for [cid], from the response [r] to the
    request for its tickets. *)
Definition history_entry (priority cid : json) (r : response) : outcome json :=
  hist <-? SupportAgent.mcp_decode r ;;
  raw <-? Py.get hist "tickets" (JList []) ;;
  tickets <-? SupportAgent.filter_tickets priority raw ;;
  Ok (JObj [("customer_id", cid); ("tickets", tickets)]).

(** A ticket whose priority, as text and letter case ignored, is [p]. *)
Definition wants (p : string) (t : json) : bool :=
  String.eqb (lower (Py.str (field t "priority"))) (lower p).

Definition is_dict (v : json) : bool :=
  match v with JObj _ => true | _ => false end.

Definition reply_of (intent : string) (context : dict) : json :=
  JObj [("text", JStr SupportAgent.suggestion); ("intent", JStr intent);
        ("context", JObj context)].

Definition refund_call : SupportAgent.A2ACall :=
  {| SupportAgent.tool := "simple_support_reply";
     SupportAgent.arguments := [("text", JStr "Please refund my order");
                                ("customer_id", JInt 5)] |}.

(** What the support agent keeps of the response [r] to its request for
    a history. *)
Definition history_of (r : response) : json :=
  match SupportAgent.mcp_decode r with
  | Ok hist => hist
  | Raise _ => history_unavailable
  end.

Definition resolution_of (intent : string) (context : dict) : json :=
  JObj [("suggestion", JStr SupportAgent.suggestion);
        ("context", JObj context); ("intent", JStr intent)].

(** The state after one request for the history of [cid]. *)
Definition asked {W : Type} (http_post : W -> string -> json -> response * W)
           (cid : json) (st : rstate W) : rstate W :=
  RState (snd (http_post (world st) MCP_URL (history_request cid)))
         (sent st ++ [Exchange MCP_URL (history_request cid)
                               (fst (http_post (world st) MCP_URL
                                               (history_request cid)))])%list
         (logs st).

(** The exchanges for the histories of [ids], answered by [rs]. *)
Definition history_exchanges (ids : list json) (rs : list response)
  : list exchange :=
  map (fun p => Exchange MCP_URL (history_request (fst p)) (snd p))
      (combine ids rs).

Definition tickets_answer (tickets : list json) : response :=
  Script.ok (JObj [("jsonrpc", JStr "2.0"); ("id", JStr "x");
                   ("result", JObj [("tickets", JList tickets)])]).

Definition two_histories : list response :=
  [tickets_answer [JObj [("id", JInt 1); ("priority", JStr "HIGH")];
                   JObj [("id", JInt 2); ("priority", JStr "low")]];
   tickets_answer []].

Definition message_note : json :=
  JObj [("ok", JBool true);
        ("note", JStr "Message received (no auto rule matched).")].

(** The request the support agent sends to create a ticket. *)
Definition create_request (customer_id : Z) (issue priority : json) : json :=
  mcp_body "create_ticket"
           (JObj [("customer_id", JInt customer_id);
                  ("issue", JStr (Py.str issue));
                  ("priority", JStr (Py.str priority))]).

Definition error_answer (e : json) : json :=
  JObj [("ok", JBool false); ("error", e)].

Definition mcp_tools : list string :=
  ["get_customer"; "list_customers"; "update_customer"; "create_ticket";
   "get_customer_history"].

(** The parameters of a request, [req.params or {}]. *)
Definition params_of (req : McpServer.JsonRpcRequest) : dict :=
  match McpServer.params req with
  | Some d => d
  | None => []
  end.

Definition rpc_error_codes : list Z := [-32602; -32601; -32001]%Z.

(** A database of customers that has no customer, for concrete runs. *)
Definition no_customer (cid : Z) (db : list Z) : outcome json * list Z :=
  (Ok (JObj [("customer", JNull)]), cid :: db).

Definition get_customer_payload : DataAgent.A2ACall :=
  {| DataAgent.tool := "get_customer";
     DataAgent.arguments := [("customer_id", JInt 5)] |}.

(** Whether a text ends in a character of a word, [after_word] telling
    it for the empty text. *)
Fixpoint ends_in_word (after_word : bool) (s : string) : bool :=
  match s with
  | EmptyString => after_word
  | String c r => ends_in_word (DataAgent.is_word c) r
  end.

(** A run of one to ten decimal digits. *)
Definition short_number (g : string) : bool :=
  negb (is_empty g) && all_chars is_digit g && (String.length g <=? 10)%nat.

(** The request of the data agent for the customer [n]. *)
Definition customer_request (n : Z) : json :=
  mcp_body "get_customer" (JObj [("customer_id", JInt n)]).

(* ================================================================== *)
(** ** Facts about the classifier *)
(* ================================================================== *)

Lemma classify_by_rules (t : string) :
  classify_intent t =
  if rule_multi_open t then "MULTI_OPEN"
  else if rule_multi_update t then "MULTI_UPDATE"
  else if rule_multi_coord t then "MULTI_COORD"
  else if rule_support t then "SUPPORT"
  else if rule_data t then "DATA"
  else "DATA".
Proof.
  unfold classify_intent, rule_multi_open, rule_multi_update,
    rule_multi_coord, rule_support, rule_data, mentions, existsb.
  cbv zeta.
  rewrite <- andb_orb_distrib_r, !orb_false_r, !orb_assoc.
  reflexivity.
Qed.

Lemma classify_refines_rules (t : string) :
  classify_intent t = label (spec_classify t).
Proof.
  rewrite classify_by_rules.
  unfold spec_classify, spec_rules. cbn [find fst snd].
  destruct (rule_multi_open t); [reflexivity|].
  destruct (rule_multi_update t); [reflexivity|].
  destruct (rule_multi_coord t); [reflexivity|].
  destruct (rule_support t); [reflexivity|].
  destruct (rule_data t); reflexivity.
Qed.

Lemma label_injective (i j : Intent) : label i = label j -> i = j.
Proof. destruct i, j; simpl; intros H; try reflexivity; discriminate H. Qed.

(** C1. [classify_intent] returns the intent of the first rule that
    matches, in the order MULTI_OPEN, MULTI_UPDATE, MULTI_COORD, SUPPORT,
    DATA, the phrases being looked for in the lower-cased text; it
    returns DATA when no rule matches and on the empty text; a text that
    triggers both the MULTI_OPEN rule and the SUPPORT rule is classified
    MULTI_OPEN. *)
Theorem classify_first_matching_rule (t : string) :
  classify_intent t = label (spec_classify t)
  /\ (forallb (fun r => negb (fst r t)) spec_rules = true ->
      classify_intent t = "DATA")
  /\ classify_intent "" = "DATA"
  /\ (rule_multi_open t = true -> rule_support t = true ->
      classify_intent t = "MULTI_OPEN").
Proof.
  split; [apply classify_refines_rules|].
  split; [|split; [reflexivity|]].
  - rewrite classify_refines_rules. unfold spec_classify.
    intros H. destruct (find _ spec_rules) as [r|] eqn:F; [|reflexivity].
    apply find_some in F. destruct F as [Hin Hr].
    rewrite forallb_forall in H. apply H in Hin.
    rewrite Hr in Hin. discriminate Hin.
  - intros Hopen _. rewrite classify_by_rules, Hopen. reflexivity.
Qed.

Lemma classify_first_matching_rule_witness :
  classify_intent "Refund the ACTIVE customers with an Open Ticket"
  = "MULTI_OPEN"
  /\ classify_intent "what is the weather" = "DATA".
Proof.
  pose proof (classify_first_matching_rule
                "Refund the ACTIVE customers with an Open Ticket") as H1.
  pose proof (classify_first_matching_rule "what is the weather") as H2.
  destruct H1 as (_ & _ & _ & Hboth). destruct H2 as (_ & Hnone & _).
  split.
  - apply Hboth; reflexivity.
  - apply Hnone. reflexivity.
Defined.

(* ================================================================== *)
(** ** Facts about text and JSON values *)
(* ================================================================== *)

Lemma lower_char_space (c : ascii) : is_space (lower_char c) = is_space c.
Proof.
  destruct c as [[] [] [] [] [] [] [] []]; reflexivity.
Qed.

Lemma span_lower (p : ascii -> bool) (s : string) :
  (forall c, p (lower_char c) = p c) ->
  span p (lower s) = (lower (fst (span p s)), lower (snd (span p s))).
Proof.
  intros Hp. induction s as [|c r IH]; [reflexivity|].
  simpl. rewrite Hp. destruct (p c); [|reflexivity].
  rewrite IH. destruct (span p r) as [a b]. reflexivity.
Qed.

Lemma drop_prefix_lower (lit s : string) :
  drop_prefix lit (lower s) = option_map lower (drop_prefix_nocase lit s).
Proof.
  revert s. induction lit as [|a lit IH]; intros s; [reflexivity|].
  destruct s as [|b s]; [reflexivity|]. simpl.
  destruct (Ascii.eqb a (lower_char b)); [apply IH|reflexivity].
Qed.

Lemma is_empty_lower (s : string) : is_empty (lower s) = is_empty s.
Proof. destruct s; reflexivity. Qed.

Lemma match_email_lower (s : string) :
  match_email (lower s) = option_map lower (email_token_at s).
Proof.
  unfold match_email, email_token_at. rewrite drop_prefix_lower.
  destruct (drop_prefix_nocase _ s) as [r|]; [|reflexivity]. simpl.
  rewrite span_lower by (intros c; rewrite lower_char_space; reflexivity).
  destruct (span _ r) as [tok rest]. simpl. rewrite is_empty_lower.
  destruct (is_empty tok); reflexivity.
Qed.

(** The search on the lower-cased text finds the lower-cased token. *)
Lemma search_email_lower (s : string) :
  search_email (lower s) = option_map lower (email_token s).
Proof.
  unfold search_email, email_token.
  induction s as [|c r IH].
  - reflexivity.
  - cbn [lower re_search].
    change (String (lower_char c) (lower r)) with (lower (String c r)).
    rewrite match_email_lower.
    destruct (email_token_at (String c r)); [reflexivity|]. simpl. exact IH.
Qed.

Lemma dict_get_default (d : dict) (k : string) (dflt : json) :
  Py.dict_get d k dflt = if Py.dict_has d k then Py.dict_get d k JNull else dflt.
Proof.
  induction d as [|[k' v] r IH]; [reflexivity|]. simpl.
  destruct (String.eqb k' k); [reflexivity|exact IH].
Qed.

Lemma str_of_int_not_open (z : Z) :
  String.eqb (lower (str_of_int z)) "open" = false.
Proof.
  unfold str_of_int. destruct (Z.to_int z) as [d|d]; [|reflexivity].
  destruct d; reflexivity.
Qed.

(** Only a string can read ["open"] once [str] and [lower] are applied. *)
Lemma str_open (v : json) :
  String.eqb (lower (Py.str v)) "open"
  = match v with
    | JStr s => String.eqb (lower s) "open"
    | _ => false
    end.
Proof.
  destruct v as [|[]|z|s|l|d]; try reflexivity.
  apply str_of_int_not_open.
Qed.

Lemma get_field (t : json) (k : string) (v : json) :
  Py.get t k JNull = Ok v -> v = field t k.
Proof. destruct t; simpl; intros H; try discriminate. congruence. Qed.

Lemma getitem_field (t : json) (k : string) (v : json) :
  Py.getitem t k = Ok v -> v = field t k.
Proof.
  destruct t; simpl; intros H; try discriminate.
  destruct (Py.dict_has fields k); [congruence|discriminate].
Qed.

Lemma status_is_open (t : json) (status : json) :
  Py.get t "status" (JStr "") = Ok status ->
  String.eqb (lower (Py.str status)) "open" = is_open t.
Proof.
  destruct t as [| | | | |d]; simpl; try discriminate.
  intros H. injection H as <-. unfold is_open, field.
  rewrite str_open, dict_get_default.
  destruct (Py.dict_has d "status") eqn:E; [reflexivity|].
  rewrite (dict_get_default d "status" JNull), E. reflexivity.
Qed.

Lemma open_tickets_filter (ts l : list json) :
  open_tickets ts = Ok l -> l = filter is_open ts.
Proof.
  revert l. induction ts as [|t r IH]; intros l; simpl.
  - intros H. injection H as <-. reflexivity.
  - destruct (Py.get t "status" (JStr "")) as [status|] eqn:S; [|discriminate].
    simpl. destruct (open_tickets r) as [more|]; [|discriminate]. simpl.
    rewrite (status_is_open t status S). intros H. injection H as <-.
    rewrite (IH more eq_refl). reflexivity.
Qed.

Lemma issues_of_filter (open_tix l : list json) :
  issues_of open_tix = Ok l ->
  l = filter Py.truthy (map (fun t => field t "issue") open_tix).
Proof.
  revert l. induction open_tix as [|t r IH]; intros l; simpl.
  - intros H. injection H as <-. reflexivity.
  - destruct (Py.get t "issue" JNull) as [issue|] eqn:I; [|discriminate].
    simpl. destruct (issues_of r) as [more|]; [|discriminate]. simpl.
    rewrite <- (get_field t "issue" issue I). intros H. injection H as <-.
    rewrite (IH more eq_refl). reflexivity.
Qed.

Lemma open_entry_report (cust : json) (ts : list json) (t : json)
      (more : list json) (entry : json) :
  filter is_open ts = t :: more ->
  open_entry cust (t :: more) = Ok entry ->
  report_entry Py.truthy cust ts = [entry].
Proof.
  intros F. unfold open_entry, report_entry. rewrite F.
  destruct (Py.get cust "name" JNull) as [name|] eqn:N; [|discriminate].
  destruct (Py.get cust "email" JNull) as [email|] eqn:E; [|discriminate].
  destruct (Py.get cust "phone" JNull) as [phone|] eqn:P; [|discriminate].
  cbn [obind].
  destruct (issues_of (t :: more)) as [issues|] eqn:I; [|discriminate].
  cbn [obind]. intros H. injection H as <-.
  rewrite (get_field _ _ _ N), (get_field _ _ _ E), (get_field _ _ _ P).
  rewrite (issues_of_filter _ _ I). reflexivity.
Qed.

Lemma items_under_ok (key : string) (r : response) (res l : json)
      (items : list json) :
  decode r = Ok res -> Py.get res key (JList []) = Ok l ->
  Py.iter l = Ok items -> items_under key r = items.
Proof.
  intros D G I. unfold items_under. rewrite D. cbn [obind].
  rewrite G. cbn [obind]. rewrite I. reflexivity.
Qed.

(** *** The patterns, declaratively *)

Lemma drop_prefix_spec (lit s r : string) :
  drop_prefix lit s = Some r <-> s = lit ++ r.
Proof.
  revert s. induction lit as [|a lit IH]; intros s; simpl.
  - split; congruence.
  - destruct s as [|b s]; [split; discriminate|].
    destruct (Ascii.eqb_spec a b) as [->|Hne].
    + rewrite IH. split; congruence.
    + split; [discriminate|congruence].
Qed.

Lemma span_spec (p : ascii -> bool) (s a b : string) :
  span p s = (a, b) <->
  s = a ++ b /\ all_chars p a = true /\ starts_with p b = false.
Proof.
  revert a b. induction s as [|c r IH]; intros a b; simpl.
  - split.
    + intros H. injection H as <- <-. auto.
    + intros (H & _ & _). destruct a; [|discriminate]. simpl in H. subst b.
      reflexivity.
  - destruct (p c) eqn:P.
    + destruct (span p r) as [a1 b1]. split.
      * intros H. injection H as <- <-.
        destruct (proj1 (IH a1 b1) eq_refl) as (-> & Ha & Hb).
        simpl. rewrite P, Ha. auto.
      * intros (H & Ha & Hb). destruct a as [|c1 a].
        -- simpl in H. subst b. simpl in Hb. congruence.
        -- simpl in H. injection H as <- ->. simpl in Ha.
           apply andb_true_iff in Ha. destruct Ha as [_ Ha].
           assert (E : (a1, b1) = (a, b)) by (apply IH; auto).
           injection E as -> ->. reflexivity.
    + split.
      * intros H. injection H as <- <-. simpl. auto.
      * intros (H & Ha & Hb). destruct a as [|c1 a].
        -- simpl in H. subst b. reflexivity.
        -- simpl in H. injection H as <- ->. simpl in Ha. rewrite P in Ha.
           discriminate.
Qed.

Lemma digit_not_space (c : ascii) : is_digit c = true -> is_space c = false.
Proof.
  destruct c as [[] [] [] [] [] [] [] []]; simpl; intros H;
    first [reflexivity | discriminate H].
Qed.

Lemma is_empty_spec (s : string) : is_empty s = false <-> s <> "".
Proof. destruct s; simpl; split; congruence. Qed.

(** [<word>\s+(\d+)] matches at the head of [s] with group [ds] exactly
    when [s] is [word], then one or more spaces, then the digits [ds],
    then something that does not go on with a digit. *)
Lemma match_number_after_spec (word s ds : string) :
  match_number_after word s = Some ds <->
  exists ws rest,
    s = word ++ ws ++ ds ++ rest
    /\ ws <> "" /\ all_chars is_space ws = true
    /\ ds <> "" /\ all_chars is_digit ds = true
    /\ starts_with is_digit rest = false.
Proof.
  unfold match_number_after. split.
  - destruct (drop_prefix word s) as [r|] eqn:D; [|discriminate].
    apply drop_prefix_spec in D.
    destruct (span is_space r) as [ws r1] eqn:S1.
    apply span_spec in S1. destruct S1 as (-> & Hws & _).
    destruct (is_empty ws) eqn:E1; [discriminate|].
    destruct (span is_digit r1) as [ds1 rest] eqn:S2.
    apply span_spec in S2. destruct S2 as (-> & Hds & Hrest).
    destruct (is_empty ds1) eqn:E2; [discriminate|].
    intros H. injection H as <-. exists ws, rest.
    rewrite is_empty_spec in E1, E2. auto 8.
  - intros (ws & rest & -> & Hws & Aws & Hds & Ads & Hrest).
    rewrite (proj2 (drop_prefix_spec word _ (ws ++ ds ++ rest)) eq_refl).
    assert (S1 : span is_space (ws ++ ds ++ rest) = (ws, ds ++ rest)).
    { apply span_spec. split; [reflexivity|]. split; [exact Aws|].
      destruct ds as [|d ds]; [congruence|]. simpl in *.
      apply andb_true_iff in Ads. apply digit_not_space. apply Ads. }
    rewrite S1. rewrite (proj2 (is_empty_spec ws) Hws).
    assert (S2 : span is_digit (ds ++ rest) = (ds, rest))
      by (apply span_spec; auto).
    rewrite S2. rewrite (proj2 (is_empty_spec ds) Hds). reflexivity.
Qed.

(** [update my email to ([^\s]+)] matches at the head of [s] with group
    [tok] exactly when [s] is the phrase, then the non-empty token [tok]
    without spaces, then the end or a space. *)
Lemma match_email_spec (s tok : string) :
  match_email s = Some tok <->
  exists rest,
    s = "update my email to " ++ tok ++ rest
    /\ tok <> "" /\ all_chars (fun c => negb (is_space c)) tok = true
    /\ starts_with (fun c => negb (is_space c)) rest = false.
Proof.
  unfold match_email. split.
  - destruct (drop_prefix _ s) as [r|] eqn:D; [|discriminate].
    apply drop_prefix_spec in D.
    destruct (span _ r) as [tok1 rest] eqn:S1.
    apply span_spec in S1. destruct S1 as (-> & Htok & Hrest).
    destruct (is_empty tok1) eqn:E1; [discriminate|].
    intros H. injection H as <-. exists rest.
    rewrite is_empty_spec in E1. auto.
  - intros (rest & -> & Htok & Atok & Hrest).
    rewrite (proj2 (drop_prefix_spec _ _ (tok ++ rest)) eq_refl).
    assert (S1 : span (fun c => negb (is_space c)) (tok ++ rest) = (tok, rest))
      by (apply span_spec; auto).
    rewrite S1. rewrite (proj2 (is_empty_spec tok) Htok). reflexivity.
Qed.

(** [re.search] returns the match at the leftmost position where the
    pattern matches. *)
Lemma re_search_leftmost (m : string -> option string) (s g : string) :
  re_search m s = Some g <->
  exists pre rest,
    s = pre ++ rest /\ m rest = Some g
    /\ forall p1 p2, pre = p1 ++ p2 -> p2 <> "" -> m (p2 ++ rest) = None.
Proof.
  split.
  - induction s as [|c r IH]; simpl.
    + destruct (m "") as [g1|] eqn:M; [|discriminate].
      intros H. injection H as <-. exists "", "". repeat split; auto.
      intros p1 p2 H. destruct p1; [|discriminate]. simpl in H. congruence.
    + destruct (m (String c r)) as [g1|] eqn:M.
      * intros H. injection H as <-. exists "", (String c r).
        repeat split; auto.
        intros p1 p2 H. destruct p1; [|discriminate]. simpl in H. congruence.
      * intros H. destruct (IH H) as (pre & rest & -> & Hm & Hleft).
        exists (String c pre), rest. repeat split; auto.
        intros p1 p2 Hp Hne. destruct p1 as [|c1 p1]; simpl in Hp.
        -- subst p2. exact M.
        -- injection Hp as _ ->. apply (Hleft p1 p2); auto.
  - intros (pre & rest & -> & Hm & Hleft). induction pre as [|c pre IH].
    + simpl. destruct rest; simpl; rewrite Hm; reflexivity.
    + assert (M : m (String c pre ++ rest) = None)
        by (apply (Hleft "" (String c pre)); [reflexivity|discriminate]).
      simpl in M |- *. rewrite M.
      apply IH. intros p1 p2 -> Hne. apply (Hleft (String c p1) p2); auto.
Qed.

Lemma prefix_spec (a b : string) :
  prefix a b = true <-> exists r, b = a ++ r.
Proof.
  revert b. induction a as [|c a IH]; intros b.
  - split; [intros _; exists b; reflexivity|].
    intros _. destruct b; reflexivity.
  - destruct b as [|d b]; simpl.
    + split; [discriminate|intros [r H]; discriminate].
    + destruct (ascii_dec c d) as [->|Hne].
      * rewrite IH. split; intros [r H]; exists r; congruence.
      * split; [discriminate|intros [r H]; congruence].
Qed.

(** [needle in hay] holds exactly when [hay] is some text, then
    [needle], then some text. *)
Lemma str_in_spec (needle hay : string) :
  str_in needle hay = true <-> exists pre post, hay = pre ++ needle ++ post.
Proof.
  induction hay as [|c r IH].
  - cbn [str_in]. destruct (prefix needle "") eqn:P.
    + apply prefix_spec in P. destruct P as [post P].
      split; [intros _; exists "", post; exact P|reflexivity].
    + split; [discriminate|].
      intros (pre & post & H). destruct pre; [|discriminate].
      assert (prefix needle "" = true) by (apply prefix_spec; eauto).
      congruence.
  - cbn [str_in]. destruct (prefix needle (String c r)) eqn:P.
    + apply prefix_spec in P. destruct P as [post P].
      split; [intros _; exists "", post; exact P|reflexivity].
    + rewrite IH. split.
      * intros (pre & post & ->). exists (String c pre), post. reflexivity.
      * intros (pre & post & H). destruct pre as [|c1 pre].
        -- assert (prefix needle (String c r) = true)
             by (apply prefix_spec; eauto).
           congruence.
        -- simpl in H. injection H as _ ->. eauto.
Qed.

(** *** The primitives on sample inputs *)

Example lower_sample : lower "Customer ID 5" = "customer id 5".
Proof. reflexivity. Qed.

Example search_id_inside_word : search_id "valid 12" = Some "12".
Proof. reflexivity. Qed.

Example search_id_needs_space : search_id "id5" = None.
Proof. reflexivity. Qed.

Example search_id_first_match : search_id "id x id  42 id 7" = Some "42".
Proof. reflexivity. Qed.

Example search_customer_sample :
  search_customer "i'm customer 12345 and need help" = Some "12345".
Proof. reflexivity. Qed.

Example search_email_skips_empty_token :
  search_email "update my email to  x update my email to y@z.com, and"
  = Some "y@z.com,".
Proof. reflexivity. Qed.

Example strip_sample : strip "  a b  " = "a b".
Proof. reflexivity. Qed.

Example int_of_str_samples :
  map Py.int_of_str ["+1"; "1_000"; " 12 "; "007"; "-0"; ""; "-"; "- 1";
                     "_1"; "1_"; "1__0"; "0x10"; "+-1"]
  = [Some 1; Some 1000; Some 12; Some 7; Some 0; None; None; None;
     None; None; None; None; None]%Z.
Proof. reflexivity. Qed.

Example str_sample :
  Py.str (JList [JInt 1; JStr "ab"; JNull; JObj [("k", JBool true)]])
  = "[1, 'ab', None, {'k': True}]".
Proof. reflexivity. Qed.

(* ================================================================== *)
(** ** Running the monad *)
(* ================================================================== *)

Lemma failed_raises (r : response) :
  failed r = true -> exists e, decode r = Raise e.
Proof.
  destruct r as [|status body]; simpl; [eauto|].
  destruct (error_status status); simpl; [eauto|].
  destruct body as [js|]; [|discriminate].
  destruct js; try discriminate. simpl. intros ->. simpl. eauto.
Qed.

Lemma decoded_healthy (r : response) (v : json) :
  decode r = Ok v -> failed r = false.
Proof.
  intros D. destruct (failed r) eqn:F; [|reflexivity].
  destruct (failed_raises r F) as [e He]. congruence.
Qed.

Lemma build_response_shape (sc rt lg fn : json) :
  JObj (build_response [("scenario", sc); ("route", rt); ("logs", lg); ("final", fn)])
  = envelope_of sc rt lg fn.
Proof. reflexivity. Qed.

Section Runs.

Context {W : Type}.
Variable http_post : W -> string -> json -> response * W.

Lemma bind_assoc {A B C} (m : M W A) (f : A -> M W B) (k : B -> M W C) st :
  bind (bind m f) k st = bind m (fun a => bind (f a) k) st.
Proof. unfold bind. destruct (m st) as [[a|e] st1]; reflexivity. Qed.

Lemma bind_ret {A} (m : M W A) st : bind m ret st = m st.
Proof. unfold bind, ret. destruct (m st) as [[a|e] st1]; reflexivity. Qed.

Lemma bind_log {A} (l : string) (K : unit -> M W A) (st : rstate W) :
  bind (log l) K st = K tt (RState (world st) (sent st) (logs st ++ [l])%list).
Proof. reflexivity. Qed.

Lemma bind_lift_ok {A B} (a : A) (K : A -> M W B) (st : rstate W) :
  bind (lift (Ok a)) K st = K a st.
Proof. reflexivity. Qed.

Lemma bind_lift_raise {A B} (e : exn) (K : A -> M W B) (st : rstate W) :
  bind (lift (Raise e)) K st = (Raise e, st).
Proof. reflexivity. Qed.

Lemma agent_call_runs (url tool : string) (a : json) (st : rstate W) :
  agent_call http_post url tool a st =
  let body := JObj [("tool", JStr tool); ("arguments", a)] in
  let rw := http_post (world st) url body in
  (decode (fst rw),
   RState (snd rw) (sent st ++ [Exchange url body (fst rw)])%list (logs st)).
Proof.
  unfold agent_call, bind, post, lift.
  destruct (http_post _ _ _) as [r w']. reflexivity.
Qed.

Lemma sent_ok_start (st0 : rstate W) : sent_ok st0 st0 0.
Proof. exists []. rewrite app_nil_r. auto. Qed.

Lemma sent_ok_same (st0 st st1 : rstate W) k :
  sent_ok st0 st k -> sent st1 = sent st -> sent_ok st0 st1 k.
Proof. intros (pre & E & H & L) Hs. exists pre. rewrite Hs. auto. Qed.

Section Steps.

Variables (i : Intent) (lines : list string) (st0 : rstate W).

Lemma sum_raise (st : rstate W) (e : exn) k n :
  sent_ok st0 st k -> 1 <= n -> logs st = firstn n lines ->
  summary i lines st0 (Raise e, st).
Proof.
  intros (pre & E & H & L) Hn Hl. repeat split.
  - exists pre. split; [exact E|]. left. exact H.
  - exists n. auto.
  - discriminate.
  - discriminate.
Qed.

Lemma sum_lift {A} (o : outcome A) (K : A -> M W json) (st : rstate W) k n :
  sent_ok st0 st k -> 1 <= n -> logs st = firstn n lines ->
  (forall v, o = Ok v -> summary i lines st0 (K v st)) ->
  summary i lines st0 (bind (lift o) K st).
Proof.
  intros Hs Hn Hl HK. unfold bind, lift. destruct o as [v|e].
  - apply HK. reflexivity.
  - eapply sum_raise; eauto.
Qed.

Lemma sum_log (l : string) (K : unit -> M W json) (st : rstate W) :
  (forall st1, sent st1 = sent st -> logs st1 = (logs st ++ [l])%list ->
               summary i lines st0 (K tt st1)) ->
  summary i lines st0 (bind (log l) K st).
Proof. intros HK. unfold bind, log. apply HK; reflexivity. Qed.

Lemma sum_call (url tool : string) (a : json) (K : json -> M W json)
      (st : rstate W) k :
  sent_ok st0 st k ->
  logs st = firstn (lines_before_step i k) lines ->
  (forall v st1, sent_ok st0 st1 (S k) -> logs st1 = logs st ->
                 summary i lines st0 (K v st1)) ->
  summary i lines st0 (bind (agent_call http_post url tool a) K st).
Proof.
  intros (pre & E & H & L) Hl HK. unfold bind. rewrite agent_call_runs.
  cbv zeta. destruct (http_post _ _ _) as [r w']. cbn [fst snd].
  set (x := Exchange url _ r).
  assert (Hn : 1 <= lines_before_step i k) by (destruct i; simpl; lia).
  destruct (decode r) as [v|e] eqn:D.
  - apply HK; [|reflexivity].
    exists (pre ++ [x])%list. cbn [sent]. rewrite E, <- app_assoc.
    split; [reflexivity|]. split.
    + apply Forall_app. split; [exact H|]. constructor; [|constructor].
      unfold healthy. simpl. eapply decoded_healthy; eauto.
    + rewrite length_app. simpl. lia.
  - repeat split; cbn [fst snd sent logs]; try discriminate.
    + exists (pre ++ [x])%list. rewrite E, <- app_assoc.
      split; [reflexivity|].
      destruct (failed r) eqn:F.
      * right. exists pre, x, e. subst k. repeat split; auto.
      * left. apply Forall_app. split; [exact H|].
        constructor; [exact F|constructor].
    + exists (lines_before_step i k). auto.
Qed.

Lemma sum_envelope (sc rt : string) (fn : json) (st : rstate W) k :
  sent_ok st0 st k -> logs st = lines -> lines <> [] ->
  summary i lines st0 (envelope sc rt fn st).
Proof.
  intros (pre & E & H & L) Hl Hne.
  unfold summary, envelope, bind, read_logs, ret.
  cbn [fst snd]. split; [|split].
  - exists pre. auto.
  - exists (length lines). split.
    + destruct lines; [congruence|simpl; lia].
    + rewrite firstn_all. exact Hl.
  - intros v Hv. injection Hv as <-. rewrite Hl. split; [reflexivity|].
    exists (JStr sc), (JStr rt), fn. reflexivity.
Qed.

End Steps.

(** *** The exchanges of a run extend those it started with *)

Lemma grows_ret {A} (a : A) : grows (ret (W := W) a).
Proof. intros st. exists []. simpl. rewrite app_nil_r. reflexivity. Qed.

Lemma grows_lift {A} (o : outcome A) : grows (lift (W := W) o).
Proof. intros st. exists []. simpl. rewrite app_nil_r. reflexivity. Qed.

Lemma grows_log (l : string) : grows (@log W l).
Proof. intros st. exists []. simpl. rewrite app_nil_r. reflexivity. Qed.

Lemma grows_read_logs : grows (@read_logs W).
Proof. intros st. exists []. simpl. rewrite app_nil_r. reflexivity. Qed.

Lemma grows_agent_call url tool a : grows (agent_call http_post url tool a).
Proof.
  intros st. rewrite agent_call_runs. cbv zeta. cbn [snd sent]. eauto.
Qed.

Lemma grows_bind {A B} (m : M W A) (k : A -> M W B) :
  grows m -> (forall a, grows (k a)) -> grows (bind m k).
Proof.
  intros Hm Hk st. unfold bind. destruct (Hm st) as [more1 E1].
  destruct (m st) as [[a|e] st1]; cbn [snd] in E1.
  - destruct (Hk a st1) as [more2 E2]. exists (more1 ++ more2)%list.
    rewrite E2, E1, app_assoc. reflexivity.
  - exists more1. exact E1.
Qed.

Lemma grows_envelope sc rt fn : grows (envelope (W := W) sc rt fn).
Proof.
  unfold envelope. apply grows_bind; [apply grows_read_logs|].
  intros lg. apply grows_ret.
Qed.

(** The first request of a run that starts with a call. *)
Lemma first_request_call url tool a (K : json -> M W json) (st : rstate W) :
  sent st = [] -> (forall v, grows (K v)) ->
  first_request (bind (agent_call http_post url tool a) K st)
  = Some (JObj [("tool", JStr tool); ("arguments", a)]).
Proof.
  intros Hs HK. unfold bind at 1.
  rewrite agent_call_runs. cbv zeta.
  destruct (http_post _ _ _) as [r w']. cbn [fst snd]. rewrite Hs.
  destruct (decode r) as [v|e]; [|reflexivity].
  match goal with
  | |- first_request (?m ?s) =  _ => destruct (HK v s) as [more E]
  end.
  unfold first_request. rewrite E. reflexivity.
Qed.

(** *** Taking a completed run apart *)

Lemma bind_ok_inv {A B} (m : M W A) (k : A -> M W B) st b st' :
  bind m k st = (Ok b, st') ->
  exists a st1, m st = (Ok a, st1) /\ k a st1 = (Ok b, st').
Proof.
  unfold bind. destruct (m st) as [[a|e] st1]; [eauto|discriminate].
Qed.

Lemma lift_ok_inv {A} (o : outcome A) (st : rstate W) a st1 :
  lift o st = (Ok a, st1) -> o = Ok a /\ st1 = st.
Proof. unfold lift. intros H. injection H as -> ->. auto. Qed.

Lemma log_inv (l : string) (st : rstate W) u st1 :
  log l st = (Ok u, st1) ->
  st1 = RState (world st) (sent st) (logs st ++ [l])%list.
Proof. unfold log. intros H. injection H as _ <-. reflexivity. Qed.

Lemma agent_call_ok_inv url tool a (st : rstate W) v st1 :
  agent_call http_post url tool a st = (Ok v, st1) ->
  exists r w',
    decode r = Ok v /\
    st1 = RState w' (sent st ++ [Exchange url (JObj [("tool", JStr tool);
                                                     ("arguments", a)]) r])%list
                 (logs st).
Proof.
  rewrite agent_call_runs. cbv zeta. destruct (http_post _ _ _) as [r w'].
  cbn [fst snd]. intros H. injection H as Hd <-. eauto.
Qed.

Lemma envelope_inv sc rt fn (st : rstate W) v st1 :
  envelope sc rt fn st = (Ok v, st1) ->
  st1 = st /\
  v = envelope_of (JStr sc) (JStr rt) (JList (map JStr (logs st))) fn.
Proof.
  unfold envelope, bind, read_logs, ret. intros H. injection H as <- <-. auto.
Qed.


End Runs.

(** *** Tactics for stepping through a route *)

Ltac logs_now :=
  repeat match goal with
         | H : logs _ = _ |- _ => rewrite H
         end;
  reflexivity.

Ltac sent_now := eauto using sent_ok_same, sent_ok_start.

Ltac step_log :=
  apply sum_log;
  let st1 := fresh "st" in let S1 := fresh "S" in let L1 := fresh "L" in
  intros st1 S1 L1.

Ltac step_lift m :=
  eapply sum_lift with (n := m); [sent_now | lia | logs_now |];
  let v := fresh "v" in intros v _.

Ltac step_call :=
  eapply sum_call; [sent_now | logs_now |];
  let v := fresh "v" in let st1 := fresh "st" in
  let S1 := fresh "S" in let L1 := fresh "L" in
  intros v st1 S1 L1.

Ltac step_envelope :=
  eapply sum_envelope; [sent_now | logs_now | discriminate].

Ltac grows_step :=
  first [ apply grows_ret | apply grows_lift | apply grows_log
        | apply grows_agent_call | apply grows_envelope
        | apply grows_bind
        | match goal with
          | |- grows (if ?b then _ else _) => destruct b
          | |- grows (match ?x with _ => _ end) => destruct x
          | |- forall _, _ => intro
          end ].

(** Taking apart a hypothesis [H] that a chain of binds returned: [a] is
    what the head of the chain returned, [Ha] what is known of it. *)
Ltac invert_head Ha :=
  first
    [ apply lift_ok_inv in Ha; destruct Ha as [Ha ->]
    | apply log_inv in Ha; subst
    | apply agent_call_ok_inv in Ha;
      let r := fresh "r" in let w := fresh "w" in
      destruct Ha as (r & w & Ha & ->)
    | idtac ].

Tactic Notation "invert_bind" hyp(H) "as" ident(a) ident(Ha) :=
  let st1 := fresh "st" in
  apply bind_ok_inv in H; destruct H as (a & st1 & Ha & H);
  invert_head Ha; cbv beta in H.


(* ================================================================== *)
(** ** The routes, one by one *)
(* ================================================================== *)

Section Routes.

Context {W : Type}.
Variable http_post : W -> string -> json -> response * W.


Lemma route_data_summary (args : dict) (query : string) (st : rstate W) :
  logs st = [] ->
  summary DATA ["Router classified as DATA"; "Data Agent used MCP tools"] st
          (route_data http_post args query st).
Proof.
  intros L. unfold route_data, data_call.
  step_log. step_lift 1. step_call. step_log. step_envelope.
Qed.

Lemma route_support_summary (query : string) (st : rstate W) :
  logs st = [] ->
  summary SUPPORT ["Router classified as SUPPORT"] st
          (route_support http_post query st).
Proof.
  intros L. unfold route_support, support_call.
  step_log. step_call. step_lift 1. step_envelope.
Qed.

Lemma route_multi_update_summary (args : dict) (query : string) (st : rstate W) :
  logs st = [] ->
  summary MULTI_UPDATE
          ["Router classified as MULTI"; "Data Agent invoked via MCP";
           "Support Agent generated coordinated response"] st
          (route_multi_update http_post args query st).
Proof.
  intros L. unfold route_multi_update, data_call.
  step_log. step_lift 1. step_call. step_log. step_call.
  step_lift 2. step_lift 2. step_log. step_envelope.
Qed.

Lemma route_multi_coord_summary (args : dict) (query : string) (st : rstate W) :
  logs st = [] ->
  summary MULTI_COORD
          (match customer_id_of (search_customer (lower query)) args 0 with
           | Ok 0%Z => ["Router classified as MULTI";
                        "Support Agent generated coordinated response"]
           | _ => ["Router classified as MULTI"; "Data Agent invoked via MCP";
                   "Support Agent generated coordinated response"]
           end) st
          (route_multi_coord http_post args query st).
Proof.
  intros L. unfold route_multi_coord, data_call, support_call.
  step_log.
  destruct (customer_id_of _ _ _) as [cid|e] eqn:C.
  - unfold bind at 1. unfold lift at 1.
    destruct (Z.eqb_spec cid 0) as [->|Hne].
    + cbn [negb Z.eqb]. unfold bind at 1. unfold ret at 1.
      step_call. step_lift 1. step_log. step_lift 2. step_envelope.
    + assert (Hl : (match cid with
                    | 0%Z => ["Router classified as MULTI";
                              "Support Agent generated coordinated response"]
                    | _ => ["Router classified as MULTI";
                            "Data Agent invoked via MCP";
                            "Support Agent generated coordinated response"]
                    end) = ["Router classified as MULTI";
                            "Data Agent invoked via MCP";
                            "Support Agent generated coordinated response"])
        by (destruct cid; congruence).
      rewrite Hl. cbn [negb]. rewrite !bind_assoc.
      step_call. rewrite bind_assoc. step_lift 1. rewrite bind_assoc.
      step_log. unfold bind at 1. unfold ret at 1.
      step_call. step_lift 2. step_log. step_lift 3. step_envelope.
  - unfold bind, lift. eapply sum_raise with (n := 1); [sent_now|lia|logs_now].
Qed.

Lemma multi_open_loop_summary (st0 : rstate W) (custs : list json) :
  forall (result : list json) (st : rstate W) (k : nat)
         (K : list json -> M W json),
    sent_ok st0 st k ->
    logs st = ["Router classified as MULTI"] ->
    (forall res st1 k1, sent_ok st0 st1 k1 -> logs st1 = logs st ->
                        summary MULTI_OPEN multi_lines st0 (K res st1)) ->
    summary MULTI_OPEN multi_lines st0
            (bind (multi_open_loop http_post custs result) K st).
Proof.
  induction custs as [|cust rest IH]; intros result st k K Hs Hl HK.
  - cbn [multi_open_loop]. unfold bind, ret. eapply HK; eauto.
  - cbn [multi_open_loop]. unfold data_call.
    rewrite bind_assoc. step_lift 1.
    rewrite bind_assoc. step_call.
    rewrite bind_assoc. step_lift 1.
    rewrite bind_assoc. step_lift 1.
    rewrite bind_assoc. step_lift 1.
    match goal with
    | |- context [match ?l with nil => _ | cons _ _ => _ end] =>
        destruct l as [|t open_tix]
    end.
    + eapply IH; [sent_now|logs_now|].
      intros res st2 k2 S2 L2. eapply HK; [exact S2|]. logs_now.
    + rewrite bind_assoc. step_lift 1.
      eapply IH; [sent_now|logs_now|].
      intros res st2 k2 S2 L2. eapply HK; [exact S2|]. logs_now.
Qed.

Lemma route_multi_open_summary (st : rstate W) :
  logs st = [] ->
  summary MULTI_OPEN multi_lines st (route_multi_open http_post st).
Proof.
  intros L. unfold route_multi_open, data_call.
  step_log. step_call. step_lift 1. step_lift 1.
  eapply multi_open_loop_summary; [sent_now|logs_now|].
  intros res st2 k2 S2 L2.
  step_log. step_log. step_envelope.
Qed.

(** *** The handler *)

Lemma dispatch_classified (args : dict) (q : string) :
  dispatch http_post (classify_intent q) args q =
  match spec_classify q with
  | DATA => route_data http_post args q
  | SUPPORT => route_support http_post q
  | MULTI_OPEN => route_multi_open http_post
  | MULTI_COORD => route_multi_coord http_post args q
  | MULTI_UPDATE => route_multi_update http_post args q
  end.
Proof.
  rewrite classify_refines_rules. destruct (spec_classify q); reflexivity.
Qed.

Lemma router_call_known (req : A2ACallRequest) (st : rstate W) :
  known_tool (tool req) = true ->
  router_call http_post req st =
  dispatch http_post (classify_intent (query_of (args_of req))) (args_of req)
           (query_of (args_of req)) (RState (world st) (sent st) []).
Proof. intros K. unfold router_call. rewrite K. reflexivity. Qed.

Lemma router_call_summary (req : A2ACallRequest) (st : rstate W) :
  known_tool (tool req) = true ->
  summary (intent_of req) (plan_lines req) st (router_call http_post req st).
Proof.
  intros K. rewrite (router_call_known req st K), dispatch_classified.
  unfold plan_lines, coord_customer, intent_of.
  set (st1 := RState (world st) (sent st) []).
  change (summary (spec_classify (query_of (args_of req)))
            match spec_classify (query_of (args_of req)) with
            | DATA => ["Router classified as DATA"; "Data Agent used MCP tools"]
            | SUPPORT => ["Router classified as SUPPORT"]
            | MULTI_OPEN => multi_lines
            | MULTI_COORD =>
                match customer_id_of
                        (search_customer (lower (query_of (args_of req))))
                        (args_of req) 0 with
                | Ok 0%Z => ["Router classified as MULTI";
                             "Support Agent generated coordinated response"]
                | _ => multi_lines
                end
            | MULTI_UPDATE => multi_lines
            end st1
            (match spec_classify (query_of (args_of req)) with
             | DATA => route_data http_post (args_of req) (query_of (args_of req))
             | SUPPORT => route_support http_post (query_of (args_of req))
             | MULTI_OPEN => route_multi_open http_post
             | MULTI_COORD =>
                 route_multi_coord http_post (args_of req) (query_of (args_of req))
             | MULTI_UPDATE =>
                 route_multi_update http_post (args_of req) (query_of (args_of req))
             end st1)).
  destruct (spec_classify (query_of (args_of req))).
  - apply route_data_summary. reflexivity.
  - apply route_support_summary. reflexivity.
  - apply route_multi_open_summary. reflexivity.
  - apply route_multi_coord_summary. reflexivity.
  - apply route_multi_update_summary. reflexivity.
Qed.

Lemma route_fallback_silent (q : string) (st : rstate W) :
  logs (snd (route_fallback http_post q st)) = logs st.
Proof.
  unfold route_fallback, support_call, bind. rewrite agent_call_runs.
  cbv zeta. destruct (http_post _ _ _) as [r w']. cbn [fst snd].
  destruct (decode r) as [v|e]; [|reflexivity].
  unfold lift. destruct (Py.get v "text" (JStr "")); reflexivity.
Qed.


Lemma grows_multi_open_loop (custs : list json) :
  forall result, grows (multi_open_loop http_post custs result).
Proof.
  induction custs as [|c rest IH]; intros result; cbn [multi_open_loop].
  - apply grows_ret.
  - unfold data_call. repeat first [apply IH | grows_step].
Qed.


(** *** A completed MULTI_OPEN loop *)

Lemma multi_open_loop_ok (custs : list json) :
  forall (result : list json) (st : rstate W) (res : list json) (st' : rstate W),
    multi_open_loop http_post custs result st = (Ok res, st') ->
    exists rs,
      length rs = length custs
      /\ sent st' = (sent st ++ map history_exchange (combine custs rs))%list
      /\ logs st' = logs st
      /\ res = (result
                ++ spec_report (combine custs (map history_tickets rs)))%list.
Proof.
  induction custs as [|cust rest IH]; intros result st res st' H.
  - cbn [multi_open_loop] in H. unfold ret in H. injection H as <- <-.
    exists []. simpl. rewrite !app_nil_r. auto.
  - cbn [multi_open_loop] in H. unfold data_call in H.
    invert_bind H as cid Hcid. invert_bind H as hist Hhist.
    invert_bind H as tickets Htickets. invert_bind H as ts Hts.
    invert_bind H as open_tix Hopen.
    pose proof (items_under_ok "tickets" _ _ _ _ Hhist Htickets Hts) as Ht.
    pose proof (open_tickets_filter _ _ Hopen) as Hf.
    apply getitem_field in Hcid. subst cid.
    assert (Hrep : exists st2 entries,
               multi_open_loop http_post rest (result ++ entries)%list st2
               = (Ok res, st')
               /\ entries = report_entry Py.truthy cust (history_tickets r)
               /\ sent st2 = (sent st ++ [history_exchange (cust, r)])%list
               /\ logs st2 = logs st).
    { destruct open_tix as [|t more].
      - eexists; exists []. rewrite app_nil_r. split; [exact H|].
        split; [|split; reflexivity].
        unfold history_tickets, report_entry. rewrite Ht, <- Hf. reflexivity.
      - invert_bind H as entry Hentry. eexists; exists [entry].
        split; [exact H|]. split; [|split; reflexivity].
        symmetry. unfold history_tickets. rewrite Ht.
        eapply open_entry_report; eauto. }
    destruct Hrep as (st2 & entries & Hloop & -> & Hs2 & Hl2).
    destruct (IH _ _ _ _ Hloop) as (rs & Hlen & Hs & Hl & ->).
    exists (r :: rs). cbn [length combine map]. repeat split.
    + congruence.
    + rewrite Hs, Hs2, <- app_assoc. reflexivity.
    + congruence.
    + unfold spec_report, report. cbn [flat_map fst snd].
      rewrite <- app_assoc. reflexivity.
Qed.

(** A completed MULTI_OPEN run: its exchanges and what it returns. *)
Lemma route_multi_open_ok (st : rstate W) (v : json) (st' : rstate W) :
  route_multi_open http_post st = (Ok v, st') ->
  exists r0 rs,
    length rs = length (listed_customers r0)
    /\ sent st' = (sent st ++ list_exchange r0
                     :: map history_exchange (combine (listed_customers r0) rs))%list
    /\ final_of v
       = JList (spec_report (combine (listed_customers r0)
                                     (map history_tickets rs))).
Proof.
  unfold route_multi_open, data_call. intros H.
  invert_bind H as u Hu. invert_bind H as listed Hlisted.
  invert_bind H as customers Hcustomers. invert_bind H as custs Hcusts.
  apply bind_ok_inv in H. destruct H as (res & st1 & Hloop & H).
  invert_bind H as u1 Hu1. invert_bind H as u2 Hu2.
  apply envelope_inv in H. destruct H as [-> ->].
  destruct (multi_open_loop_ok _ _ _ _ _ Hloop) as (rs & Hlen & Hs & Hl & ->).
  pose proof (items_under_ok "customers" _ _ _ _ Hlisted Hcustomers Hcusts) as Hc.
  exists r, rs. unfold listed_customers. rewrite Hc.
  split; [exact Hlen|]. split; [|reflexivity].
  cbn [sent] in *. rewrite Hs, <- app_assoc. reflexivity.
Qed.


(** *** MULTI_OPEN completes when the collaborators answer well *)

Lemma open_tickets_total (ts : list json) :
  forallb is_record ts = true -> exists l, open_tickets ts = Ok l.
Proof.
  induction ts as [|t r IH]; simpl; [eauto|].
  intros H. apply andb_true_iff in H. destruct H as [Ht Hr].
  destruct t; try discriminate. destruct (IH Hr) as [l ->]. simpl. eauto.
Qed.

Lemma issues_of_total (ts : list json) :
  forallb is_record ts = true -> exists l, issues_of ts = Ok l.
Proof.
  induction ts as [|t r IH]; simpl; [eauto|].
  intros H. apply andb_true_iff in H. destruct H as [Ht Hr].
  destruct t; try discriminate. destruct (IH Hr) as [l ->]. simpl. eauto.
Qed.

Lemma filter_records (p : json -> bool) (ts : list json) :
  forallb is_record ts = true -> forallb is_record (filter p ts) = true.
Proof.
  induction ts as [|t r IH]; simpl; [auto|].
  intros H. apply andb_true_iff in H. destruct H as [Ht Hr].
  destruct (p t); simpl; [rewrite Ht|]; auto.
Qed.

Lemma agent_call_ok url tool a (st : rstate W) v :
  decode (fst (http_post (world st) url
                         (JObj [("tool", JStr tool); ("arguments", a)]))) = Ok v ->
  exists st1, agent_call http_post url tool a st = (Ok v, st1).
Proof. intros D. rewrite agent_call_runs. cbv zeta. rewrite D. eauto. Qed.

Lemma bind_ok {A B} (m : M W A) (k : A -> M W B) st a st1 :
  m st = (Ok a, st1) -> bind m k st = k a st1.
Proof. intros H. unfold bind. rewrite H. reflexivity. Qed.

Section GoodWorld.

Hypothesis listing_good :
  forall w a, good_listing (fst (http_post w data_url (request "list_customers" a))).
Hypothesis history_good :
  forall w a,
    good_history (fst (http_post w data_url (request "get_customer_history" a))).

Lemma multi_open_loop_total (custs : list json) :
  forallb has_id custs = true ->
  forall result st,
  exists res st', multi_open_loop http_post custs result st = (Ok res, st').
Proof.
  induction custs as [|cust rest IH]; intros Hc result st.
  - cbn [multi_open_loop]. unfold ret. eauto.
  - simpl in Hc. apply andb_true_iff in Hc. destruct Hc as [Hcust Hrest].
    destruct cust as [| | | | |d]; try discriminate. simpl in Hcust.
    cbn [multi_open_loop]. unfold Py.getitem. rewrite Hcust, bind_lift_ok.
    unfold data_call.
    destruct (history_good (world st) [("customer_id", Py.dict_get d "id" JNull)])
      as (h & ts & D & G & R).
    destruct (agent_call_ok _ _ _ st _ D) as [st1 Hcall].
    rewrite (bind_ok _ _ _ _ _ Hcall).
    unfold Py.get at 1. rewrite G, bind_lift_ok.
    unfold Py.iter at 1. rewrite bind_lift_ok.
    destruct (open_tickets_total ts R) as [open_tix Ho].
    rewrite Ho, bind_lift_ok.
    destruct open_tix as [|t more]; [apply IH; exact Hrest|].
    assert (Hopen : forallb is_record (t :: more) = true).
    { rewrite (open_tickets_filter _ _ Ho). apply filter_records. exact R. }
    destruct (issues_of_total _ Hopen) as [issues Hi].
    unfold open_entry. cbn [Py.get obind]. rewrite Hi. cbn [obind].
    rewrite bind_lift_ok. apply IH. exact Hrest.
Qed.

Lemma route_multi_open_total (st : rstate W) :
  exists v st', route_multi_open http_post st = (Ok v, st').
Proof.
  unfold route_multi_open, data_call. rewrite bind_log.
  match goal with
  | |- context [bind (agent_call _ _ _ _) _ ?s] =>
      destruct (listing_good (world s) [("status", JStr "active");
                                        ("limit", JInt 200)])
        as (d & cs & D & G & R);
      destruct (agent_call_ok _ _ _ s _ D) as [st1 Hcall]
  end.
  rewrite (bind_ok _ _ _ _ _ Hcall).
  unfold Py.get at 1. rewrite G, bind_lift_ok.
  unfold Py.iter at 1. rewrite bind_lift_ok.
  destruct (multi_open_loop_total cs R [] st1) as (res & st2 & Hloop).
  rewrite (bind_ok _ _ _ _ _ Hloop), !bind_log.
  unfold envelope, bind, read_logs, ret. eauto.
Qed.

End GoodWorld.

End Routes.

(* ================================================================== *)
(** ** Failure of a collaborator *)
(* ================================================================== *)

(** C5. When a call to a collaborator fails (the transport raises, the
    status is an error status, or the body has the error shape), the
    plan stops there: the failing exchange is the last one made, the
    handler raises what the call raised instead of returning an envelope
    or any other value, and [logs] holds only the lines that were there
    when the failing step started. *)
Theorem collaborator_failure_aborts
        (W : Type) (http_post : W -> string -> json -> response * W)
        (req : A2ACallRequest) (w : W) (x : exchange) :
  known_tool (tool req) = true ->
  In x (sent (snd (router_call http_post req (arrive w)))) ->
  failed (ex_response x) = true ->
  exists pre e,
    sent (snd (router_call http_post req (arrive w))) = (pre ++ [x])%list
    /\ Forall healthy pre
    /\ decode (ex_response x) = Raise e
    /\ fst (router_call http_post req (arrive w)) = Raise e
    /\ logs (snd (router_call http_post req (arrive w)))
       = firstn (lines_before_step (intent_of req) (length pre)) (plan_lines req).
Proof.
  intros K Hin Hf.
  destruct (router_call_summary http_post req (arrive w) K)
    as [(new & Hs & Hcase) _].
  change (sent (arrive w) ++ new)%list with new in Hs.
  rewrite Hs in Hin |- *.
  destruct Hcase as [Hall | (pre & y & e & -> & Hpre & Hy & Hd & Hr & Hl)].
  - rewrite Forall_forall in Hall. apply Hall in Hin.
    unfold healthy in Hin. congruence.
  - apply in_app_or in Hin. destruct Hin as [Hin | Hin].
    + rewrite Forall_forall in Hpre. apply Hpre in Hin.
      unfold healthy in Hin. congruence.
    + simpl in Hin. destruct Hin as [<- | []].
      exists pre, e. auto.
Qed.

Lemma collaborator_failure_aborts_witness :
  let run := Script.run update_then_outage update_request in
  let x := Exchange data_url
                    (request "get_customer_history" [("customer_id", JInt 3)])
                    (Response 503 None) in
  exists pre e,
    sent (snd run) = (pre ++ [x])%list
    /\ Forall healthy pre
    /\ decode (ex_response x) = Raise e
    /\ fst run = Raise e
    /\ logs (snd run)
       = firstn (lines_before_step (intent_of update_request) (length pre))
                (plan_lines update_request).
Proof.
  intros run x.
  apply (collaborator_failure_aborts _ Script.scripted update_request
                                     update_then_outage x).
  - reflexivity.
  - right. left. reflexivity.
  - reflexivity.
Defined.

(* ================================================================== *)
(** ** The envelope *)
(* ================================================================== *)

Lemma dict_get_set_same (d : dict) (k : string) (v dflt : json) :
  Py.dict_get (Py.dict_set d k v) k dflt = v.
Proof.
  induction d as [|[k' v'] r IH]; simpl.
  - rewrite String.eqb_refl. reflexivity.
  - destruct (String.eqb k' k) eqn:E; simpl; rewrite E; auto.
Qed.

Lemma dict_get_set_other (d : dict) (k k1 : string) (v dflt : json) :
  k1 <> k -> Py.dict_get (Py.dict_set d k v) k1 dflt = Py.dict_get d k1 dflt.
Proof.
  intros Hne. induction d as [|[k' v'] r IH]; simpl.
  - destruct (String.eqb_spec k k1); [congruence|reflexivity].
  - destruct (String.eqb_spec k' k) as [->|Hk]; simpl.
    + destruct (String.eqb_spec k k1); [congruence|reflexivity].
    + destruct (String.eqb k' k1); auto.
Qed.

(** C6. Every envelope returned for a recognized tool has the four
    fields scenario, route, logs and final, and a field result holding
    the same four fields with the same values.  [build_response] does
    that for any payload: the fields of the payload stay as they are
    and result holds the payload. *)
Theorem envelope_mirrors_fields
        (W : Type) (http_post : W -> string -> json -> response * W)
        (req : A2ACallRequest) (st : rstate W) (v : json) :
  known_tool (tool req) = true ->
  fst (router_call http_post req st) = Ok v ->
  (exists sc rt lg fn,
      v = JObj [("scenario", sc); ("route", rt); ("logs", lg); ("final", fn);
                ("result", JObj [("scenario", sc); ("route", rt);
                                 ("logs", lg); ("final", fn)])])
  /\ (forall payload dflt,
         Py.dict_get (build_response payload) "result" dflt = JObj payload
         /\ forall k, k <> "result" ->
                      Py.dict_get (build_response payload) k dflt
                      = Py.dict_get payload k dflt).
Proof.
  intros K Hv. split.
  - pose proof (router_call_summary http_post req st K) as Hsum.
    unfold summary in Hsum. destruct Hsum as (_ & _ & Hdone).
    destruct (Hdone v Hv) as (_ & sc & rt & fn & ->).
    exists sc, rt, (JList (map JStr (plan_lines req))), fn. reflexivity.
  - intros payload dflt. unfold build_response. split.
    + apply dict_get_set_same.
    + intros k Hk. apply dict_get_set_other. exact Hk.
Qed.

Lemma envelope_mirrors_fields_witness :
  exists v,
    fst (Script.run ana_script ana_request) = Ok v
    /\ exists sc rt lg fn,
      v = JObj [("scenario", sc); ("route", rt); ("logs", lg); ("final", fn);
                ("result", JObj [("scenario", sc); ("route", rt);
                                 ("logs", lg); ("final", fn)])].
Proof.
  eexists. split; [reflexivity|].
  apply (envelope_mirrors_fields _ Script.scripted ana_request
                                 (arrive ana_script)); reflexivity.
Defined.

(* ================================================================== *)
(** ** The fallback branch *)
(* ================================================================== *)

(** C10. [classify_intent] returns one of the five labels, so for a
    recognized tool the chain of tests on [route] always ends in one of
    the five named branches: the fallback branch, which never writes to
    [logs], is not run, and [logs] is never empty at the end. *)
Theorem fallback_unreachable
        (W : Type) (http_post : W -> string -> json -> response * W)
        (req : A2ACallRequest) (st : rstate W) :
  known_tool (tool req) = true ->
  In (classify_intent (query_of (args_of req)))
     ["DATA"; "SUPPORT"; "MULTI_OPEN"; "MULTI_COORD"; "MULTI_UPDATE"]
  /\ router_call http_post req st
     = (let args := args_of req in
        let q := query_of args in
        match intent_of req with
        | DATA => route_data http_post args q
        | SUPPORT => route_support http_post q
        | MULTI_OPEN => route_multi_open http_post
        | MULTI_COORD => route_multi_coord http_post args q
        | MULTI_UPDATE => route_multi_update http_post args q
        end (RState (world st) (sent st) []))
  /\ logs (snd (router_call http_post req st)) <> []
  /\ (forall q st1, logs (snd (route_fallback http_post q st1)) = logs st1).
Proof.
  intros K. repeat split.
  - rewrite classify_refines_rules.
    destruct (spec_classify _); simpl; auto 6.
  - rewrite (router_call_known http_post req st K), dispatch_classified.
    reflexivity.
  - pose proof (router_call_summary http_post req st K) as Hsum.
    unfold summary in Hsum. destruct Hsum as (_ & (n & Hn & Hl) & _).
    rewrite Hl. unfold plan_lines.
    destruct n as [|n]; [lia|].
    destruct (intent_of req); try discriminate.
    destruct (coord_customer req) as [[| |]|]; discriminate.
  - intros q st1. apply route_fallback_silent.
Qed.

Lemma fallback_unreachable_witness :
  logs (snd (Script.run ana_script ana_request)) <> [].
Proof.
  apply (fallback_unreachable _ Script.scripted ana_request (arrive ana_script)).
  reflexivity.
Defined.

(* ================================================================== *)
(** ** MULTI_OPEN: the report *)
(* ================================================================== *)

(** C4, as amended.  A completed MULTI_OPEN plan asked for the list of
    customers, then for the history of each listed customer in the order
    listed, and returns the report over them: a ticket is open when its
    status is ["open"], letter case ignored; a customer without open
    tickets has no entry; the entry of a customer holds name, email,
    phone, the number of open tickets and, in ticket order, the issues
    of the open tickets that Python holds true (a null issue is left
    out, and so is an empty one); entries follow the order of the
    customers.  The plan does complete when the collaborators answer
    well. *)
Theorem multi_open_report
        (W : Type) (http_post : W -> string -> json -> response * W)
        (req : A2ACallRequest) (w : W) :
  known_tool (tool req) = true ->
  intent_of req = MULTI_OPEN ->
  (forall v st',
      router_call http_post req (arrive w) = (Ok v, st') ->
      exists r0 rs,
        length rs = length (listed_customers r0)
        /\ sent st' = list_exchange r0
                      :: map history_exchange (combine (listed_customers r0) rs)
        /\ final_of v
           = JList (spec_report (combine (listed_customers r0)
                                         (map history_tickets rs))))
  /\ ((forall w1 a, good_listing
                      (fst (http_post w1 data_url (request "list_customers" a)))) ->
      (forall w1 a, good_history
                      (fst (http_post w1 data_url
                                      (request "get_customer_history" a)))) ->
      exists v st', router_call http_post req (arrive w) = (Ok v, st')).
Proof.
  intros K I.
  assert (Hrun : router_call http_post req (arrive w)
                 = route_multi_open http_post (RState w [] [])).
  { rewrite (router_call_known http_post req _ K), dispatch_classified.
    unfold intent_of in I. rewrite I. reflexivity. }
  rewrite Hrun. split.
  - intros v st' H.
    destruct (route_multi_open_ok http_post _ _ _ H) as (r0 & rs & Hlen & Hs & Hf).
    exists r0, rs. auto.
  - intros Hl Hh. apply route_multi_open_total; assumption.
Qed.

Lemma steady_listing (w : unit) (a : dict) :
  good_listing (fst (steady w data_url (request "list_customers" a))).
Proof. repeat eexists; reflexivity. Qed.

Lemma steady_history (w : unit) (a : dict) :
  good_history (fst (steady w data_url (request "get_customer_history" a))).
Proof. repeat eexists; reflexivity. Qed.

Lemma multi_open_report_witness :
  exists v st',
    router_call steady open_request (arrive tt) = (Ok v, st')
    /\ exists r0 rs,
      length rs = length (listed_customers r0)
      /\ sent st' = list_exchange r0
                    :: map history_exchange (combine (listed_customers r0) rs)
      /\ final_of v
         = JList (spec_report (combine (listed_customers r0)
                                       (map history_tickets rs))).
Proof.
  destruct (multi_open_report unit steady open_request tt eq_refl eq_refl)
    as [Hreport Hdone].
  destruct (Hdone steady_listing steady_history) as (v & st' & H).
  exists v, st'. split; [exact H|]. apply Hreport. exact H.
Defined.

(** The claim as stated, with the non-null issues kept, fails on an
    open ticket whose issue is the empty string: the code leaves that
    issue out. *)
Lemma multi_open_report_claim_fails :
  fst (Script.run [one_customer; blank_issue] open_request)
  = Ok (open_envelope [blank_issue_entry])
  /\ final_of (open_envelope [blank_issue_entry])
     <> JList (claimed_report (combine (listed_customers one_customer)
                                       (map history_tickets [blank_issue]))).
Proof.
  split; [reflexivity|].
  vm_compute. intros H. discriminate H.
Qed.

(* ================================================================== *)
(** ** The trace of a completed plan *)
(* ================================================================== *)

(** C7, as amended.  When a plan completes, every call made was
    healthy and [logs] holds the fixed lines of the route, in order:
    two for DATA, one for SUPPORT, three for MULTI_UPDATE and for
    MULTI_COORD (two when no customer is looked up).  The number of
    lines does not follow the number of steps: a MULTI_OPEN plan over N
    listed customers completes 1 + N steps and leaves three lines. *)
Theorem completed_plan_trace
        (W : Type) (http_post : W -> string -> json -> response * W)
        (req : A2ACallRequest) (w : W) (v : json) (st' : rstate W) :
  known_tool (tool req) = true ->
  router_call http_post req (arrive w) = (Ok v, st') ->
  logs st' = plan_lines req
  /\ Forall healthy (sent st')
  /\ (intent_of req = MULTI_OPEN ->
      exists r0,
        hd_error (sent st') = Some (list_exchange r0)
        /\ length (sent st') = 1 + length (listed_customers r0)
        /\ length (logs st') = 3).
Proof.
  intros K H.
  pose proof (router_call_summary http_post req (arrive w) K) as Hsum.
  unfold summary in Hsum. rewrite H in Hsum. cbn [fst snd] in Hsum.
  destruct Hsum as ((new & Hs & Hcase) & _ & Hdone).
  destruct (Hdone v eq_refl) as [Hl _].
  split; [exact Hl|]. split.
  - change (sent (arrive w) ++ new)%list with new in Hs. rewrite Hs.
    destruct Hcase as [Hall | (pre & y & e & _ & _ & _ & _ & He & _)];
      [exact Hall|discriminate He].
  - intros I.
    rewrite (router_call_known http_post req _ K), dispatch_classified in H.
    unfold intent_of in I. rewrite I in H.
    destruct (route_multi_open_ok http_post _ _ _ H)
      as (r0 & rs & Hlen & Hsent & _).
    simpl in Hsent.
    exists r0. rewrite Hsent, Hl. unfold plan_lines, intent_of. rewrite I.
    split; [reflexivity|]. split; [|reflexivity].
    simpl length. rewrite length_map, length_combine, Hlen, Nat.min_id.
    reflexivity.
Qed.

Lemma completed_plan_trace_witness :
  logs (snd (Script.run three_script open_request)) = plan_lines open_request
  /\ Forall healthy (sent (snd (Script.run three_script open_request)))
  /\ (intent_of open_request = MULTI_OPEN ->
      exists r0,
        hd_error (sent (snd (Script.run three_script open_request)))
        = Some (list_exchange r0)
        /\ length (sent (snd (Script.run three_script open_request)))
           = 1 + length (listed_customers r0)
        /\ length (logs (snd (Script.run three_script open_request))) = 3).
Proof.
  apply (completed_plan_trace _ Script.scripted open_request three_script
                              (open_envelope [])
                              (snd (Script.run three_script open_request)));
    reflexivity.
Defined.

(** The claim as stated fails on a MULTI_OPEN plan over three listed
    customers: four steps complete, the trace has three lines, two of
    them after the classification line. *)
Lemma one_line_per_step_fails :
  fst (Script.run three_script open_request) = Ok (open_envelope [])
  /\ Forall healthy (sent (snd (Script.run three_script open_request)))
  /\ length (sent (snd (Script.run three_script open_request))) = 4
  /\ length (logs (snd (Script.run three_script open_request))) = 3
  /\ length (logs (snd (Script.run three_script open_request)))
     <> length (sent (snd (Script.run three_script open_request)))
  /\ length (tl (logs (snd (Script.run three_script open_request))))
     <> length (sent (snd (Script.run three_script open_request))).
Proof.
  split; [reflexivity|]. split; [repeat constructor|].
  split; [reflexivity|]. split; [reflexivity|].
  split; vm_compute; intros H; discriminate H.
Qed.

(* ================================================================== *)
(** ** DATA: the answer for one customer *)
(* ================================================================== *)

(** C3, as amended.  When the call get_customer for id 5 returns
    {customer: {id: 5, name: "Ana"}}, routing the text "Get customer
    information for ID 5" returns the envelope with scenario "data",
    route "router -> data" and final {type: "get_customer",
    customer_id: 5, customer: {customer: {id: 5, name: "Ana"}}}: the
    whole result of the call sits under customer. *)
Theorem data_round_trip
        (W : Type) (http_post : W -> string -> json -> response * W)
        (req : A2ACallRequest) (w w' : W) (r : response) :
  known_tool (tool req) = true ->
  query_of (args_of req) = "Get customer information for ID 5" ->
  http_post w data_url (request "get_customer" [("customer_id", JInt 5)])
  = (r, w') ->
  decode r = Ok (JObj [("customer", Script.ana)]) ->
  fst (router_call http_post req (arrive w)) = Ok (data_envelope ana_answer).
Proof.
  intros K Q P D. rewrite (router_call_known http_post req _ K), Q.
  change (classify_intent "Get customer information for ID 5") with "DATA".
  change (dispatch http_post "DATA" (args_of req)
                   "Get customer information for ID 5")
    with (route_data http_post (args_of req)
                     "Get customer information for ID 5").
  unfold route_data. rewrite bind_log.
  change (search_id (lower "Get customer information for ID 5"))
    with (Some "5").
  change (customer_id_of (Some "5") (args_of req) 1) with (@Ok Z 5%Z).
  rewrite bind_lift_ok. unfold data_call, bind at 1.
  rewrite agent_call_runs. cbv zeta. cbn [world arrive].
  change (DATA_BASE ++ "/a2a/data/call") with data_url.
  change (JObj [("tool", JStr "get_customer");
                ("arguments", JObj [("customer_id", JInt 5)])])
    with (request "get_customer" [("customer_id", JInt 5)]).
  rewrite P. cbn [fst snd]. rewrite D. reflexivity.
Qed.

Lemma data_round_trip_witness :
  fst (Script.run ana_script ana_request) = Ok (data_envelope ana_answer).
Proof.
  apply (data_round_trip _ Script.scripted ana_request ana_script []
                         (Script.ok (JObj [("customer", Script.ana)])));
    reflexivity.
Defined.

(** The claim as stated fails in that very run: what sits under
    customer is not the record of Ana but the result that holds it. *)
Lemma data_round_trip_claim_fails :
  decode (Script.ok (JObj [("customer", Script.ana)]))
  = Ok (JObj [("customer", Script.ana)])
  /\ fst (Script.run ana_script ana_request) = Ok (data_envelope ana_answer)
  /\ final_of (data_envelope ana_answer) <> claimed_ana_answer.
Proof.
  split; [reflexivity|]. split; [reflexivity|].
  vm_compute. intros H. discriminate H.
Qed.

(* ================================================================== *)
(** ** The customer id of each route *)
(* ================================================================== *)

(** C2, as amended.  Each route looks for one pattern only.  DATA uses
    the first match of [id <digits>], else arguments.customer_id, else
    1; MULTI_COORD uses the first match of [customer <digits>], else
    arguments.customer_id, else 0, and looks no customer up when the id
    is 0; MULTI_UPDATE uses the first match of [customer <digits>], else
    arguments.customer_id, else 1.  That id is the one of the first
    request the route makes; when arguments.customer_id is no integer
    the handler raises before any request.  A DATA text without a match
    of [id <digits>] and without arguments.customer_id asks for
    customer 1. *)
Theorem customer_id_per_route
        (W : Type) (http_post : W -> string -> json -> response * W)
        (req : A2ACallRequest) (w : W) :
  known_tool (tool req) = true ->
  let args := args_of req in
  let q := query_of args in
  let run := router_call http_post req (arrive w) in
  match intent_of req with
  | DATA =>
      match customer_id_of (search_id (lower q)) args 1 with
      | Ok cid =>
          first_request run
          = Some (request "get_customer" [("customer_id", JInt cid)])
      | Raise e => fst run = Raise e /\ sent (snd run) = []
      end
  | MULTI_COORD =>
      match customer_id_of (search_customer (lower q)) args 0 with
      | Ok cid =>
          first_request run
          = Some (if (cid =? 0)%Z
                  then request "simple_support_reply" [("text", JStr q)]
                  else request "get_customer" [("customer_id", JInt cid)])
      | Raise e => fst run = Raise e /\ sent (snd run) = []
      end
  | MULTI_UPDATE =>
      match customer_id_of (search_customer (lower q)) args 1 with
      | Ok cid =>
          first_request run
          = Some (request "update_customer"
                          [("customer_id", JInt cid);
                           ("data", JObj [("email", new_email_of args q)])])
      | Raise e => fst run = Raise e /\ sent (snd run) = []
      end
  | _ => True
  end
  /\ (intent_of req = DATA -> search_id (lower q) = None ->
      Py.dict_has args "customer_id" = false ->
      first_request run
      = Some (request "get_customer" [("customer_id", JInt 1)])).
Proof.
  intros K args q run.
  assert (Hrun : run = dispatch http_post (classify_intent q) args q
                                (RState w [] []))
    by (apply router_call_known; exact K).
  rewrite dispatch_classified in Hrun. unfold intent_of. fold args. fold q.
  assert (Hdata : forall cid,
             customer_id_of (search_id (lower q)) args 1 = Ok cid ->
             first_request (route_data http_post args q (RState w [] []))
             = Some (request "get_customer" [("customer_id", JInt cid)])).
  { intros cid C. unfold route_data, data_call. rewrite bind_log, C, bind_lift_ok.
    apply first_request_call; [reflexivity|]. intros; repeat grows_step. }
  split.
  - destruct (spec_classify q); try exact I; rewrite Hrun.
    + destruct (customer_id_of _ _ _) as [cid|e] eqn:C; [auto|].
      unfold route_data. rewrite bind_log, C. split; reflexivity.
    + destruct (customer_id_of (search_customer (lower q)) args 0)
        as [cid|e] eqn:C;
        unfold route_multi_coord, data_call, support_call;
        rewrite bind_log, C; [|split; reflexivity].
      rewrite bind_lift_ok.
      destruct (cid =? 0)%Z; cbn [negb].
      * unfold bind at 1, ret at 1.
        apply first_request_call; [reflexivity|]. intros; repeat grows_step.
      * rewrite !bind_assoc.
        apply first_request_call; [reflexivity|]. intros; repeat grows_step.
    + destruct (customer_id_of (search_customer (lower q)) args 1)
        as [cid|e] eqn:C;
        unfold route_multi_update, data_call;
        rewrite bind_log, C; [|split; reflexivity].
      rewrite bind_lift_ok.
      apply first_request_call; [reflexivity|]. intros; repeat grows_step.
  - intros I S H. rewrite Hrun, I. apply Hdata. rewrite S. simpl.
    rewrite dict_get_default, H. reflexivity.
Qed.

Lemma customer_id_per_route_witness :
  first_request (Script.run ana_script customer7_request)
  = Some (request "get_customer" [("customer_id", JInt 1)]).
Proof.
  apply (customer_id_per_route _ Script.scripted customer7_request ana_script);
    reflexivity.
Defined.

(** The chain as claimed fails on the DATA text "customer 7": it gives
    7, and the request made asks for customer 1. *)
Lemma customer_id_chain_fails :
  classify_intent "customer 7" = "DATA"
  /\ search_id (lower "customer 7") = None
  /\ claimed_customer_id 1 (args_of customer7_request) "customer 7" = Ok 7%Z
  /\ first_request (Script.run ana_script customer7_request)
     = Some (request "get_customer" [("customer_id", JInt 1)])
  /\ first_request (Script.run ana_script customer7_request)
     <> Some (request "get_customer" [("customer_id", JInt 7)]).
Proof.
  repeat (split; [reflexivity|]).
  vm_compute. intros H. discriminate H.
Qed.

(* ================================================================== *)
(** ** MULTI_UPDATE: the email *)
(* ================================================================== *)

Lemma new_email_lowercased (args : dict) (q tok : string) :
  email_token q = Some tok -> new_email_of args q = JStr (lower tok).
Proof.
  intros T. unfold new_email_of. rewrite search_email_lower, T. reflexivity.
Qed.

(** C9.  When the text of a MULTI_UPDATE request holds the phrase
    [update my email to <token>], in any letter case, the email sent to
    update_customer and written in the first line of the answer is the
    token in lower case. *)
Theorem update_email_lowercased
        (W : Type) (http_post : W -> string -> json -> response * W)
        (req : A2ACallRequest) (w : W) (tok : string) :
  known_tool (tool req) = true ->
  intent_of req = MULTI_UPDATE ->
  email_token (query_of (args_of req)) = Some tok ->
  let args := args_of req in
  let q := query_of args in
  let run := router_call http_post req (arrive w) in
  (forall cid,
      customer_id_of (search_customer (lower q)) args 1 = Ok cid ->
      first_request run
      = Some (request "update_customer"
                      [("customer_id", JInt cid);
                       ("data", JObj [("email", JStr (lower tok))])]))
  /\ (forall v,
         fst run = Ok v ->
         exists rest,
           final_of v
           = JStr (("Your email has been successfully updated to "
                    ++ lower tok ++ "." ++ Py.nl) ++ Py.nl ++ rest)).
Proof.
  intros K I T args q run.
  assert (Hrun : run = route_multi_update http_post args q (RState w [] [])).
  { unfold run. rewrite (router_call_known http_post req _ K), dispatch_classified.
    unfold intent_of in I. rewrite I. reflexivity. }
  pose proof (new_email_lowercased args q tok T) as E.
  rewrite Hrun. unfold route_multi_update, data_call. rewrite E. split.
  - intros cid C. rewrite bind_log, C, bind_lift_ok.
    apply first_request_call; [reflexivity|]. intros; repeat grows_step.
  - intros v Hv.
    destruct (bind _ _ _) as [o st'] eqn:H. cbn [fst] in Hv. subst o.
    invert_bind H as u Hu. invert_bind H as cid Hcid.
    invert_bind H as updated Hupdated. invert_bind H as u1 Hu1.
    invert_bind H as fetched Hfetched. invert_bind H as hist Hhist.
    invert_bind H as formatted Hformatted. invert_bind H as u2 Hu2.
    apply envelope_inv in H. destruct H as [_ ->].
    unfold update_final in Hformatted.
    destruct (Py.iter hist) as [ts|]; [|discriminate]. cbn [obind] in Hformatted.
    destruct (ticket_blocks 1 ts) as [blocks|]; [|discriminate].
    cbn [obind] in Hformatted. injection Hformatted as <-.
    eexists. reflexivity.
Qed.

Lemma update_email_lowercased_witness :
  first_request (Script.run update_then_outage mixed_case_request)
  = Some (request "update_customer"
                  [("customer_id", JInt 3);
                   ("data", JObj [("email", JStr "ana.lima@example.com")])]).
Proof.
  apply (update_email_lowercased _ Script.scripted mixed_case_request
                                 update_then_outage "Ana.Lima@Example.COM");
    reflexivity.
Defined.

(* ================================================================== *)
(** ** The two entry points *)
(* ================================================================== *)

(** C8.  The message entry point, called with a role and a content,
    runs as the structured entry point called with the tool route_task
    and the content as text: same value returned or exception raised,
    same exchanges, same trace, whatever the role.  Both run the plan
    chosen by classifying the content, as the structured entry point
    does under its other tool name, route. *)
Theorem message_is_route_task
        (W : Type) (http_post : W -> string -> json -> response * W)
        (role content : string) (st : rstate W) :
  router_message http_post {| role := role; content := content |} st
  = router_call http_post
                {| tool := "route_task";
                   arguments := Some [("text", JStr content)] |} st
  /\ router_message http_post {| role := role; content := content |} st
     = dispatch http_post (classify_intent content)
                [("text", JStr content)] content
                (RState (world st) (sent st) [])
  /\ router_call http_post
                 {| tool := "route";
                    arguments := Some [("text", JStr content)] |} st
     = router_message http_post {| role := role; content := content |} st.
Proof.
  split; [reflexivity|]. split.
  - unfold router_message.
    rewrite router_call_known by reflexivity. reflexivity.
  - unfold router_message.
    rewrite !router_call_known by reflexivity. reflexivity.
Qed.

(* ================================================================== *)
(** ** The calls of a run follow the plan of its route *)
(* ================================================================== *)

Lemma firstn_snoc {A} (l : list A) (k : nat) (a : A) :
  nth_error l k = Some a -> (firstn k l ++ [a])%list = firstn (S k) l.
Proof.
  revert k. induction l as [|b l IH]; intros [|k]; simpl; try discriminate.
  - intros H. injection H as ->. reflexivity.
  - intros H. rewrite (IH k H). reflexivity.
Qed.

Section Plans.

Context {W : Type}.
Variable http_post : W -> string -> json -> response * W.
Variables (plan : list (string * string)) (st0 : rstate W).

Lemma on_plan_start : on_plan plan st0 st0 0.
Proof. exists []. rewrite app_nil_r. simpl. repeat split; lia. Qed.

Lemma on_plan_same (st st1 : rstate W) k :
  on_plan plan st0 st k -> sent st1 = sent st -> on_plan plan st0 st1 k.
Proof. intros (pre & E & H & L) Hs. exists pre. rewrite Hs. auto. Qed.

Lemma plan_raise {A} (st : rstate W) (e : exn) k :
  on_plan plan st0 st k -> run_on_plan (A := A) plan st0 (Raise e, st).
Proof. intros H. exists k. split; [exact H|discriminate]. Qed.

Lemma plan_lift {A B} (o : outcome A) (K : A -> M W B) (st : rstate W) k :
  on_plan plan st0 st k ->
  (forall v, o = Ok v -> run_on_plan plan st0 (K v st)) ->
  run_on_plan plan st0 (bind (lift o) K st).
Proof.
  intros Hs HK. unfold bind, lift. destruct o as [v|e].
  - apply HK. reflexivity.
  - eapply plan_raise; eauto.
Qed.

Lemma plan_log {B} (l : string) (K : unit -> M W B) (st : rstate W) :
  (forall st1, sent st1 = sent st -> run_on_plan plan st0 (K tt st1)) ->
  run_on_plan plan st0 (bind (log l) K st).
Proof. intros HK. unfold bind, log. apply HK. reflexivity. Qed.

Lemma plan_call {B} (url tool : string) (a : json) (K : json -> M W B)
      (st : rstate W) k :
  on_plan plan st0 st k ->
  nth_error plan k = Some (url, tool) ->
  (forall v st1, on_plan plan st0 st1 (S k) -> run_on_plan plan st0 (K v st1)) ->
  run_on_plan plan st0 (bind (agent_call http_post url tool a) K st).
Proof.
  intros (pre & E & H & L) Hn HK. unfold bind. rewrite agent_call_runs.
  cbv zeta. destruct (http_post _ _ _) as [r w']. cbn [fst snd].
  set (x := Exchange url _ r).
  assert (Hx : on_plan plan st0
                       (RState w' (sent st ++ [x])%list (logs st)) (S k)).
  { exists (pre ++ [x])%list. cbn [sent]. rewrite E, <- app_assoc.
    split; [reflexivity|]. split.
    - rewrite map_app, H. cbn [map]. apply firstn_snoc.
      unfold x, call_of, tool_name. simpl. exact Hn.
    - assert (k < length plan) by (apply nth_error_Some; congruence). lia. }
  destruct (decode r) as [v|e].
  - apply HK. exact Hx.
  - eapply plan_raise. exact Hx.
Qed.

Lemma plan_envelope (sc rt : string) (fn : json) (st : rstate W) :
  on_plan plan st0 st (length plan) ->
  run_on_plan plan st0 (envelope sc rt fn st).
Proof.
  intros H. unfold envelope, bind, read_logs, ret. exists (length plan).
  split; [exact H|reflexivity].
Qed.

End Plans.

Ltac plan_now := eauto using on_plan_same, on_plan_start.

Ltac pstep_log :=
  apply plan_log;
  let st1 := fresh "st" in let S1 := fresh "S" in intros st1 S1.

Ltac pstep_lift :=
  eapply plan_lift; [plan_now|]; let v := fresh "v" in intros v _.

Ltac pstep_call :=
  eapply plan_call; [plan_now|reflexivity|];
  let v := fresh "v" in let st1 := fresh "st" in let S1 := fresh "S" in
  intros v st1 S1.

Ltac pstep_envelope := eapply plan_envelope; plan_now.

Section RoutePlans.

Context {W : Type}.
Variable http_post : W -> string -> json -> response * W.

Lemma route_data_plan (args : dict) (query : string) (st : rstate W) :
  run_on_plan [get_customer_call] st (route_data http_post args query st).
Proof.
  unfold route_data, data_call.
  pstep_log. pstep_lift. pstep_call. pstep_log. pstep_envelope.
Qed.

Lemma route_support_plan (query : string) (st : rstate W) :
  run_on_plan [reply_call] st (route_support http_post query st).
Proof.
  unfold route_support, support_call.
  pstep_log. pstep_call. pstep_lift. pstep_envelope.
Qed.

Lemma route_multi_update_plan (args : dict) (query : string) (st : rstate W) :
  run_on_plan [update_call; history_call] st
              (route_multi_update http_post args query st).
Proof.
  unfold route_multi_update, data_call.
  pstep_log. pstep_lift. pstep_call. pstep_log. pstep_call.
  pstep_lift. pstep_lift. pstep_log. pstep_envelope.
Qed.

Lemma route_multi_coord_plan (args : dict) (query : string) (st : rstate W) :
  run_on_plan
    (match customer_id_of (search_customer (lower query)) args 0 with
     | Ok 0%Z => [reply_call]
     | _ => [get_customer_call; reply_call]
     end) st
    (route_multi_coord http_post args query st).
Proof.
  unfold route_multi_coord, data_call, support_call.
  pstep_log.
  destruct (customer_id_of _ _ _) as [cid|e] eqn:C.
  - unfold bind at 1. unfold lift at 1.
    destruct (Z.eqb_spec cid 0) as [->|Hne].
    + cbn [negb Z.eqb]. unfold bind at 1. unfold ret at 1.
      pstep_call. pstep_lift. pstep_log. pstep_lift. pstep_envelope.
    + assert (Hp : (match cid with
                    | 0%Z => [reply_call]
                    | _ => [get_customer_call; reply_call]
                    end) = [get_customer_call; reply_call])
        by (destruct cid; congruence).
      rewrite Hp. cbn [negb]. rewrite !bind_assoc.
      pstep_call. rewrite bind_assoc. pstep_lift. rewrite bind_assoc.
      pstep_log. unfold bind at 1. unfold ret at 1.
      pstep_call. pstep_lift. pstep_log. pstep_lift. pstep_envelope.
  - unfold bind, lift. eapply plan_raise. plan_now.
Qed.

(** The loop of MULTI_OPEN only asks for histories. *)
Lemma multi_open_loop_calls (custs : list json) :
  forall (result : list json) (st : rstate W),
  exists n,
    map call_of (sent (snd (multi_open_loop http_post custs result st)))
    = (map call_of (sent st) ++ repeat history_call n)%list.
Proof.
  induction custs as [|cust rest IH]; intros result st.
  - exists 0. simpl. rewrite app_nil_r. reflexivity.
  - cbn [multi_open_loop]. unfold data_call.
    unfold bind at 1, lift at 1.
    destruct (Py.getitem cust "id") as [cid|e];
      [|exists 0; simpl; rewrite app_nil_r; reflexivity].
    unfold bind at 1. rewrite agent_call_runs. cbv zeta.
    destruct (http_post _ _ _) as [r w']. cbn [fst snd].
    set (x := Exchange _ _ r).
    assert (Hx : call_of x = history_call) by reflexivity.
    assert (Hone : forall (run : outcome (list json) * rstate W) n,
               map call_of (sent (snd run))
               = (map call_of (sent st ++ [x]) ++ repeat history_call n)%list ->
               exists n1, map call_of (sent (snd run))
                          = (map call_of (sent st) ++ repeat history_call n1)%list).
    { intros run n Hn. exists (S n). rewrite Hn, map_app, <- app_assoc.
      cbn [map app]. rewrite Hx. reflexivity. }
    destruct (decode r) as [hist|e];
      [|apply (Hone _ 0); simpl; rewrite app_nil_r; reflexivity].
    unfold bind at 1, lift at 1.
    destruct (Py.get hist "tickets" (JList [])) as [tickets|e];
      [|apply (Hone _ 0); simpl; rewrite app_nil_r; reflexivity].
    unfold bind at 1, lift at 1.
    destruct (Py.iter tickets) as [ts|e];
      [|apply (Hone _ 0); simpl; rewrite app_nil_r; reflexivity].
    unfold bind at 1, lift at 1.
    destruct (open_tickets ts) as [open_tix|e];
      [|apply (Hone _ 0); simpl; rewrite app_nil_r; reflexivity].
    destruct open_tix as [|t more].
    + match goal with
      | |- context [multi_open_loop _ _ ?res ?s] =>
          destruct (IH res s) as [n Hn]
      end.
      apply (Hone _ n). exact Hn.
    + unfold bind at 1, lift at 1.
      destruct (open_entry cust (t :: more)) as [entry|e];
        [|apply (Hone _ 0); simpl; rewrite app_nil_r; reflexivity].
      match goal with
      | |- context [multi_open_loop _ _ ?res ?s] =>
          destruct (IH res s) as [n Hn]
      end.
      apply (Hone _ n). exact Hn.
Qed.

Lemma route_multi_open_calls (st : rstate W) :
  exists n,
    map call_of (sent (snd (route_multi_open http_post st)))
    = (map call_of (sent st) ++ list_call :: repeat history_call n)%list.
Proof.
  unfold route_multi_open, data_call. rewrite bind_log.
  unfold bind at 1. rewrite agent_call_runs. cbv zeta.
  destruct (http_post _ _ _) as [r w']. cbn [fst snd world sent logs].
  set (x := Exchange _ _ r).
  assert (Hx : call_of x = list_call) by reflexivity.
  assert (Hone : forall (run : outcome json * rstate W) n,
             map call_of (sent (snd run))
             = (map call_of (sent st ++ [x]) ++ repeat history_call n)%list ->
             exists n1, map call_of (sent (snd run))
                        = (map call_of (sent st)
                             ++ list_call :: repeat history_call n1)%list).
  { intros run n Hn. exists n. rewrite Hn, map_app, <- app_assoc.
    cbn [map app]. rewrite Hx. reflexivity. }
  destruct (decode r) as [listed|e];
    [|apply (Hone _ 0); simpl; rewrite app_nil_r; reflexivity].
  unfold bind at 1, lift at 1.
  destruct (Py.get listed "customers" (JList [])) as [customers|e];
    [|apply (Hone _ 0); simpl; rewrite app_nil_r; reflexivity].
  unfold bind at 1, lift at 1.
  destruct (Py.iter customers) as [custs|e];
    [|apply (Hone _ 0); simpl; rewrite app_nil_r; reflexivity].
  unfold bind at 1.
  match goal with
  | |- context [multi_open_loop _ _ ?res ?s] =>
      destruct (multi_open_loop_calls custs res s) as [n Hn];
      destruct (multi_open_loop http_post custs res s) as [[res1|e] st1]
  end; cbn [snd] in Hn.
  - apply (Hone _ n). rewrite !bind_log. unfold envelope, bind, read_logs, ret.
    cbn [snd sent]. exact Hn.
  - apply (Hone _ n). exact Hn.
Qed.

(** The calls of any run of the handler. *)
Lemma router_call_plan (req : A2ACallRequest) (w : W) :
  known_tool (tool req) = true ->
  follows_plan req (completed (router_call http_post req (arrive w)))
               (map call_of (sent (snd (router_call http_post req (arrive w))))).
Proof.
  intros K. rewrite (router_call_known http_post req _ K), dispatch_classified.
  unfold follows_plan, route_plan, coord_customer, intent_of.
  set (q := query_of (args_of req)). set (args := args_of req).
  set (st := RState (world (arrive w)) (sent (arrive w)) []).
  assert (Hfin : forall plan (run : outcome json * rstate W),
             run_on_plan plan st run ->
             exists k, map call_of (sent (snd run)) = firstn k plan
                       /\ k <= length plan
                       /\ (completed run = true -> k = length plan)).
  { intros plan run (k & (pre & E & Hm & Hk) & Hc). exists k.
    change (sent st) with (@nil exchange) in E. simpl in E. rewrite E. auto. }
  destruct (spec_classify q).
  - apply Hfin. apply route_data_plan.
  - apply Hfin. apply route_support_plan.
  - destruct (route_multi_open_calls st) as [n Hn]. exists n. exact Hn.
  - apply Hfin. apply route_multi_coord_plan.
  - apply Hfin. apply route_multi_update_plan.
Qed.

End RoutePlans.

(** X1.  The calls a run makes follow the plan of its route, whatever
    the collaborators answer: DATA asks for one customer; SUPPORT asks
    for one reply; MULTI_COORD asks for the customer (unless the id is
    0) and then for a reply; MULTI_UPDATE updates and then asks for the
    history; MULTI_OPEN lists the customers and then only asks for
    histories.  A run that stops early made the first calls of the
    plan, a run that returns made them all. *)
Theorem calls_follow_plan
        (W : Type) (http_post : W -> string -> json -> response * W)
        (req : A2ACallRequest) (w : W) :
  known_tool (tool req) = true ->
  follows_plan req (completed (router_call http_post req (arrive w)))
               (map call_of (sent (snd (router_call http_post req (arrive w)))))
  /\ (intent_of req <> MULTI_OPEN ->
      length (sent (snd (router_call http_post req (arrive w)))) <= 2).
Proof.
  intros K. pose proof (router_call_plan http_post req w K) as H.
  split; [exact H|]. intros I. unfold follows_plan in H.
  assert (Hlen : length (route_plan req) <= 2).
  { unfold route_plan. destruct (intent_of req); simpl; try lia.
    destruct (coord_customer req) as [[| |]|]; simpl; lia. }
  assert (Hk : exists k,
             map call_of (sent (snd (router_call http_post req (arrive w))))
             = firstn k (route_plan req) /\ k <= length (route_plan req)).
  { destruct (intent_of req); try congruence;
      destruct H as (k & Hc & Hk & _); eauto. }
  destruct Hk as (k & Hc & Hk).
  rewrite <- (length_map call_of), Hc, length_firstn. lia.
Qed.

Lemma calls_follow_plan_witness :
  follows_plan update_request
               (completed (Script.run update_then_outage update_request))
               (map call_of
                    (sent (snd (Script.run update_then_outage update_request))))
  /\ (intent_of update_request <> MULTI_OPEN ->
      length (sent (snd (Script.run update_then_outage update_request))) <= 2).
Proof.
  apply (calls_follow_plan _ Script.scripted update_request update_then_outage).
  reflexivity.
Defined.

Lemma in_firstn_two {A} (a b c : A) (k : nat) :
  In c (firstn k [a; b]) -> c = a \/ c = b.
Proof.
  destruct k as [|[|k]]; simpl; intros H.
  - destruct H.
  - destruct H as [<-|[]]. auto.
  - destruct H as [<-|[<-|H]]; auto. destruct k; destruct H.
Qed.

Lemma in_firstn_one {A} (a c : A) (k : nat) : In c (firstn k [a]) -> c = a.
Proof.
  destruct k as [|k]; simpl; intros H; [destruct H|].
  destruct H as [<-|H]; [reflexivity|]. destruct k; destruct H.
Qed.

Lemma updates_in_firstn (k : nat) :
  length (filter is_update (firstn k [update_call; history_call])) <= 1.
Proof. destruct k as [|[|[|k]]]; simpl; lia. Qed.

(** X2.  The handler writes only on the MULTI_UPDATE route, and there
    at most once: whatever the collaborators answer, every call is one
    of get_customer, list_customers, get_customer_history,
    update_customer (data agent) and simple_support_reply (support
    agent); update_customer is called on no other route, and never
    twice; create_ticket is never called. *)
Theorem only_update_route_writes
        (W : Type) (http_post : W -> string -> json -> response * W)
        (req : A2ACallRequest) (w : W) :
  known_tool (tool req) = true ->
  let calls := map call_of (sent (snd (router_call http_post req (arrive w)))) in
  (forall c, In c calls ->
             In c [get_customer_call; list_call; history_call; update_call;
                   reply_call])
  /\ (intent_of req <> MULTI_UPDATE -> filter is_update calls = [])
  /\ length (filter is_update calls) <= 1.
Proof.
  intros K calls. pose proof (router_call_plan http_post req w K) as H.
  fold calls in H. unfold follows_plan, route_plan in H.
  destruct (intent_of req) eqn:I.
  - destruct H as (k & -> & _). repeat split.
    + intros c Hc. apply in_firstn_one in Hc. subst c. simpl. auto.
    + intros _. destruct k as [|[|k]]; reflexivity.
    + destruct k as [|[|k]]; simpl; lia.
  - destruct H as (k & -> & _). repeat split.
    + intros c Hc. apply in_firstn_one in Hc. subst c. simpl. auto 6.
    + intros _. destruct k as [|[|k]]; reflexivity.
    + destruct k as [|[|k]]; simpl; lia.
  - destruct H as (n & ->).
    assert (Hf : filter is_update (list_call :: repeat history_call n) = []).
    { cbn [filter]. change (is_update list_call) with false. cbv iota.
      induction n as [|n IH]; [reflexivity|]. cbn [repeat filter].
      change (is_update history_call) with false. cbv iota. exact IH. }
    repeat split.
    + intros c [<-|Hc]; [simpl; auto|].
      apply repeat_spec in Hc. subst c. simpl. auto.
    + intros _. exact Hf.
    + rewrite Hf. simpl. lia.
  - destruct (coord_customer req) as [[| |]|]; destruct H as (k & -> & _).
    + repeat split.
      * intros c Hc. apply in_firstn_one in Hc. subst c. simpl. auto 6.
      * intros _. destruct k as [|[|k]]; reflexivity.
      * destruct k as [|[|k]]; simpl; lia.
    + repeat split.
      * intros c Hc. apply in_firstn_two in Hc.
        destruct Hc as [-> | ->]; simpl; auto 6.
      * intros _. destruct k as [|[|[|k]]]; reflexivity.
      * destruct k as [|[|[|k]]]; simpl; lia.
    + repeat split.
      * intros c Hc. apply in_firstn_two in Hc.
        destruct Hc as [-> | ->]; simpl; auto 6.
      * intros _. destruct k as [|[|[|k]]]; reflexivity.
      * destruct k as [|[|[|k]]]; simpl; lia.
    + repeat split.
      * intros c Hc. apply in_firstn_two in Hc.
        destruct Hc as [-> | ->]; simpl; auto 6.
      * intros _. destruct k as [|[|[|k]]]; reflexivity.
      * destruct k as [|[|[|k]]]; simpl; lia.
  - destruct H as (k & -> & _). repeat split.
    + intros c Hc. apply in_firstn_two in Hc.
      destruct Hc as [-> | ->]; simpl; auto 6.
    + congruence.
    + apply updates_in_firstn.
Qed.

Lemma only_update_route_writes_witness :
  let calls := map call_of (sent (snd (Script.run three_script open_request))) in
  (forall c, In c calls ->
             In c [get_customer_call; list_call; history_call; update_call;
                   reply_call])
  /\ (intent_of open_request <> MULTI_UPDATE -> filter is_update calls = [])
  /\ length (filter is_update calls) <= 1.
Proof.
  apply (only_update_route_writes _ Script.scripted open_request three_script).
  reflexivity.
Defined.

(* ================================================================== *)
(** ** More on the handler and its helpers *)
(* ================================================================== *)

(** X3.  A value returned by the handler has the key error exactly
    when the tool is not recognized; in that case it is
    {error: "Unknown tool: <tool>"}, nothing was asked of the
    collaborators and the text was not even read. *)
Theorem error_key_iff_unknown_tool
        (W : Type) (http_post : W -> string -> json -> response * W)
        (req : A2ACallRequest) (st : rstate W) :
  (forall v, fst (router_call http_post req st) = Ok v ->
             has_key v "error" = negb (known_tool (tool req)))
  /\ (known_tool (tool req) = false ->
      router_call http_post req st
      = (Ok (JObj [("error", JStr ("Unknown tool: " ++ tool req))]), st)).
Proof.
  assert (Hunknown : known_tool (tool req) = false ->
                     router_call http_post req st
                     = (Ok (JObj [("error", JStr ("Unknown tool: " ++ tool req))]),
                        st)).
  { intros K. unfold router_call. rewrite K. reflexivity. }
  split; [|exact Hunknown].
  intros v Hv. destruct (known_tool (tool req)) eqn:K.
  - pose proof (router_call_summary http_post req st K) as Hsum.
    unfold summary in Hsum. destruct Hsum as (_ & _ & Hdone).
    destruct (Hdone v Hv) as (_ & sc & rt & fn & ->). reflexivity.
  - rewrite (Hunknown eq_refl) in Hv. injection Hv as <-. reflexivity.
Qed.

Lemma lower_char_idempotent (c : ascii) : lower_char (lower_char c) = lower_char c.
Proof. destruct c as [[] [] [] [] [] [] [] []]; reflexivity. Qed.

Lemma lower_idempotent (s : string) : lower (lower s) = lower s.
Proof.
  induction s as [|c r IH]; [reflexivity|].
  simpl. rewrite lower_char_idempotent, IH. reflexivity.
Qed.

(** X4.  Classification looks at the text in lower case only: two
    texts that differ in letter case only get the same label, and a text
    gets the label of its lower-cased form. *)
Theorem classification_ignores_case (t u : string) :
  (lower t = lower u -> classify_intent t = classify_intent u)
  /\ classify_intent (lower t) = classify_intent t.
Proof.
  assert (H : forall a b, lower a = lower b ->
                          classify_intent a = classify_intent b).
  { intros a b E. unfold classify_intent. cbv zeta. rewrite E. reflexivity. }
  split; [apply H|]. apply H. apply lower_idempotent.
Qed.

Lemma classification_ignores_case_witness :
  classify_intent "REFUND me" = classify_intent "refund ME".
Proof.
  destruct (classification_ignores_case "REFUND me" "refund ME") as [H _].
  apply H. reflexivity.
Defined.

Lemma append_assoc (a b c : string) : (a ++ b) ++ c = a ++ (b ++ c).
Proof. induction a as [|x a IH]; simpl; [reflexivity|]. rewrite IH. reflexivity. Qed.

Lemma str_in_trans (a b c : string) :
  str_in a b = true -> str_in b c = true -> str_in a c = true.
Proof.
  rewrite !str_in_spec. intros (p1 & q1 & ->) (p2 & q2 & ->).
  exists (p2 ++ p1), (q1 ++ q2). rewrite !append_assoc. reflexivity.
Qed.

Lemma rule_multi_open_exact (t : string) :
  rule_multi_open t
  = mentions "active customers" t && mentions "open ticket" t.
Proof.
  unfold rule_multi_open.
  destruct (mentions "active customers" t); [|reflexivity]. simpl.
  destruct (mentions "open ticket" t) eqn:A; [reflexivity|]. simpl.
  destruct (mentions "open tickets" t) eqn:B; [|reflexivity].
  assert (H : mentions "open ticket" t = true).
  { unfold mentions in *. eapply str_in_trans; [|exact B]. reflexivity. }
  congruence.
Qed.

(** X5.  Two of the keyword tests of the classifier decide nothing.
    A text is MULTI_OPEN exactly when it mentions "active customers"
    and "open ticket" (the alternative "open tickets" adds no text);
    and a text is DATA exactly when none of the four rules above
    matches, whether or not it mentions "get customer information",
    "get customer info" or "customer id". *)
Theorem classifier_dead_keywords (t : string) :
  (classify_intent t = "MULTI_OPEN" <->
   mentions "active customers" t = true /\ mentions "open ticket" t = true)
  /\ (classify_intent t = "DATA" <->
      rule_multi_open t = false /\ rule_multi_update t = false
      /\ rule_multi_coord t = false /\ rule_support t = false).
Proof.
  rewrite classify_by_rules, <- andb_true_iff, <- rule_multi_open_exact.
  destruct (rule_multi_open t), (rule_multi_update t), (rule_multi_coord t),
    (rule_support t), (rule_data t);
    split; split; intros H; try reflexivity; try discriminate H;
    try (destruct H as (H1 & H2 & H3 & H4)); try congruence; auto.
Qed.

Lemma error_key_iff_unknown_tool_witness :
  router_call Script.scripted (Script.call "route_taks" None) (arrive ana_script)
  = (Ok (JObj [("error", JStr "Unknown tool: route_taks")]), arrive ana_script).
Proof.
  apply (error_key_iff_unknown_tool _ Script.scripted
                                    (Script.call "route_taks" None)
                                    (arrive ana_script)).
  reflexivity.
Defined.

Lemma digit_value_range (c : ascii) :
  is_digit c = true -> (0 <= digit_value c <= 9)%Z.
Proof.
  unfold is_digit, digit_value. cbv zeta. intros H.
  apply andb_true_iff in H. destruct H as [H1 H2].
  apply N.leb_le in H1, H2. lia.
Qed.

Lemma int_of_digits_from_nonneg (s : string) :
  forall acc, (0 <= acc)%Z -> all_chars is_digit s = true ->
              (0 <= int_of_digits_from acc s)%Z.
Proof.
  induction s as [|c r IH]; intros acc Hacc Hs; cbn [int_of_digits_from];
    [exact Hacc|].
  cbn [all_chars] in Hs. apply andb_true_iff in Hs. destruct Hs as [Hc Hr].
  apply IH; [|exact Hr]. pose proof (digit_value_range c Hc). lia.
Qed.

(** X6.  An id is read from the text wherever the word ([id] on the
    DATA route, [customer] on the others) is followed by blanks and
    digits, also inside a longer word, at the leftmost such place; it is
    the whole run of digits there, so it is never negative, and
    arguments.customer_id is then not looked at, well-formed or not. *)
Theorem text_id_is_leftmost_decimal (word s ds : string) :
  re_search (match_number_after word) s = Some ds ->
  (exists pre ws rest,
      s = pre ++ word ++ ws ++ ds ++ rest
      /\ ws <> "" /\ all_chars is_space ws = true
      /\ ds <> "" /\ all_chars is_digit ds = true
      /\ starts_with is_digit rest = false
      /\ forall p1 p2, pre = p1 ++ p2 -> p2 <> "" ->
                       match_number_after word
                                          (p2 ++ word ++ ws ++ ds ++ rest) = None)
  /\ (0 <= int_of_digits ds)%Z
  /\ forall args dflt, customer_id_of (Some ds) args dflt = Ok (int_of_digits ds).
Proof.
  intros H. apply re_search_leftmost in H.
  destruct H as (pre & tail & -> & Hm & Hleft).
  apply match_number_after_spec in Hm.
  destruct Hm as (ws & rest & -> & Hws & Aws & Hds & Ads & Hrest).
  split; [|split].
  - exists pre, ws, rest. repeat split; auto.
  - apply int_of_digits_from_nonneg; [lia|exact Ads].
  - reflexivity.
Qed.

Lemma text_id_is_leftmost_decimal_witness :
  (0 <= int_of_digits "20")%Z.
Proof.
  apply (text_id_is_leftmost_decimal "id" "i paid 20 dollars" "20").
  reflexivity.
Defined.

(** X7.  What a call to a collaborator makes of the response: an error
    status raises whatever the body says; otherwise a body with the key
    error raises with its payload even when it also has a result;
    otherwise the value under result is returned, and a body without
    result is returned as it is, so a bare result and one wrapped under
    result come out the same. *)
Theorem call_decodes_response
        (W : Type) (http_post : W -> string -> json -> response * W)
        (tool : string) (args : dict) (st : rstate W)
        (status : Z) (d : dict) (w' : W) :
  http_post (world st) data_url (request tool args)
  = (Response status (Some (JObj d)), w') ->
  (error_status status = true ->
   fst (data_call http_post tool (JObj args) st) = Raise (HTTPError status))
  /\ (error_status status = false -> Py.dict_has d "error" = true ->
      fst (data_call http_post tool (JObj args) st)
      = Raise (RuntimeError (Py.dict_get d "error" JNull)))
  /\ (error_status status = false -> Py.dict_has d "error" = false ->
      fst (data_call http_post tool (JObj args) st)
      = Ok (Py.dict_get d "result" (JObj d))
      /\ (Py.dict_has d "result" = false ->
          fst (data_call http_post tool (JObj args) st) = Ok (JObj d)
          /\ decode (Response status (Some (JObj [("result", JObj d)])))
             = Ok (JObj d))).
Proof.
  intros P. unfold data_call. rewrite agent_call_runs. cbv zeta.
  change (DATA_BASE ++ "/a2a/data/call") with data_url.
  change (JObj [("tool", JStr tool); ("arguments", JObj args)])
    with (request tool args).
  rewrite P. cbn [fst snd]. unfold decode.
  split; [|split].
  - intros ->. reflexivity.
  - intros -> E. cbn [Py.contains obind]. rewrite E. cbn [Py.getitem obind].
    rewrite E. reflexivity.
  - intros -> E. cbn [Py.contains obind]. rewrite E. cbn [Py.get].
    split; [reflexivity|]. intros R.
    rewrite (dict_get_default d "result"), R. split; reflexivity.
Qed.

Lemma call_decodes_response_witness :
  fst (data_call Script.scripted "get_customer" (JObj []) (arrive shaped))
  = Raise (RuntimeError (JStr "no")).
Proof.
  apply (call_decodes_response _ Script.scripted "get_customer" []
                               (arrive shaped) 200
                               [("result", JInt 1); ("error", JStr "no")] []);
    reflexivity.
Defined.

Lemma dict_set_keys (d : dict) (k : string) (v : json) :
  map fst (Py.dict_set d k v)
  = if Py.dict_has d k then map fst d else (map fst d ++ [k])%list.
Proof.
  induction d as [|[k' v'] r IH]; [reflexivity|]. simpl.
  destruct (String.eqb k' k); simpl; [reflexivity|].
  rewrite IH. destruct (Py.dict_has r k); reflexivity.
Qed.

Lemma dict_has_in (d : dict) (k : string) :
  Py.dict_has d k = true <-> In k (map fst d).
Proof.
  induction d as [|[k' v'] r IH]; simpl; [split; [discriminate|tauto]|].
  rewrite orb_true_iff, IH, String.eqb_eq. tauto.
Qed.

(** X8.  [build_response] never makes a key appear twice: on a payload
    without the key result it adds result last, on a payload that has
    it, it replaces the value in place; the keys of the payload stay
    distinct and in their order. *)
Theorem build_response_keeps_keys_distinct (payload : dict) :
  NoDup (map fst payload) ->
  NoDup (map fst (build_response payload))
  /\ map fst (build_response payload)
     = (if Py.dict_has payload "result" then map fst payload
        else map fst payload ++ ["result"])%list
  /\ Py.dict_has (build_response payload) "result" = true.
Proof.
  intros N. unfold build_response. rewrite dict_set_keys.
  split; [|split].
  - destruct (Py.dict_has payload "result") eqn:H; [exact N|].
    apply NoDup_app; [exact N|repeat constructor; auto|].
    intros k Hk [<-|[]]. apply dict_has_in in Hk. congruence.
  - reflexivity.
  - apply dict_has_in. rewrite dict_set_keys.
    destruct (Py.dict_has payload "result") eqn:H.
    + apply dict_has_in. exact H.
    + apply in_or_app. right. left. reflexivity.
Qed.

Lemma build_response_keeps_keys_distinct_witness :
  NoDup (map fst (build_response [("result", JNull); ("final", JNull)])).
Proof.
  apply (build_response_keeps_keys_distinct [("result", JNull); ("final", JNull)]).
  repeat constructor; simpl; intuition discriminate.
Defined.

(* ================================================================== *)
(** ** The answers of SUPPORT, MULTI_COORD and MULTI_UPDATE *)
(* ================================================================== *)

(** X9.  The SUPPORT route asks the support agent once, with the text
    as it was typed, and passes the field text of the reply through as
    it is: the empty string when the field is absent, a value that is no
    string when the reply holds one.  A reply that is no record raises;
    a failed call raises what it raised. *)
Theorem support_passes_reply_through
        (W : Type) (http_post : W -> string -> json -> response * W)
        (req : A2ACallRequest) (w w' : W) (r : response) :
  known_tool (tool req) = true ->
  intent_of req = SUPPORT ->
  http_post w support_url
            (request "simple_support_reply"
                     [("text", JStr (query_of (args_of req)))])
  = (r, w') ->
  sent (snd (router_call http_post req (arrive w)))
  = [Exchange support_url
              (request "simple_support_reply"
                       [("text", JStr (query_of (args_of req)))]) r]
  /\ logs (snd (router_call http_post req (arrive w)))
     = ["Router classified as SUPPORT"]
  /\ fst (router_call http_post req (arrive w))
     = match decode r with
       | Ok (JObj d) =>
           Ok (envelope_of (JStr "support") (JStr "router -> support")
                           (JList [JStr "Router classified as SUPPORT"])
                           (Py.dict_get d "text" (JStr "")))
       | Ok _ => Raise AttributeError
       | Raise e => Raise e
       end.
Proof.
  intros K I P.
  assert (Hrun : router_call http_post req (arrive w)
                 = (match decode r with
                    | Ok (JObj d) =>
                        Ok (envelope_of (JStr "support") (JStr "router -> support")
                                        (JList [JStr "Router classified as SUPPORT"])
                                        (Py.dict_get d "text" (JStr "")))
                    | Ok _ => Raise AttributeError
                    | Raise e => Raise e
                    end,
                    RState w'
                           [Exchange support_url
                                     (request "simple_support_reply"
                                              [("text",
                                                JStr (query_of (args_of req)))]) r]
                           ["Router classified as SUPPORT"])).
  { rewrite (router_call_known http_post req _ K), dispatch_classified.
    unfold intent_of in I. rewrite I.
    unfold route_support, support_call. rewrite bind_log.
    unfold bind at 1. rewrite agent_call_runs. cbv zeta. cbn [world arrive].
    change (SUPPORT_BASE ++ "/a2a/support/call") with support_url.
    change (JObj [("tool", JStr "simple_support_reply");
                  ("arguments", JObj [("text", JStr (query_of (args_of req)))])])
      with (request "simple_support_reply"
                    [("text", JStr (query_of (args_of req)))]).
    rewrite P. cbn [fst snd sent logs app].
    destruct (decode r) as [reply|e]; [destruct reply|]; reflexivity. }
  rewrite Hrun. repeat split; reflexivity.
Qed.

Lemma support_passes_reply_through_witness :
  fst (Script.run [Script.ok (JObj [("intent", JStr "billing")])] refund_request)
  = Ok (envelope_of (JStr "support") (JStr "router -> support")
                    (JList [JStr "Router classified as SUPPORT"]) (JStr "")).
Proof.
  apply (support_passes_reply_through
           _ Script.scripted refund_request
           [Script.ok (JObj [("intent", JStr "billing")])] []
           (Script.ok (JObj [("intent", JStr "billing")])));
    reflexivity.
Defined.

(** *** Trimming keeps an opening that has no blank at either end *)

Lemma append_nil_r (s : string) : s ++ "" = s.
Proof. induction s as [|c s IH]; simpl; [reflexivity|]. rewrite IH. reflexivity. Qed.

Lemma rev_string_onto_app (s acc : string) :
  rev_string_onto s acc = rev_string s ++ acc.
Proof.
  unfold rev_string. revert acc. induction s as [|c s IH]; intros acc; simpl.
  - reflexivity.
  - rewrite (IH (String c acc)), (IH (String c "")), append_assoc. reflexivity.
Qed.

Lemma rev_string_app (x y : string) :
  rev_string (x ++ y) = rev_string y ++ rev_string x.
Proof.
  induction x as [|c x IH]; simpl.
  - rewrite append_nil_r. reflexivity.
  - unfold rev_string in *. simpl.
    rewrite (rev_string_onto_app (x ++ y)), (rev_string_onto_app x).
    unfold rev_string. rewrite IH, append_assoc. reflexivity.
Qed.

Lemma rev_string_involutive (s : string) : rev_string (rev_string s) = s.
Proof.
  induction s as [|c s IH]; [reflexivity|].
  change (String c s) with (String c "" ++ s) at 1.
  rewrite rev_string_app, rev_string_app, IH. reflexivity.
Qed.

Lemma lstrip_keeps (x y : string) :
  starts_with is_space y = false -> y <> "" ->
  exists x', lstrip (x ++ y) = x' ++ y.
Proof.
  intros Hy Hne. induction x as [|c x IH].
  - exists "". simpl. destruct y as [|d y]; [congruence|]. simpl in *.
    rewrite Hy. reflexivity.
  - simpl. destruct (is_space c); [exact IH|]. exists (String c x). reflexivity.
Qed.

Lemma strip_keeps (a b : string) :
  starts_with is_space a = false -> a <> "" ->
  starts_with is_space (rev_string a) = false ->
  exists z, strip (a ++ b) = a ++ z.
Proof.
  intros Hs Hne He. unfold strip.
  assert (L : lstrip (a ++ b) = a ++ b).
  { destruct a as [|c a]; [congruence|]. simpl in *. rewrite Hs. reflexivity. }
  rewrite L, rev_string_app.
  assert (Hr : rev_string a <> "").
  { intros E. apply (f_equal rev_string) in E.
    rewrite rev_string_involutive in E. apply Hne. exact E. }
  destruct (lstrip_keeps (rev_string b) (rev_string a) He Hr) as [x' ->].
  exists (rev_string x'). rewrite rev_string_app, rev_string_involutive.
  reflexivity.
Qed.

Lemma ends_append (p : ascii -> bool) (x y : string) :
  y <> "" ->
  starts_with p (rev_string (x ++ y)) = starts_with p (rev_string y).
Proof.
  intros Hne. rewrite rev_string_app.
  destruct (rev_string y) as [|c r] eqn:E; [|reflexivity].
  apply (f_equal rev_string) in E. rewrite rev_string_involutive in E.
  exfalso. apply Hne. exact E.
Qed.

Lemma tail_app (x y : string) :
  y <> "" /\ starts_with is_space (rev_string y) = false ->
  x ++ y <> "" /\ starts_with is_space (rev_string (x ++ y)) = false.
Proof.
  intros [Hne He]. split.
  - destruct x; [exact Hne|discriminate].
  - rewrite ends_append by exact Hne. exact He.
Qed.

Lemma join_snoc (sep s : string) (l : list string) :
  l <> [] -> join sep (l ++ [s]) = join sep l ++ sep ++ s.
Proof.
  unfold join. induction l as [|x l IH]; [intros H; exfalso; apply H; reflexivity|].
  intros _.
  destruct l as [|y l].
  - reflexivity.
  - change (String.concat sep ((x :: y :: l) ++ [s]))
      with (x ++ sep ++ String.concat sep ((y :: l) ++ [s])).
    rewrite IH by discriminate.
    change (String.concat sep (x :: y :: l))
      with (x ++ sep ++ String.concat sep (y :: l)).
    rewrite !append_assoc. reflexivity.
Qed.

Lemma Ok_inj {A} (a b : A) : Ok a = Ok b -> a = b.
Proof. intros H. injection H as ->. reflexivity. Qed.

(** The text of a coordinated answer is its opening paragraphs, then
    maybe more, trimmed. *)
Lemma coord_final_join (profile : json) (cid : Z) (text : json) (final : string) :
  coord_final profile cid text = Ok final ->
  exists opening b,
    coord_opening profile cid = Ok opening
    /\ final = strip (join (Py.nl ++ Py.nl) opening ++ b).
Proof.
  unfold coord_final.
  destruct (coord_opening profile cid) as [opening|] eqn:O; [|discriminate].
  cbn [obind]. intros H. exists opening.
  assert (Hne : opening <> []).
  { unfold coord_opening in O.
    destruct (Py.truthy profile).
    - destruct (Py.get profile "name" JNull); [|discriminate].
      destruct (Py.get profile "status" (JStr "unknown")); [|discriminate].
      cbn [obind] in O. apply Ok_inj in O. subst opening. discriminate.
    - destruct (negb (cid =? 0)%Z); apply Ok_inj in O; subst opening;
        discriminate. }
  destruct (Py.truthy text).
  - destruct text; try discriminate. cbn [as_str obind] in H.
    apply Ok_inj in H. subst final. exists ((Py.nl ++ Py.nl) ++ s).
    rewrite join_snoc by exact Hne. split; reflexivity.
  - cbn [obind] in H. apply Ok_inj in H. subst final. exists "".
    rewrite app_nil_r, append_nil_r. split; reflexivity.
Qed.

Lemma greeting_joined (d : dict) (cid : Z) :
  join (Py.nl ++ Py.nl)
       ["Hello " ++ Py.str (Py.dict_get d "name" JNull)
        ++ " (Customer ID " ++ str_of_int cid ++ "). "
        ++ "Your account is currently marked as "
        ++ Py.str (Py.dict_get d "status" (JStr "unknown")) ++ ".";
        upgrade_steps]
  = coord_greeting d cid.
Proof.
  unfold join, coord_greeting. cbn [String.concat].
  rewrite !append_assoc. reflexivity.
Qed.

(** The text of a coordinated answer starts with its opening. *)
Lemma coord_final_opening (profile : json) (cid : Z) (text : json) (final : string) :
  coord_final profile cid text = Ok final ->
  exists z, final = opening_of profile cid ++ z.
Proof.
  intros H. destruct (coord_final_join _ _ _ _ H) as (opening & b & O & ->).
  unfold coord_opening in O.
  assert (Hgeneric : forall p,
             Py.truthy p = false ->
             (if negb (cid =? 0)%Z
              then Ok ["I couldn't find customer " ++ str_of_int cid
                       ++ " in the records, but here is how you can upgrade:"]
              else Ok ["Here's how to upgrade your account:"]) = Ok opening ->
             exists z, strip (join (Py.nl ++ Py.nl) opening ++ b)
                       = (if (cid =? 0)%Z then coord_generic
                          else coord_not_found cid) ++ z).
  { intros p _ E. destruct (Z.eqb_spec cid 0) as [->|Hne]; cbn [negb] in E;
      apply Ok_inj in E; subst opening.
    - apply strip_keeps; reflexivity || discriminate.
    - change (join (Py.nl ++ Py.nl)
                   ["I couldn't find customer " ++ str_of_int cid
                    ++ " in the records, but here is how you can upgrade:"])
        with (coord_not_found cid).
      assert (Tl : coord_not_found cid <> ""
                   /\ starts_with is_space (rev_string (coord_not_found cid))
                      = false).
      { unfold coord_not_found. do 2 apply tail_app.
        split; [discriminate|reflexivity]. }
      apply strip_keeps; [reflexivity|apply Tl|apply Tl]. }
  destruct profile as [|flag|n|s|items|d]; cbn [Py.truthy] in O.
  - apply (Hgeneric JNull eq_refl O).
  - destruct flag; [discriminate O|]. apply (Hgeneric (JBool false) eq_refl O).
  - destruct (negb (n =? 0)%Z) eqn:N; [discriminate O|].
    apply (Hgeneric (JInt 0) eq_refl O).
  - destruct (negb (is_empty s)) eqn:N; [discriminate O|].
    apply (Hgeneric JNull eq_refl O).
  - destruct items; [|discriminate O]. apply (Hgeneric JNull eq_refl O).
  - destruct d as [|kv d]; [apply (Hgeneric JNull eq_refl O)|].
    cbn [Py.get obind] in O. apply Ok_inj in O. subst opening.
    rewrite greeting_joined. cbn [opening_of].
    assert (Tl : coord_greeting (kv :: d) cid <> ""
                 /\ starts_with is_space (rev_string (coord_greeting (kv :: d) cid))
                    = false).
    { unfold coord_greeting. do 10 apply tail_app.
      split; [discriminate|reflexivity]. }
    apply strip_keeps; [reflexivity|apply Tl|apply Tl].
Qed.

(** X10.  A completed MULTI_COORD run starts its answer with the
    opening that fits what it found: without an id in the text or in
    the arguments it asks no customer record and opens with the generic
    line; with an id it asks for that customer first, and greets the
    customer by name and status when a non-empty record comes back, or
    says that customer <id> could not be found otherwise.  The reply of
    the support agent, when there is one, follows the opening. *)
Theorem coordinated_answer_opening
        (W : Type) (http_post : W -> string -> json -> response * W)
        (req : A2ACallRequest) (w : W) (v : json) (st' : rstate W) :
  known_tool (tool req) = true ->
  intent_of req = MULTI_COORD ->
  router_call http_post req (arrive w) = (Ok v, st') ->
  exists cid z,
    coord_customer req = Ok cid
    /\ if (cid =? 0)%Z
       then (exists r2,
                sent st' = [Exchange support_url
                                     (reply_request (query_of (args_of req))) r2])
            /\ final_of v = JStr (coord_generic ++ z)
       else exists r1 r2 fetched,
           sent st' = [Exchange data_url
                                (request "get_customer" [("customer_id", JInt cid)])
                                r1;
                       Exchange support_url
                                (reply_request (query_of (args_of req))) r2]
           /\ decode r1 = Ok fetched
           /\ final_of v
              = JStr (opening_of (field fetched "customer") cid ++ z).
Proof.
  intros K I H. rewrite (router_call_known http_post req _ K) in H.
  rewrite dispatch_classified in H. unfold intent_of in I. rewrite I in H.
  unfold coord_customer. unfold route_multi_coord, data_call, support_call in H.
  invert_bind H as u Hu. invert_bind H as cid Hcid. exists cid.
  apply bind_ok_inv in H. destruct H as (profile & st1 & Hprofile & H).
  destruct (Z.eqb_spec cid 0) as [->|Hne]; cbn [negb Z.eqb] in Hprofile.
  - unfold ret in Hprofile. injection Hprofile as <- <-.
    invert_bind H as reply Hreply. invert_bind H as text Htext.
    invert_bind H as u1 Hu1. invert_bind H as final Hfinal.
    apply envelope_inv in H. destruct H as [-> ->].
    destruct (coord_final_opening _ _ _ _ Hfinal) as [z ->].
    exists z. split; [exact Hcid|]. split; [|reflexivity].
    exists r. reflexivity.
  - invert_bind Hprofile as fetched Hfetched.
    invert_bind Hprofile as got Hgot. invert_bind Hprofile as u0 Hu0.
    unfold ret in Hprofile. injection Hprofile as <- <-.
    invert_bind H as reply Hreply. invert_bind H as text Htext.
    invert_bind H as u1 Hu1. invert_bind H as final Hfinal.
    apply envelope_inv in H. destruct H as [-> ->].
    destruct (coord_final_opening _ _ _ _ Hfinal) as [z ->].
    exists z. split; [exact Hcid|].
    exists r, r0, fetched. rewrite <- (get_field _ _ _ Hgot).
    repeat split; auto.
Qed.

Lemma coordinated_answer_opening_witness :
  exists cid z,
    coord_customer upgrade_request = Ok cid
    /\ if (cid =? 0)%Z
       then (exists r2,
                sent (snd (Script.run [Script.ok (JObj [("text", JStr "Sure.")])]
                                      upgrade_request))
                = [Exchange support_url
                            (reply_request (query_of (args_of upgrade_request)))
                            r2])
            /\ final_of (envelope_of
                           (JStr "multi-intent") (JStr "router -> data -> support")
                           (JList [JStr "Router classified as MULTI";
                                   JStr "Support Agent generated coordinated response"])
                           (JStr (coord_generic ++ Py.nl ++ Py.nl ++ "Sure.")))
               = JStr (coord_generic ++ z)
       else exists r1 r2 fetched,
           sent (snd (Script.run [Script.ok (JObj [("text", JStr "Sure.")])]
                                 upgrade_request))
           = [Exchange data_url
                       (request "get_customer" [("customer_id", JInt cid)]) r1;
              Exchange support_url
                       (reply_request (query_of (args_of upgrade_request))) r2]
           /\ decode r1 = Ok fetched
           /\ final_of (envelope_of
                          (JStr "multi-intent") (JStr "router -> data -> support")
                          (JList [JStr "Router classified as MULTI";
                                  JStr "Support Agent generated coordinated response"])
                          (JStr (coord_generic ++ Py.nl ++ Py.nl ++ "Sure.")))
              = JStr (opening_of (field fetched "customer") cid ++ z).
Proof.
  apply (coordinated_answer_opening
           _ Script.scripted upgrade_request
           [Script.ok (JObj [("text", JStr "Sure.")])]
           _ (snd (Script.run [Script.ok (JObj [("text", JStr "Sure.")])]
                              upgrade_request)));
    reflexivity.
Defined.

Lemma ticket_block_head (idx : Z) (t : json) (block : string) :
  ticket_block idx t = Ok block ->
  exists rest,
    block = str_of_int idx ++ ". **Ticket ID:** " ++ Py.str (field t "id") ++ rest.
Proof.
  unfold ticket_block.
  destruct (Py.get t "id" JNull) as [id|] eqn:Hid; [|discriminate].
  destruct (Py.get t "issue" JNull); [|discriminate].
  destruct (Py.get t "status" JNull); [|discriminate].
  destruct (Py.get t "priority" JNull); [|discriminate].
  destruct (Py.get t "created_at" JNull); [|discriminate].
  cbn [obind]. intros H. apply Ok_inj in H. subst block.
  rewrite <- (get_field _ _ _ Hid). eexists. reflexivity.
Qed.

Lemma ticket_blocks_shape (ts : list json) :
  forall idx blocks,
    ticket_blocks idx ts = Ok blocks ->
    length blocks = length ts
    /\ forall i block,
        nth_error blocks i = Some block ->
        exists t rest,
          nth_error ts i = Some t
          /\ block = str_of_int (idx + Z.of_nat i) ++ ". **Ticket ID:** "
                     ++ Py.str (field t "id") ++ rest.
Proof.
  induction ts as [|t ts IH]; intros idx blocks; cbn [ticket_blocks].
  - intros H. apply Ok_inj in H. subst blocks. split; [reflexivity|].
    intros [|i] block H; discriminate H.
  - destruct (ticket_block idx t) as [b|] eqn:B; [|discriminate]. cbn [obind].
    destruct (ticket_blocks (idx + 1) ts) as [more|] eqn:M; [|discriminate].
    cbn [obind]. intros H. apply Ok_inj in H. subst blocks.
    destruct (IH _ _ M) as [Hlen Hnth]. split; [simpl; congruence|].
    intros [|i] block Hb; cbn [nth_error] in *.
    + assert (block = b) by congruence. subst block.
      destruct (ticket_block_head _ _ _ B) as [rest ->].
      exists t, rest. rewrite Z.add_0_r. auto.
    + destruct (Hnth i block Hb) as (t1 & rest & Ht & ->).
      exists t1, rest. split; [exact Ht|].
      replace (idx + Z.of_nat (S i))%Z with (idx + 1 + Z.of_nat i)%Z by lia.
      reflexivity.
Qed.

(** X11.  A completed MULTI_UPDATE run made two calls for the same
    customer, the update and then the history, and its answer is the
    line confirming the email, the line announcing the history and one
    block per ticket of the history, in order, the blocks numbered from
    1 and naming the id of their ticket, all joined by line breaks. *)
Theorem update_answer_lists_every_ticket
        (W : Type) (http_post : W -> string -> json -> response * W)
        (req : A2ACallRequest) (w : W) (v : json) (st' : rstate W) :
  known_tool (tool req) = true ->
  intent_of req = MULTI_UPDATE ->
  router_call http_post req (arrive w) = (Ok v, st') ->
  let args := args_of req in
  let q := query_of args in
  exists cid r1 r2 blocks,
    customer_id_of (search_customer (lower q)) args 1 = Ok cid
    /\ sent st'
       = [Exchange data_url
                   (request "update_customer"
                            [("customer_id", JInt cid);
                             ("data", JObj [("email", new_email_of args q)])])
                   r1;
          Exchange data_url
                   (request "get_customer_history" [("customer_id", JInt cid)])
                   r2]
    /\ final_of v
       = JStr (join Py.nl (update_header (new_email_of args q)
                           :: ("Here is your ticket history:" ++ Py.nl)
                           :: blocks))
    /\ length blocks = length (history_tickets r2)
    /\ forall i block,
        nth_error blocks i = Some block ->
        exists t rest,
          nth_error (history_tickets r2) i = Some t
          /\ block = str_of_int (1 + Z.of_nat i) ++ ". **Ticket ID:** "
                     ++ Py.str (field t "id") ++ rest.
Proof.
  intros K I H args q. rewrite (router_call_known http_post req _ K) in H.
  rewrite dispatch_classified in H. unfold intent_of in I. rewrite I in H.
  fold args in H. fold q in H. unfold route_multi_update, data_call in H.
  invert_bind H as u Hu. invert_bind H as cid Hcid.
  invert_bind H as updated Hupdated. invert_bind H as u1 Hu1.
  invert_bind H as fetched Hfetched. invert_bind H as hist Hhist.
  invert_bind H as formatted Hformatted. invert_bind H as u2 Hu2.
  apply envelope_inv in H. destruct H as [-> ->].
  unfold update_final in Hformatted.
  destruct (Py.iter hist) as [ts|] eqn:Hts; [|discriminate].
  cbn [obind] in Hformatted.
  destruct (ticket_blocks 1 ts) as [blocks|] eqn:B; [|discriminate].
  cbn [obind] in Hformatted. apply Ok_inj in Hformatted. subst formatted.
  pose proof (items_under_ok "tickets" _ _ _ _ Hfetched Hhist Hts) as Ht.
  destruct (ticket_blocks_shape _ _ _ B) as [Hlen Hnth].
  exists cid, r, r0, blocks. unfold history_tickets. rewrite Ht.
  repeat split; auto.
Qed.

Lemma update_answer_lists_every_ticket_witness :
  let run := Script.run update_done update_request in
  let args := args_of update_request in
  let q := query_of args in
  exists cid r1 r2 blocks,
    customer_id_of (search_customer (lower q)) args 1 = Ok cid
    /\ sent (snd run)
       = [Exchange data_url
                   (request "update_customer"
                            [("customer_id", JInt cid);
                             ("data", JObj [("email", new_email_of args q)])])
                   r1;
          Exchange data_url
                   (request "get_customer_history" [("customer_id", JInt cid)])
                   r2]
    /\ final_of (returned run)
       = JStr (join Py.nl (update_header (new_email_of args q)
                           :: ("Here is your ticket history:" ++ Py.nl)
                           :: blocks))
    /\ length blocks = length (history_tickets r2)
    /\ forall i block,
        nth_error blocks i = Some block ->
        exists t rest,
          nth_error (history_tickets r2) i = Some t
          /\ block = str_of_int (1 + Z.of_nat i) ++ ". **Ticket ID:** "
                     ++ Py.str (field t "id") ++ rest.
Proof.
  exact (update_answer_lists_every_ticket
           _ Script.scripted update_request update_done
           (returned (Script.run update_done update_request))
           (snd (Script.run update_done update_request))
           eq_refl eq_refl eq_refl).
Defined.

(* ================================================================== *)
(** ** The support agent *)
(* ================================================================== *)

Lemma guess_intent_of_text (s : string) :
  exists intent, SupportAgent._guess_intent (JStr s) = Ok intent.
Proof.
  unfold SupportAgent._guess_intent, or_else.
  destruct (Py.truthy (JStr s)); cbn [lower_method obind];
    repeat match goal with
           | |- context [if ?b then _ else _] => destruct b
           end; eauto.
Qed.

Section SupportRuns.

Context {W : Type}.
Variable http_post : W -> string -> json -> response * W.

Lemma mcp_call_runs (tool : string) (a : json) (st : rstate W) :
  SupportAgent.mcp_call http_post tool a st
  = (SupportAgent.mcp_decode (fst (http_post (world st) MCP_URL (mcp_body tool a))),
     RState (snd (http_post (world st) MCP_URL (mcp_body tool a)))
            (sent st ++ [Exchange MCP_URL (mcp_body tool a)
                                  (fst (http_post (world st) MCP_URL
                                                  (mcp_body tool a)))])%list
            (logs st)).
Proof.
  unfold SupportAgent.mcp_call, bind, post, lift.
  destruct (http_post _ _ _) as [r w']. reflexivity.
Qed.

Lemma suggest_without_customer (s intent : string) (st : rstate W) :
  SupportAgent._guess_intent (JStr s) = Ok intent ->
  SupportAgent.tool_suggest_resolution http_post (JStr s) JNull st
  = (Ok (resolution_of intent []), st).
Proof.
  intros Hi. unfold SupportAgent.tool_suggest_resolution, bind, ret, lift.
  rewrite Hi. reflexivity.
Qed.

Lemma suggest_with_customer (s intent : string) (cid : json) (st : rstate W) :
  cid <> JNull ->
  SupportAgent._guess_intent (JStr s) = Ok intent ->
  SupportAgent.tool_suggest_resolution http_post (JStr s) cid st
  = (Ok (resolution_of
           intent
           [("history",
             history_of (fst (http_post (world st) MCP_URL
                                        (history_request cid))))]),
     asked http_post cid st).
Proof.
  intros Hc Hi.
  assert (E : SupportAgent.tool_suggest_resolution http_post (JStr s) cid st
              = bind (catch (bind (SupportAgent.mcp_call
                                     http_post "get_customer_history"
                                     (JObj [("customer_id", cid)]))
                                  (fun hist => ret [("history", hist)]))
                            (fun _ => ret [("history", history_unavailable)]))
                     (fun context =>
                        bind (lift (SupportAgent._guess_intent (JStr s)))
                             (fun intent => ret (resolution_of intent context)))
                     st).
  { destruct cid; [congruence| | | | |]; reflexivity. }
  rewrite E. unfold bind at 1. unfold catch. unfold bind at 1.
  rewrite mcp_call_runs. fold (history_request cid). fold (asked http_post cid st).
  unfold history_of.
  destruct (SupportAgent.mcp_decode _) as [h|e];
    unfold bind, ret, lift; rewrite Hi; reflexivity.
Qed.

Lemma simple_reply_of_resolution (text cid : json) (intent : string)
      (context : dict) (st st' : rstate W) :
  SupportAgent.tool_suggest_resolution http_post text cid st
  = (Ok (resolution_of intent context), st') ->
  SupportAgent.tool_simple_support_reply http_post text cid st
  = (Ok (reply_of intent context), st').
Proof.
  intros H. unfold SupportAgent.tool_simple_support_reply.
  unfold bind at 1. rewrite H. reflexivity.
Qed.

End SupportRuns.

(** X12.  Asked for a reply to a text that is a string, the support
    agent always answers, whatever the customer id and whatever the
    MCP server does: the answer has the fixed suggestion as its text,
    the guessed intent and a context, at most one request was sent,
    and the router, receiving it, passes it on unchanged. *)
Theorem support_reply_always_answers
        (W : Type) (http_post : W -> string -> json -> response * W)
        (args : dict) (s : string) (st : rstate W) :
  Py.dict_get args "text" (JStr "") = JStr s ->
  exists intent context st',
    SupportAgent.a2a_call
      http_post
      {| SupportAgent.tool := "simple_support_reply";
         SupportAgent.arguments := args |} st
    = (Ok (reply_of intent context), st')
    /\ SupportAgent._guess_intent (JStr s) = Ok intent
    /\ (sent st' = sent st
        \/ exists r, sent st'
                     = (sent st
                        ++ [Exchange MCP_URL
                                     (history_request
                                        (Py.dict_get args "customer_id" JNull))
                                     r])%list)
    /\ decode (served (reply_of intent context)) = Ok (reply_of intent context).
Proof.
  intros Ht. destruct (guess_intent_of_text s) as [intent Hi].
  unfold SupportAgent.a2a_call. cbn [SupportAgent.tool SupportAgent.arguments].
  cbn [String.eqb Ascii.eqb Bool.eqb]. rewrite Ht.
  set (cid := Py.dict_get args "customer_id" JNull).
  assert (D : cid = JNull \/ cid <> JNull)
    by (destruct cid; auto; right; discriminate).
  destruct D as [-> | Hc].
  - exists intent, [], st. repeat split; auto.
    apply simple_reply_of_resolution, suggest_without_customer, Hi.
  - eexists intent, _, _. split; [|split; [exact Hi|split]].
    + apply simple_reply_of_resolution, suggest_with_customer; assumption.
    + right. eexists. reflexivity.
    + reflexivity.
Qed.

Lemma support_reply_always_answers_witness :
  exists intent context st',
    SupportAgent.a2a_call Script.scripted refund_call (arrive [])
    = (Ok (reply_of intent context), st')
    /\ SupportAgent._guess_intent (JStr "Please refund my order") = Ok intent
    /\ (sent st' = sent (arrive (W := list response) [])
        \/ exists r, sent st'
                     = (sent (arrive (W := list response) [])
                        ++ [Exchange MCP_URL
                                     (history_request
                                        (Py.dict_get
                                           (SupportAgent.arguments refund_call)
                                           "customer_id" JNull))
                                     r])%list)
    /\ decode (served (reply_of intent context)) = Ok (reply_of intent context).
Proof.
  exact (support_reply_always_answers
           _ Script.scripted (SupportAgent.arguments refund_call)
           "Please refund my order" (arrive []) eq_refl).
Defined.

(** X13.  The history the support agent adds to a suggestion is best
    effort.  Given a customer id, it sends one request for the tickets
    of that customer to the MCP server and never fails on the answer:
    the context holds the result, or a note that the history is
    unavailable when the request failed in any way.  Given none, it
    sends nothing and the context is empty. *)
Theorem history_is_best_effort
        (W : Type) (http_post : W -> string -> json -> response * W)
        (s : string) (cid : json) (st : rstate W) :
  cid <> JNull ->
  let r := fst (http_post (world st) MCP_URL (history_request cid)) in
  exists intent st',
    SupportAgent._guess_intent (JStr s) = Ok intent
    /\ SupportAgent.tool_suggest_resolution http_post (JStr s) JNull st
       = (Ok (resolution_of intent []), st)
    /\ SupportAgent.tool_suggest_resolution http_post (JStr s) cid st
       = (Ok (resolution_of
                intent
                [("history",
                  match SupportAgent.mcp_decode r with
                  | Ok hist => hist
                  | Raise _ => JObj [("error", JStr "history unavailable")]
                  end)]),
          st')
    /\ sent st' = (sent st ++ [Exchange MCP_URL (history_request cid) r])%list.
Proof.
  intros Hc r. destruct (guess_intent_of_text s) as [intent Hi].
  exists intent. eexists. split; [exact Hi|split; [|split]].
  - apply suggest_without_customer, Hi.
  - apply suggest_with_customer; assumption.
  - reflexivity.
Qed.

Lemma history_is_best_effort_witness :
  exists intent st',
    SupportAgent._guess_intent (JStr "my parcel is late") = Ok intent
    /\ SupportAgent.tool_suggest_resolution
         Script.scripted (JStr "my parcel is late") JNull
         (arrive [Response 503 None])
       = (Ok (resolution_of intent []), arrive [Response 503 None])
    /\ SupportAgent.tool_suggest_resolution
         Script.scripted (JStr "my parcel is late") (JInt 5)
         (arrive [Response 503 None])
       = (Ok (resolution_of
                intent
                [("history",
                  match SupportAgent.mcp_decode (Response 503 None) with
                  | Ok hist => hist
                  | Raise _ => JObj [("error", JStr "history unavailable")]
                  end)]),
          st')
    /\ sent st' = [Exchange MCP_URL (history_request (JInt 5)) (Response 503 None)].
Proof.
  apply (history_is_best_effort
           _ Script.scripted "my parcel is late" (JInt 5)
           (arrive [Response 503 None])).
  discriminate.
Defined.

Lemma guess_billing (s : string) :
  str_in "refund" (lower s) || str_in "charge" (lower s)
  || str_in "billing" (lower s) = true ->
  SupportAgent._guess_intent (JStr s) = Ok "billing".
Proof.
  intros H. unfold SupportAgent._guess_intent, or_else.
  destruct s as [|c r].
  - discriminate H.
  - cbn [Py.truthy is_empty negb lower_method obind]. rewrite H. reflexivity.
Qed.

Lemma charged_twice_is_charge (t : string) :
  str_in "charged twice" t = true -> str_in "charge" t = true.
Proof. intros H. eapply str_in_trans; [|exact H]. reflexivity. Qed.

(** X14.  The router and the support agent agree on billing: a text
    that the router classifies as SUPPORT is guessed as billing by the
    support agent, unless it mentions cancel. *)
Theorem router_support_is_billing
        (q : string) :
  classify_intent q = "SUPPORT" ->
  str_in "cancel" (lower q) = false ->
  SupportAgent._guess_intent (JStr q) = Ok "billing".
Proof.
  unfold classify_intent. cbv zeta. intros H Hc.
  apply guess_billing.
  destruct (str_in "active customers" (lower q) && str_in "open ticket" (lower q)
            || str_in "active customers" (lower q)
               && str_in "open tickets" (lower q)); [discriminate H|].
  destruct (str_in "update my email" (lower q)
            && str_in "ticket history" (lower q)); [discriminate H|].
  destruct (str_in "upgrade" (lower q)
            || str_in "upgrading my account" (lower q)); [discriminate H|].
  rewrite Hc in H.
  destruct (str_in "charged twice" (lower q)) eqn:C.
  - rewrite (charged_twice_is_charge _ C).
    destruct (str_in "refund" (lower q)); reflexivity.
  - destruct (str_in "refund" (lower q)); [reflexivity|].
    destruct (str_in "billing" (lower q)); [apply orb_true_r|].
    cbn [orb] in H.
    destruct (str_in "get customer information" (lower q)
              || str_in "get customer info" (lower q)
              || str_in "customer id" (lower q)); discriminate H.
Qed.

Lemma router_support_is_billing_witness :
  SupportAgent._guess_intent (JStr "I was Charged Twice last month")
  = Ok "billing".
Proof.
  apply (router_support_is_billing "I was Charged Twice last month");
    reflexivity.
Defined.

(** X15.  A tool that the support agent does not have is answered
    without any request and without an exception, by an object with
    ok false and an error naming the tool; the router, receiving that
    answer, raises a RuntimeError with the same text. *)
Theorem support_unknown_tool_fails_at_router
        (W : Type) (http_post : W -> string -> json -> response * W)
        (tool : string) (args : dict) (st : rstate W) :
  ~ In tool support_tools ->
  let answer := JObj [("ok", JBool false);
                      ("error", JStr ("Unknown tool: " ++ tool))] in
  SupportAgent.a2a_call http_post
                        {| SupportAgent.tool := tool;
                           SupportAgent.arguments := args |} st
  = (Ok answer, st)
  /\ decode (served answer)
     = Raise (RuntimeError (JStr ("Unknown tool: " ++ tool))).
Proof.
  intros H answer. split; [|reflexivity].
  unfold SupportAgent.a2a_call. cbn [SupportAgent.tool SupportAgent.arguments].
  unfold support_tools in H. cbn [In] in H.
  destruct (String.eqb_spec tool "suggest_resolution"); [exfalso; apply H; subst; auto 6|].
  destruct (String.eqb_spec tool "simple_support_reply"); [exfalso; apply H; subst; auto 6|].
  destruct (String.eqb_spec tool "create_ticket"); [exfalso; apply H; subst; auto 6|].
  destruct (String.eqb_spec tool "tickets_report_for_customers"); [exfalso; apply H; subst; auto 6|].
  reflexivity.
Qed.

Lemma support_unknown_tool_fails_at_router_witness :
  SupportAgent.a2a_call Script.scripted
                        {| SupportAgent.tool := "get_customer";
                           SupportAgent.arguments := [] |}
                        (arrive [])
  = (Ok (JObj [("ok", JBool false);
               ("error", JStr "Unknown tool: get_customer")]),
     arrive [])
  /\ decode (served (JObj [("ok", JBool false);
                           ("error", JStr "Unknown tool: get_customer")]))
     = Raise (RuntimeError (JStr "Unknown tool: get_customer")).
Proof.
  apply (support_unknown_tool_fails_at_router
           _ Script.scripted "get_customer" [] (arrive [])).
  vm_compute. intuition discriminate.
Defined.

Section SupportReport.

Context {W : Type}.
Variable http_post : W -> string -> json -> response * W.

Lemma mcp_call_ok_inv (tool : string) (a : json) (st : rstate W) v st1 :
  SupportAgent.mcp_call http_post tool a st = (Ok v, st1) ->
  exists r w',
    SupportAgent.mcp_decode r = Ok v
    /\ st1 = RState w' (sent st ++ [Exchange MCP_URL (mcp_body tool a) r])%list
                    (logs st).
Proof.
  rewrite mcp_call_runs. intros H. injection H as H <-. eauto.
Qed.

Lemma report_loop_ok (priority : json) (ids : list json) :
  forall (report : list json) (st : rstate W) entries st',
    SupportAgent.report_loop http_post priority ids report st = (Ok entries, st') ->
    exists rs new,
      length rs = length ids
      /\ entries = (report ++ new)%list
      /\ sent st' = (sent st ++ history_exchanges ids rs)%list
      /\ Forall2 (fun p e => history_entry priority (fst p) (snd p) = Ok e)
                 (combine ids rs) new.
Proof.
  induction ids as [|cid rest IH]; intros report st entries st' H.
  - cbn [SupportAgent.report_loop] in H. unfold ret in H. injection H as <- <-.
    exists [], []. rewrite !app_nil_r. repeat split; constructor.
  - cbn [SupportAgent.report_loop] in H.
    apply bind_ok_inv in H. destruct H as (hist & st1 & Hcall & H).
    apply mcp_call_ok_inv in Hcall. destruct Hcall as (r & w' & Hd & ->).
    apply bind_ok_inv in H. destruct H as (raw & st2 & Hraw & H).
    apply lift_ok_inv in Hraw. destruct Hraw as [Hraw ->].
    apply bind_ok_inv in H. destruct H as (tickets & st3 & Ht & H).
    apply lift_ok_inv in Ht. destruct Ht as [Ht ->].
    apply IH in H. destruct H as (rs & new & Hlen & -> & Hs & Hall).
    exists (r :: rs), (JObj [("customer_id", cid); ("tickets", tickets)] :: new).
    cbn [sent] in Hs. repeat split.
    + cbn [length]. rewrite Hlen. reflexivity.
    + rewrite <- app_assoc. reflexivity.
    + rewrite Hs, <- app_assoc. reflexivity.
    + cbn [combine]. constructor; [|exact Hall].
      unfold history_entry. cbn [fst snd]. rewrite Hd. cbn [obind].
      rewrite Hraw. cbn [obind]. rewrite Ht. reflexivity.
Qed.

End SupportReport.

(** X16.  A report of tickets that completed sent one request per
    customer id, in the order of the ids and each for the history of
    its id, and has one entry per id in the same order: the id and the
    tickets of the answer to its request, filtered by the priority
    asked for; the priority is returned beside the report. *)
Theorem report_has_one_entry_per_customer
        (W : Type) (http_post : W -> string -> json -> response * W)
        (ids : list json) (priority : json) (st : rstate W)
        (v : json) (st' : rstate W) :
  SupportAgent.tool_tickets_report_for_customers http_post ids priority st
  = (Ok v, st') ->
  exists rs entries,
    length rs = length ids
    /\ length entries = length ids
    /\ v = JObj [("report", JList entries); ("filter_priority", priority)]
    /\ sent st' = (sent st ++ history_exchanges ids rs)%list
    /\ Forall2 (fun p e => history_entry priority (fst p) (snd p) = Ok e)
               (combine ids rs) entries.
Proof.
  intros H. unfold SupportAgent.tool_tickets_report_for_customers in H.
  apply bind_ok_inv in H. destruct H as (entries & st1 & Hloop & H).
  unfold ret in H. injection H as <- <-.
  apply report_loop_ok in Hloop.
  destruct Hloop as (rs & new & Hlen & -> & Hs & Hall).
  exists rs, new. cbn [app]. repeat split; auto.
  apply Forall2_length in Hall. rewrite <- Hall, length_combine, Hlen.
  apply Nat.min_id.
Qed.

Lemma report_has_one_entry_per_customer_witness :
  let run := SupportAgent.tool_tickets_report_for_customers
               Script.scripted [JInt 1; JInt 2] (JStr "High")
               (arrive two_histories) in
  exists rs entries,
    length rs = 2
    /\ length entries = 2
    /\ returned run
       = JObj [("report", JList entries); ("filter_priority", JStr "High")]
    /\ sent (snd run)
       = (sent (arrive two_histories)
          ++ history_exchanges [JInt 1; JInt 2] rs)%list
    /\ Forall2 (fun p e => history_entry (JStr "High") (fst p) (snd p) = Ok e)
               (combine [JInt 1; JInt 2] rs) entries.
Proof.
  exact (report_has_one_entry_per_customer
           _ Script.scripted [JInt 1; JInt 2] (JStr "High")
           (arrive two_histories)
           (returned (SupportAgent.tool_tickets_report_for_customers
                        Script.scripted [JInt 1; JInt 2] (JStr "High")
                        (arrive two_histories)))
           (snd (SupportAgent.tool_tickets_report_for_customers
                   Script.scripted [JInt 1; JInt 2] (JStr "High")
                   (arrive two_histories)))
           eq_refl).
Defined.

Lemma with_priority_filter (p : string) (ts : list json) :
  forallb is_dict ts = true ->
  SupportAgent.with_priority (JStr p) ts = Ok (filter (wants p) ts).
Proof.
  induction ts as [|t rest IH]; intros H; [reflexivity|].
  cbn [forallb] in H. apply andb_true_iff in H. destruct H as [Ht Hrest].
  cbn [SupportAgent.with_priority filter]. rewrite (IH Hrest).
  destruct t; try discriminate Ht. reflexivity.
Qed.

Lemma dict_get_absent (d : dict) (k : string) (dflt : json) :
  Py.dict_has d k = false -> Py.dict_get d k dflt = dflt.
Proof.
  induction d as [|[k' v] r IH]; [reflexivity|].
  cbn [Py.dict_has Py.dict_get]. destruct (String.eqb k' k); [discriminate|].
  exact IH.
Qed.

(** X17.  With a priority that is a non-empty string, the report keeps
    of a list of tickets exactly those whose priority, as text, equals
    the priority asked for, letter case ignored on both sides, in
    their order; so two spellings of the priority that differ in case
    only give the same tickets, and a ticket without a priority is
    kept when the priority asked for is none. *)
Theorem priority_filter_keeps_matching
        (p : string) (ts : list json) :
  p <> "" ->
  forallb is_dict ts = true ->
  SupportAgent.filter_tickets (JStr p) (JList ts)
  = Ok (JList (filter (wants p) ts))
  /\ SupportAgent.filter_tickets (JStr (lower p)) (JList ts)
     = SupportAgent.filter_tickets (JStr p) (JList ts)
  /\ forall d, Py.dict_has d "priority" = false ->
               wants "None" (JObj d) = true.
Proof.
  intros Hp Hts.
  assert (F : forall s, s <> "" -> 
              SupportAgent.filter_tickets (JStr s) (JList ts)
              = Ok (JList (filter (wants s) ts))).
  { intros s Hs. unfold SupportAgent.filter_tickets.
    destruct s as [|c r]; [congruence|].
    cbn [Py.truthy is_empty negb Py.iter obind].
    rewrite (with_priority_filter _ _ Hts). reflexivity. }
  split; [exact (F p Hp)|split].
  - rewrite (F p Hp), F.
    + unfold wants. rewrite lower_idempotent. reflexivity.
    + destruct p; [congruence|discriminate].
  - intros d Hd. unfold wants, field. rewrite (dict_get_absent _ _ _ Hd).
    reflexivity.
Qed.

Lemma priority_filter_keeps_matching_witness :
  SupportAgent.filter_tickets
    (JStr "High")
    (JList [JObj [("id", JInt 1); ("priority", JStr "HIGH")];
            JObj [("id", JInt 2); ("priority", JStr "low")]])
  = Ok (JList (filter (wants "High")
                      [JObj [("id", JInt 1); ("priority", JStr "HIGH")];
                       JObj [("id", JInt 2); ("priority", JStr "low")]]))
  /\ SupportAgent.filter_tickets
       (JStr (lower "High"))
       (JList [JObj [("id", JInt 1); ("priority", JStr "HIGH")];
               JObj [("id", JInt 2); ("priority", JStr "low")]])
     = SupportAgent.filter_tickets
         (JStr "High")
         (JList [JObj [("id", JInt 1); ("priority", JStr "HIGH")];
                 JObj [("id", JInt 2); ("priority", JStr "low")]])
  /\ forall d, Py.dict_has d "priority" = false ->
               wants "None" (JObj d) = true.
Proof.
  apply (priority_filter_keeps_matching
           "High"
           [JObj [("id", JInt 1); ("priority", JStr "HIGH")];
            JObj [("id", JInt 2); ("priority", JStr "low")]]).
  - discriminate.
  - reflexivity.
Defined.

(** X18.  Creating a ticket through the support agent sends nothing
    unless the arguments hold a customer id that converts to an
    integer and an issue: otherwise the call raises and the state is
    unchanged.  When they do, one request to create the ticket is
    sent, for that integer, the issue as text and the priority as
    text, medium when none is given, and the call ends as the reading
    of the response to it does. *)
Theorem create_ticket_checks_arguments
        (W : Type) (http_post : W -> string -> json -> response * W)
        (args : dict) (st : rstate W) :
  let run := SupportAgent.a2a_call
               http_post
               {| SupportAgent.tool := "create_ticket";
                  SupportAgent.arguments := args |} st in
  (exists e, run = (Raise e, st)
             /\ (Py.dict_has args "customer_id" = false
                 \/ Py.int (Py.dict_get args "customer_id" JNull) = Raise e
                 \/ Py.dict_has args "issue" = false))
  \/ (exists cid r,
        Py.dict_has args "customer_id" = true
        /\ Py.int (Py.dict_get args "customer_id" JNull) = Ok cid
        /\ Py.dict_has args "issue" = true
        /\ sent (snd run)
           = (sent st
              ++ [Exchange MCP_URL
                           (create_request
                              cid (Py.dict_get args "issue" JNull)
                              (Py.dict_get args "priority" (JStr "medium")))
                           r])%list
        /\ fst run = SupportAgent.mcp_decode r).
Proof.
  intros run. subst run. unfold SupportAgent.a2a_call.
  cbn [SupportAgent.tool SupportAgent.arguments].
  cbn [String.eqb Ascii.eqb Bool.eqb].
  unfold Py.getitem.
  destruct (Py.dict_has args "customer_id") eqn:Hc.
  2: { left. exists (KeyError "customer_id"). split; [reflexivity|auto]. }
  destruct (Py.int (Py.dict_get args "customer_id" JNull)) as [cid|e] eqn:Hi.
  2: { left. exists e. split; [|auto].
       unfold bind, lift. rewrite Hi. reflexivity. }
  destruct (Py.dict_has args "issue") eqn:Hs.
  2: { left. exists (KeyError "issue"). split; [|auto].
       unfold bind, lift. rewrite Hi. reflexivity. }
  right. exists cid.
  exists (fst (http_post (world st) MCP_URL
                         (create_request
                            cid (Py.dict_get args "issue" JNull)
                            (Py.dict_get args "priority" (JStr "medium"))))).
  repeat split.
  - unfold bind at 1. unfold lift at 1. unfold bind at 1. unfold lift at 1.
    rewrite Hi. unfold bind at 1. unfold lift at 1.
    unfold SupportAgent.tool_create_ticket. rewrite mcp_call_runs.
    reflexivity.
  - unfold bind at 1. unfold lift at 1. unfold bind at 1. unfold lift at 1.
    rewrite Hi. unfold bind at 1. unfold lift at 1.
    unfold SupportAgent.tool_create_ticket. rewrite mcp_call_runs.
    reflexivity.
Qed.

(** X19.  A message to the support agent never raises and sends no
    request.  When its text, in lower case, mentions refund or charged
    twice, the answer is the fixed suggestion with an empty context
    and the intent billing; otherwise it is the note that no rule
    matched. *)
Theorem support_message_answers_locally
        (W : Type) (http_post : W -> string -> json -> response * W)
        (content : string) (st : rstate W) :
  SupportAgent.sa_message http_post content st
  = (Ok (if str_in "refund" (lower content)
            || str_in "charged twice" (lower content)
         then resolution_of "billing" []
         else message_note),
     st).
Proof.
  unfold SupportAgent.sa_message. cbv zeta.
  destruct (str_in "refund" (lower content)
            || str_in "charged twice" (lower content)) eqn:E; [|reflexivity].
  unfold SupportAgent.a2a_call. cbn [SupportAgent.tool SupportAgent.arguments].
  cbn [String.eqb Ascii.eqb Bool.eqb Py.dict_get].
  apply suggest_without_customer, guess_billing.
  apply orb_true_iff in E. destruct E as [E|E].
  - rewrite E. reflexivity.
  - rewrite (charged_twice_is_charge _ E).
    destruct (str_in "refund" (lower content)); reflexivity.
Qed.

(* ================================================================== *)
(** ** The data agent and the MCP server *)
(* ================================================================== *)

Lemma dict_get_present (d : dict) (k : string) (a b : json) :
  Py.dict_has d k = true -> Py.dict_get d k a = Py.dict_get d k b.
Proof.
  induction d as [|[k' v] r IH]; [discriminate|].
  cbn [Py.dict_has Py.dict_get]. destruct (String.eqb k' k); [reflexivity|].
  exact IH.
Qed.

Lemma decode_error_answer (e : json) :
  decode (served (error_answer e)) = Raise (RuntimeError e).
Proof. reflexivity. Qed.

Lemma forward_failed (r : response) :
  r <> NoResponse -> failed r = true ->
  exists e, DataAgent.forward r = Ok (error_answer e).
Proof.
  intros Hr Hf. destruct r as [|status body]; [congruence|].
  unfold failed in Hf. unfold DataAgent.forward.
  destruct (error_status status) eqn:E; [eexists; reflexivity|].
  cbn [orb] in Hf.
  destruct body as [[| | | | |d]|]; try discriminate Hf.
  cbn [Py.contains obind]. rewrite Hf. cbn [Py.getitem]. rewrite Hf.
  cbn [obind]. eexists. reflexivity.
Qed.

Section DataRuns.

Context {W : Type}.
Variable http_post : W -> string -> json -> response * W.

Lemma data_a2a_call_runs (payload : DataAgent.A2ACall) (st : rstate W) :
  let body := mcp_body (DataAgent.tool payload)
                       (JObj (DataAgent.arguments payload)) in
  DataAgent.a2a_call http_post payload st
  = (DataAgent.forward (fst (http_post (world st) MCP_URL body)),
     RState (snd (http_post (world st) MCP_URL body))
            (sent st ++ [Exchange MCP_URL body
                                  (fst (http_post (world st) MCP_URL body))])%list
            (logs st)).
Proof.
  cbv zeta. unfold DataAgent.a2a_call, bind, post, lift.
  destruct (http_post _ _ _) as [r w']. reflexivity.
Qed.

End DataRuns.

(** X20.  The data agent forwards any tool, with its arguments, in
    one request to the MCP server, and turns a failed answer of the
    server, an error status or a body with an error, into an object
    with ok false and the error instead of raising; the router,
    receiving that object, raises a RuntimeError with the same
    error. *)
Theorem data_agent_reports_mcp_failure
        (W : Type) (http_post : W -> string -> json -> response * W)
        (payload : DataAgent.A2ACall) (st : rstate W) :
  let body := mcp_body (DataAgent.tool payload)
                       (JObj (DataAgent.arguments payload)) in
  let r := fst (http_post (world st) MCP_URL body) in
  r <> NoResponse ->
  failed r = true ->
  exists e st',
    DataAgent.a2a_call http_post payload st = (Ok (error_answer e), st')
    /\ sent st' = (sent st ++ [Exchange MCP_URL body r])%list
    /\ decode (served (error_answer e)) = Raise (RuntimeError e).
Proof.
  intros body r Hr Hf. destruct (forward_failed r Hr Hf) as [e He].
  exists e. eexists. rewrite data_a2a_call_runs. cbv zeta.
  subst r body. rewrite He. repeat split.
Qed.

Lemma data_agent_reports_mcp_failure_witness :
  exists e st',
    DataAgent.a2a_call Script.scripted get_customer_payload
                       (arrive [Response 500 None])
    = (Ok (error_answer e), st')
    /\ sent st'
       = [Exchange MCP_URL
                   (mcp_body "get_customer" (JObj [("customer_id", JInt 5)]))
                   (Response 500 None)]
    /\ decode (served (error_answer e)) = Raise (RuntimeError e).
Proof.
  apply (data_agent_reports_mcp_failure
           _ Script.scripted get_customer_payload (arrive [Response 500 None])).
  - discriminate.
  - reflexivity.
Defined.

(** X21.  The two agents read an answer of the MCP server alike.
    What the support agent takes as the result of a response, the
    data agent returns for it; and what the data agent returns is that
    result, or the object with ok false where the support agent
    raises on a failure, or the object with ok true where the support
    agent raises a KeyError on an answer without a result. *)
Theorem agents_read_mcp_alike
        (r : response) (v : json) :
  (SupportAgent.mcp_decode r = Ok v -> DataAgent.forward r = Ok v)
  /\ (DataAgent.forward r = Ok v ->
      SupportAgent.mcp_decode r = Ok v
      \/ (exists e e', v = error_answer e
                       /\ SupportAgent.mcp_decode r = Raise e'
                       /\ failed r = true)
      \/ (v = JObj [("ok", JBool true)]
          /\ SupportAgent.mcp_decode r = Raise (KeyError "result"))).
Proof.
  split.
  { destruct r as [|status body]; [discriminate|].
    unfold DataAgent.forward, SupportAgent.mcp_decode.
    destruct (error_status status); [discriminate|].
    destruct body as [data|]; [|discriminate].
    destruct (Py.contains "error" data) as [[|]|]; cbn [obind];
      [destruct (Py.getitem data "error"); discriminate| |discriminate].
    destruct data as [| | | | |d]; try discriminate.
    cbn [Py.getitem Py.get]. destruct (Py.dict_has d "result") eqn:R;
      [|discriminate].
    intros H. injection H as <-. f_equal. apply dict_get_present, R. }
  intros H.
  destruct r as [|status body]; [discriminate H|].
  unfold DataAgent.forward in H. unfold SupportAgent.mcp_decode, failed.
  destruct (error_status status).
  { right. left. injection H as <-. eexists. eexists. repeat split. }
  cbn [orb]. destruct body as [data|]; [|discriminate H].
  destruct (Py.contains "error" data) as [[|]|] eqn:C; cbn [obind] in *;
    [| |discriminate H].
  - destruct (Py.getitem data "error") as [e|] eqn:G; cbn [obind] in *;
      [|discriminate H].
    injection H as <-. right. left. exists e. eexists. repeat split.
    destruct data; try discriminate G. cbn [Py.contains] in C. congruence.
  - destruct data as [| | | | |d]; try discriminate H.
    cbn [Py.get] in H. injection H as <-. cbn [Py.getitem].
    destruct (Py.dict_has d "result") eqn:R.
    + left. f_equal. apply dict_get_present, R.
    + right. right. rewrite (dict_get_absent _ _ _ R). auto.
Qed.

Lemma agents_read_mcp_alike_witness :
  (SupportAgent.mcp_decode (tickets_answer [])
   = Ok (JObj [("tickets", JList [])]) ->
   DataAgent.forward (tickets_answer []) = Ok (JObj [("tickets", JList [])]))
  /\ (DataAgent.forward (tickets_answer []) = Ok (JObj [("tickets", JList [])]) ->
      SupportAgent.mcp_decode (tickets_answer [])
      = Ok (JObj [("tickets", JList [])])
      \/ (exists e e', JObj [("tickets", JList [])] = error_answer e
                       /\ SupportAgent.mcp_decode (tickets_answer []) = Raise e'
                       /\ failed (tickets_answer []) = true)
      \/ (JObj [("tickets", JList [])] = JObj [("ok", JBool true)]
          /\ SupportAgent.mcp_decode (tickets_answer [])
             = Raise (KeyError "result"))).
Proof.
  exact (agents_read_mcp_alike (tickets_answer [])
                               (JObj [("tickets", JList [])])).
Defined.

Section ServerRuns.

Context {DB : Type}.
Variable mcp_get_customer : Z -> DB -> outcome json * DB.
Variable mcp_list_customers : json -> Z -> DB -> outcome json * DB.
Variable mcp_update_customer : Z -> json -> DB -> outcome json * DB.
Variable mcp_create_ticket : Z -> string -> string -> DB -> outcome json * DB.
Variable mcp_get_customer_history : Z -> DB -> outcome json * DB.
Variable describe : exn -> string.

Lemma run_tool_known (tool : string) (args : json) :
  (In tool mcp_tools /\ exists f, McpServer.run_tool mcp_get_customer mcp_list_customers
          mcp_update_customer mcp_create_ticket
          mcp_get_customer_history tool args = Some f)
  \/ (~ In tool mcp_tools /\ McpServer.run_tool mcp_get_customer mcp_list_customers
          mcp_update_customer mcp_create_ticket
          mcp_get_customer_history tool args = None).
Proof.
  unfold McpServer.run_tool, mcp_tools. cbn [In].
  destruct (String.eqb_spec tool "get_customer"); [left; split; eauto|].
  destruct (String.eqb_spec tool "list_customers"); [left; split; eauto|].
  destruct (String.eqb_spec tool "update_customer"); [left; split; eauto 6|].
  destruct (String.eqb_spec tool "create_ticket"); [left; split; eauto 6|].
  destruct (String.eqb_spec tool "get_customer_history");
    [left; split; eauto 7|].
  right. split; [|reflexivity]. intuition congruence.
Qed.

(** The ways a request ends. *)
Lemma handler_cases (req : McpServer.JsonRpcRequest) (db : DB) :
  (exists e, McpServer.mcp_handler mcp_get_customer mcp_list_customers
          mcp_update_customer mcp_create_ticket
          mcp_get_customer_history describe req db = (Raise e, db)
             /\ McpServer.method req = "tools/call"
             /\ McpServer.called_tool (params_of req) = Raise e)
  \/ (exists res db',
        McpServer.mcp_handler mcp_get_customer mcp_list_customers
          mcp_update_customer mcp_create_ticket
          mcp_get_customer_history describe req db = (Ok (McpServer.rpc_result (McpServer.id req) res), db'))
  \/ (exists code message,
        McpServer.mcp_handler mcp_get_customer mcp_list_customers
          mcp_update_customer mcp_create_ticket
          mcp_get_customer_history describe req db
        = (Ok (McpServer.rpc_error (McpServer.id req) code message), db)
        /\ (code = -32602 \/ code = -32601)%Z)
  \/ (exists e f message db',
        McpServer.mcp_handler mcp_get_customer mcp_list_customers
          mcp_update_customer mcp_create_ticket
          mcp_get_customer_history describe req db
        = (Ok (McpServer.rpc_error (McpServer.id req) (-32001) message), db')
        /\ McpServer.method req = "tools/call"
        /\ McpServer.run_tool mcp_get_customer mcp_list_customers
          mcp_update_customer mcp_create_ticket
          mcp_get_customer_history (match McpServer.called_tool (params_of req) with
                    | Ok tool => tool
                    | Raise _ => EmptyString
                    end)
                   (McpServer.called_args (params_of req)) = Some f
        /\ f db = (Raise e, db')
        /\ message = "Tool execution error: " ++ describe e).
Proof.
  unfold McpServer.mcp_handler. fold (params_of req). cbv zeta.
  destruct (String.eqb_spec (McpServer.method req) "tools/list");
    [right; left; eauto|].
  destruct (String.eqb_spec (McpServer.method req) "tools/call") as [Hm|_].
  - destruct (McpServer.called_tool (params_of req)) as [tool|e];
      [|left; eauto].
    destruct (is_empty tool); [right; right; left; eauto|].
    destruct (McpServer.run_tool mcp_get_customer mcp_list_customers
          mcp_update_customer mcp_create_ticket
          mcp_get_customer_history tool (McpServer.called_args (params_of req)))
      as [f|] eqn:F; [|right; right; left; eauto].
    destruct (f db) as [[res|e] db'] eqn:R.
    + right; left; eauto.
    + right; right; right. exists e, f. eexists. exists db'.
      repeat split; auto.
  - destruct (String.eqb (McpServer.method req) "initialize");
      [right; left; eauto|].
    destruct (String.eqb (McpServer.method req) "notifications/initialized");
      [right; left; eauto|].
    right; right; left; eauto.
Qed.

Lemma called_by_agent (tool : string) (args : dict) :
  McpServer.called_tool (params_of (McpServer.from_agent tool (JObj args)))
  = Ok (strip tool).
Proof.
  unfold params_of, McpServer.from_agent, McpServer.called_tool.
  cbn [McpServer.params Py.dict_get String.eqb Ascii.eqb Bool.eqb].
  unfold or_else. destruct tool; reflexivity.
Qed.

End ServerRuns.

Lemma forward_result (id res : json) :
  DataAgent.forward (served (McpServer.rpc_result id res)) = Ok res.
Proof. reflexivity. Qed.

Lemma forward_error (id : json) (code : Z) (message : string) :
  DataAgent.forward (served (McpServer.rpc_error id code message))
  = Ok (error_answer (JObj [("code", JInt code); ("message", JStr message)])).
Proof. reflexivity. Qed.

(** X22.  Every request the MCP server answers is answered with an
    object that echoes the id of the request under the version 2.0 and
    holds either a result or an error whose code is -32602, -32601 or
    -32001; an exception raised by a tool, or while reading its
    arguments, becomes the error -32001 with the text of the
    exception.  The handler itself raises only for a call whose tool
    name is not a string, and then leaves the database as it was. *)
Theorem handler_answers_result_or_error
        (DB : Type)
        (mcp_get_customer : Z -> DB -> outcome json * DB)
        (mcp_list_customers : json -> Z -> DB -> outcome json * DB)
        (mcp_update_customer : Z -> json -> DB -> outcome json * DB)
        (mcp_create_ticket : Z -> string -> string -> DB -> outcome json * DB)
        (mcp_get_customer_history : Z -> DB -> outcome json * DB)
        (describe : exn -> string)
        (req : McpServer.JsonRpcRequest) (db : DB) :
  let run := McpServer.mcp_handler
               mcp_get_customer mcp_list_customers mcp_update_customer
               mcp_create_ticket mcp_get_customer_history describe req db in
  (exists e, run = (Raise e, db)
             /\ McpServer.method req = "tools/call"
             /\ McpServer.called_tool (params_of req) = Raise e)
  \/ (exists res db',
        run = (Ok (McpServer.rpc_result (McpServer.id req) res), db'))
  \/ (exists code message db',
        run = (Ok (McpServer.rpc_error (McpServer.id req) code message), db')
        /\ In code rpc_error_codes
        /\ (code <> (-32001)%Z -> db' = db)).
Proof.
  intros run. subst run.
  destruct (handler_cases mcp_get_customer mcp_list_customers
                          mcp_update_customer mcp_create_ticket
                          mcp_get_customer_history describe req db)
    as [H|[H|[H|H]]].
  - left. exact H.
  - right. left. exact H.
  - right. right. destruct H as (code & message & H & Hc).
    exists code, message, db. split; [exact H|split; [|reflexivity]].
    unfold rpc_error_codes. cbn [In]. destruct Hc; auto.
  - right. right. destruct H as (e & f & message & db' & H & _).
    exists (-32001)%Z, message, db'. split; [exact H|split].
    + unfold rpc_error_codes. cbn [In]. auto.
    + congruence.
Qed.

(** X23.  The MCP server changes the database only by running one of
    its five tools: a request for another method, without a tool name
    or for a tool it does not have leaves the database as it was, and
    so does a request for a tool that needs a customer id when the
    arguments hold none that converts to an integer. *)
Theorem handler_touches_database_only_in_tools
        (DB : Type)
        (mcp_get_customer : Z -> DB -> outcome json * DB)
        (mcp_list_customers : json -> Z -> DB -> outcome json * DB)
        (mcp_update_customer : Z -> json -> DB -> outcome json * DB)
        (mcp_create_ticket : Z -> string -> string -> DB -> outcome json * DB)
        (mcp_get_customer_history : Z -> DB -> outcome json * DB)
        (describe : exn -> string)
        (req : McpServer.JsonRpcRequest) (db : DB) :
  let run := McpServer.mcp_handler
               mcp_get_customer mcp_list_customers mcp_update_customer
               mcp_create_ticket mcp_get_customer_history describe req db in
  snd run <> db ->
  exists tool,
    McpServer.method req = "tools/call"
    /\ McpServer.called_tool (params_of req) = Ok tool
    /\ In tool mcp_tools
    /\ (tool <> "list_customers" ->
        exists cid,
          McpServer.customer_arg (McpServer.called_args (params_of req))
          = Ok cid).
Proof.
  intros run. subst run. unfold McpServer.mcp_handler.
  fold (params_of req). cbv zeta.
  destruct (String.eqb_spec (McpServer.method req) "tools/list");
    [intros H; elim H; reflexivity|].
  destruct (String.eqb_spec (McpServer.method req) "tools/call") as [Hm|_].
  2: { destruct (String.eqb (McpServer.method req) "initialize");
         [intros H; elim H; reflexivity|].
       destruct (String.eqb (McpServer.method req) "notifications/initialized");
         intros H; elim H; reflexivity. }
  destruct (McpServer.called_tool (params_of req)) as [tool|e];
    [|intros H; elim H; reflexivity].
  destruct (is_empty tool); [intros H; elim H; reflexivity|].
  set (args := McpServer.called_args (params_of req)).
  unfold McpServer.run_tool, mcp_tools. cbn [In].
  destruct (String.eqb_spec tool "get_customer") as [->|N1].
  { intros H. exists "get_customer". repeat split; auto.
    intros _. unfold McpServer.with_arguments in H.
    destruct (McpServer.customer_arg args) as [cid|e]; [eauto|].
    elim H. reflexivity. }
  destruct (String.eqb_spec tool "list_customers") as [->|N2].
  { intros H. exists "list_customers". repeat split; auto. congruence. }
  destruct (String.eqb_spec tool "update_customer") as [->|N3].
  { intros H. exists "update_customer". repeat split; auto.
    intros _. unfold McpServer.with_arguments in H.
    destruct (McpServer.customer_arg args) as [cid|e]; [eauto|].
    elim H. reflexivity. }
  destruct (String.eqb_spec tool "create_ticket") as [->|N4].
  { intros H. exists "create_ticket". repeat split; auto 6.
    intros _. unfold McpServer.with_arguments in H.
    destruct (McpServer.customer_arg args) as [cid|e]; [eauto|].
    elim H. reflexivity. }
  destruct (String.eqb_spec tool "get_customer_history") as [->|N5].
  { intros H. exists "get_customer_history". repeat split; auto 7.
    intros _. unfold McpServer.with_arguments in H.
    destruct (McpServer.customer_arg args) as [cid|e]; [eauto|].
    elim H. reflexivity. }
  intros H. elim H. reflexivity.
Qed.

Lemma handler_touches_database_only_in_tools_witness :
  exists tool,
    McpServer.method
      (McpServer.from_agent "get_customer" (JObj [("customer_id", JInt 5)]))
    = "tools/call"
    /\ McpServer.called_tool
         (params_of (McpServer.from_agent
                       "get_customer" (JObj [("customer_id", JInt 5)])))
       = Ok tool
    /\ In tool mcp_tools
    /\ (tool <> "list_customers" ->
        exists cid,
          McpServer.customer_arg
            (McpServer.called_args
               (params_of (McpServer.from_agent
                             "get_customer" (JObj [("customer_id", JInt 5)]))))
          = Ok cid).
Proof.
  apply (handler_touches_database_only_in_tools
           (list Z) no_customer (fun _ _ db => (Raise ValueError, db))
           (fun _ _ db => (Raise ValueError, db))
           (fun _ _ _ db => (Raise ValueError, db))
           (fun _ db => (Raise ValueError, db))
           (fun _ => EmptyString)
           (McpServer.from_agent "get_customer" (JObj [("customer_id", JInt 5)]))
           []).
  vm_compute. discriminate.
Defined.

(** X24.  From the MCP server to the router.  A call that the data
    agent forwards is always answered by the server, whatever the tool
    and the arguments; a result of the server is what the data agent
    returns, and an error of the server comes back from the data agent
    as the object with ok false and that error, on which the router
    raises a RuntimeError with that error. *)
Theorem data_path_end_to_end
        (DB : Type)
        (mcp_get_customer : Z -> DB -> outcome json * DB)
        (mcp_list_customers : json -> Z -> DB -> outcome json * DB)
        (mcp_update_customer : Z -> json -> DB -> outcome json * DB)
        (mcp_create_ticket : Z -> string -> string -> DB -> outcome json * DB)
        (mcp_get_customer_history : Z -> DB -> outcome json * DB)
        (describe : exn -> string)
        (tool : string) (args : dict) (db : DB) :
  exists answer db',
    McpServer.mcp_handler
      mcp_get_customer mcp_list_customers mcp_update_customer
      mcp_create_ticket mcp_get_customer_history describe
      (McpServer.from_agent tool (JObj args)) db
    = (Ok answer, db')
    /\ ((exists res,
           answer = McpServer.rpc_result (JStr "x") res
           /\ DataAgent.forward (served answer) = Ok res)
        \/ (exists code message,
              let e := JObj [("code", JInt code); ("message", JStr message)] in
              answer = McpServer.rpc_error (JStr "x") code message
              /\ DataAgent.forward (served answer) = Ok (error_answer e)
              /\ decode (served (error_answer e)) = Raise (RuntimeError e))).
Proof.
  destruct (handler_cases mcp_get_customer mcp_list_customers
                          mcp_update_customer mcp_create_ticket
                          mcp_get_customer_history describe
                          (McpServer.from_agent tool (JObj args)) db)
    as [H|[H|[H|H]]].
  - destruct H as (e & _ & _ & H). rewrite called_by_agent in H. discriminate H.
  - destruct H as (res & db' & H). eexists. exists db'. split; [exact H|].
    left. exists res. split; reflexivity.
  - destruct H as (code & message & H & _). eexists. exists db.
    split; [exact H|]. right. exists code, message. repeat split.
  - destruct H as (e & f & message & db' & H & _). eexists. exists db'.
    split; [exact H|]. right. exists (-32001)%Z, message. repeat split.
Qed.

(** *** Messages to the data agent *)

Lemma digit_is_word (c : ascii) :
  is_digit c = true -> DataAgent.is_word c = true.
Proof.
  unfold is_digit, DataAgent.is_word. cbv zeta. intros H. rewrite H. reflexivity.
Qed.

Lemma no_word_no_digit (s : string) :
  starts_with DataAgent.is_word s = false -> starts_with is_digit s = false.
Proof.
  destruct s as [|c r]; [reflexivity|]. cbn [starts_with]. intros H.
  destruct (is_digit c) eqn:D; [|reflexivity].
  rewrite (digit_is_word _ D) in H. discriminate H.
Qed.

Lemma match_number_sound (s g : string) :
  DataAgent.match_number s = Some g ->
  exists post, s = g ++ post
               /\ short_number g = true
               /\ starts_with DataAgent.is_word post = false.
Proof.
  unfold DataAgent.match_number, short_number.
  destruct (span is_digit s) as [ds rest] eqn:S.
  apply span_spec in S. destruct S as (-> & Hall & _).
  destruct (is_empty ds) eqn:E1; [discriminate|].
  destruct (String.length ds <=? 10)%nat eqn:E2; [|discriminate].
  destruct (starts_with DataAgent.is_word rest) eqn:R; [discriminate|].
  cbn [negb andb]. intros H. injection H as <-.
  exists rest. rewrite Hall, E1, E2. repeat split. exact R.
Qed.

Lemma match_number_complete (g post : string) :
  short_number g = true ->
  starts_with DataAgent.is_word post = false ->
  DataAgent.match_number (g ++ post) = Some g.
Proof.
  unfold short_number. intros H Hp.
  apply andb_true_iff in H. destruct H as [H Hlen].
  apply andb_true_iff in H. destruct H as [Hne Hall].
  unfold DataAgent.match_number.
  assert (S : span is_digit (g ++ post) = (g, post)).
  { apply span_spec. auto using no_word_no_digit. }
  rewrite S, Hne, Hlen, Hp. reflexivity.
Qed.

Lemma search_number_sound (s : string) :
  forall (after_word : bool) (g : string),
    DataAgent.search_number_from after_word s = Some g ->
    exists pre post,
      s = pre ++ g ++ post
      /\ short_number g = true
      /\ ends_in_word after_word pre = false
      /\ starts_with DataAgent.is_word post = false.
Proof.
  induction s as [|c r IH]; intros aw g H; cbn [DataAgent.search_number_from] in H.
  - destruct aw; [discriminate H|].
    destruct (DataAgent.match_number "") as [g0|] eqn:M; [|discriminate H].
    injection H as ->. apply match_number_sound in M.
    destruct M as (post & E & Hg & Hp). exists "", post. auto.
  - destruct (if aw then None else DataAgent.match_number (String c r))
      as [g0|] eqn:M.
    + injection H as ->. destruct aw; [discriminate M|].
      apply match_number_sound in M. destruct M as (post & E & Hg & Hp).
      exists "", post. auto.
    + apply IH in H. destruct H as (pre & post & -> & Hg & He & Hp).
      exists (String c pre), post. auto.
Qed.

Lemma search_number_complete (pre g post : string) :
  forall after_word : bool,
    short_number g = true ->
    ends_in_word after_word pre = false ->
    starts_with DataAgent.is_word post = false ->
    exists g', DataAgent.search_number_from after_word (pre ++ g ++ post)
               = Some g'.
Proof.
  induction pre as [|c pre IH]; intros aw Hg He Hp.
  - cbn [ends_in_word] in He. subst aw. exists g. cbn [append].
    destruct (g ++ post) eqn:E; cbn [DataAgent.search_number_from];
      rewrite <- E, (match_number_complete _ _ Hg Hp); reflexivity.
  - cbn [append DataAgent.search_number_from].
    destruct (if aw then None else DataAgent.match_number _) as [g0|];
      [eauto|].
    apply IH; assumption.
Qed.

Section DataMessages.

Context {W : Type}.
Variable http_post : W -> string -> json -> response * W.

Lemma da_message_found (content g : string) (st : rstate W) :
  DataAgent.search_number content = Some g ->
  exists r,
    sent (snd (DataAgent.da_message http_post content st))
    = (sent st ++ [Exchange MCP_URL (customer_request (int_of_digits g)) r])%list.
Proof.
  intros H. unfold DataAgent.da_message. rewrite H. cbv zeta.
  rewrite data_a2a_call_runs. cbv zeta. eexists. reflexivity.
Qed.

Lemma da_message_not_found (content : string) (st : rstate W) :
  DataAgent.search_number content = None ->
  DataAgent.da_message http_post content st = (Ok message_note, st).
Proof.
  intros H. unfold DataAgent.da_message. rewrite H. reflexivity.
Qed.

End DataMessages.

(** X25.  A message makes the data agent send a request only for a
    number that stands alone in its text.  Either nothing is sent and
    the answer is the note that no rule matched, or the text holds a
    run of one to ten decimal digits that neither follows nor precedes
    a character of a word, and the one request sent asks for the
    customer whose id is that number. *)
Theorem message_request_is_standalone_number
        (W : Type) (http_post : W -> string -> json -> response * W)
        (content : string) (st : rstate W) :
  DataAgent.da_message http_post content st = (Ok message_note, st)
  \/ exists pre g post r,
      content = pre ++ g ++ post
      /\ short_number g = true
      /\ ends_in_word false pre = false
      /\ starts_with DataAgent.is_word post = false
      /\ sent (snd (DataAgent.da_message http_post content st))
         = (sent st
            ++ [Exchange MCP_URL (customer_request (int_of_digits g)) r])%list.
Proof.
  destruct (DataAgent.search_number content) as [g|] eqn:S.
  - right. destruct (da_message_found http_post content g st S) as [r Hr].
    apply search_number_sound in S.
    destruct S as (pre & post & E & Hg & He & Hp).
    exists pre, g, post, r. auto.
  - left. apply da_message_not_found, S.
Qed.

(** X26.  Conversely, a message whose text holds a number that stands
    alone, a run of one to ten decimal digits between characters that
    are not of a word, always makes the data agent send one request
    for a customer. *)
Theorem standalone_number_is_looked_up
        (W : Type) (http_post : W -> string -> json -> response * W)
        (pre g post : string) (st : rstate W) :
  short_number g = true ->
  ends_in_word false pre = false ->
  starts_with DataAgent.is_word post = false ->
  exists n r,
    sent (snd (DataAgent.da_message http_post (pre ++ g ++ post) st))
    = (sent st ++ [Exchange MCP_URL (customer_request n) r])%list.
Proof.
  intros Hg He Hp.
  destruct (search_number_complete pre g post false Hg He Hp) as [g' S].
  destruct (da_message_found http_post _ g' st S) as [r Hr]. eauto.
Qed.

Lemma standalone_number_is_looked_up_witness :
  exists n r,
    sent (snd (DataAgent.da_message Script.scripted
                                    ("customer: " ++ "0042" ++ ".")
                                    (arrive [])))
    = (sent (arrive (W := list response) [])
       ++ [Exchange MCP_URL (customer_request n) r])%list.
Proof.
  apply (standalone_number_is_looked_up
           _ Script.scripted "customer: " "0042" "." (arrive []));
    reflexivity.
Defined.
